(** * Printer dashboard (gui.py): counter, auto run, print lock, config store

    A shallow embedding of the logic of [src/gui.py]: the configuration
    store ([load_config], [save_config]), the accessors of the USB
    identifiers, the printer connection, the two print jobs, the counter
    operations, the auto run with its worker thread, and the validation of
    the settings dialog.

    How the program is modelled:
    - Python values are [pyval]; integers are unbounded ([Z]); the interval
      of the auto run is a binary64 float ([PrimFloat.float]).
    - Statements are functions from the state to an outcome (a value or an
      exception) and a state, with combinators for [try/except] and
      [try/finally].
    - Text is held as its UTF-8 bytes.  [int(text, base)] and
      [str.strip()] follow CPython 3.11 (Unicode 14.0): the blanks and the
      decimal digits of every script, and the limit of 4300 digits of
      [int] in base 10.  [float(text)] and [time.sleep(interval)] depend
      on the interpreter and the platform and are parameters.
    - The USB transport is a script of outcomes: every [Usb(..)] and every
      call on a handle consumes the next outcome and may fail.
    - The Tk queue of [self.after(0, ..)] is first in, first out; each
      callback and each handler of a user action runs to its end on the
      main thread, while the worker thread moves in steps between them.
      The only attributes the worker shares with them are [auto_running],
      [print_scheduled] (written under [_ui_lock]) and the queue.
    - [_make_popup] and [self.after] are taken not to fail.
    - Widget styling is left out; the widgets the logic reads or writes are
      optional fields (absent widget = [None]). *)

From Stdlib Require Import ZArith String Ascii List Bool Lia PrimFloat.
From stdpp Require Import gmap strings list fin_maps pretty.

Set Warnings "-register-all,-inexact-float".
Open Scope string_scope.
Open Scope Z_scope.

(* ===================================================================== *)
(** ** Python values and the builtins the program calls                  *)
(* ===================================================================== *)

(** What [json.load] can return and what the attributes of the
    application hold. *)
Inductive pyval : Type :=
| PyNone
| PyBool (b : bool)
| PyInt (z : Z)
| PyFloat (f : float)
| PyStr (s : string)
| PyList (l : list pyval)
| PyDict (m : gmap string pyval).

(** [isinstance(v, str)] and [isinstance(v, int)] ([bool] is a subclass of
    [int] in Python). *)
Definition is_str (v : pyval) : bool :=
  match v with PyStr _ => true | _ => false end.

Definition is_int (v : pyval) : bool :=
  match v with PyInt _ | PyBool _ => true | _ => false end.

(** Exceptions the program distinguishes (the handlers are either
    [except Exception], a bare [except], or
    [except (ValueError, AttributeError)]). *)
Inductive exn : Type :=
| ValueError
| AttributeError
| TypeError
| OverflowError
| RuntimeError
| OSError
| ZeroDivisionError
| USBError.

Definition code (c : ascii) : Z := Z.of_N (N_of_ascii c).

Definition nl : string := String (ascii_of_N 10) "".

(** The blanks of [str.isspace] below 128: TAB..CR, FS..US and the
    space. *)
Definition is_space (c : ascii) : bool :=
  ((9 <=? code c) && (code c <=? 13)) || ((28 <=? code c) && (code c <=? 32)).

(** Whitespace skipped by [int(text, base)] around the number, once the
    text is ASCII: TAB..CR and the space. *)
Definition is_int_space (c : ascii) : bool :=
  ((9 <=? code c) && (code c <=? 13)) || (code c =? 32).

Fixpoint lstrip (sp : ascii -> bool) (s : string) : string :=
  match s with
  | String c r => if sp c then lstrip sp r else s
  | EmptyString => EmptyString
  end.

Definition rstrip (sp : ascii -> bool) (s : string) : string :=
  String.rev (lstrip sp (String.rev s)).

(** The other blanks of [str.isspace], by their UTF-8 bytes: U+0085 and
    U+00A0; U+1680, U+2000..U+200A, U+2028, U+2029, U+202F, U+205F and
    U+3000. *)
Definition space_bytes2 (a b : Z) : bool :=
  (a =? 0xC2) && ((b =? 0x85) || (b =? 0xA0)).

Definition space_bytes3 (a b c : Z) : bool :=
  ((a =? 0xE1) && (b =? 0x9A) && (c =? 0x80)) ||
  ((a =? 0xE2) && (b =? 0x80) &&
   (((0x80 <=? c) && (c <=? 0x8A)) || (c =? 0xA8) || (c =? 0xA9) ||
    (c =? 0xAF))) ||
  ((a =? 0xE2) && (b =? 0x81) && (c =? 0x9F)) ||
  ((a =? 0xE3) && (b =? 0x80) && (c =? 0x80)).

(** Blanks removed from the front of a text; with [back] the text is read
    from its end, so the bytes of a character come last byte first. *)
Fixpoint lstrip_text (back : bool) (s : string) : string :=
  match s with
  | String c r =>
      if is_space c then lstrip_text back r
      else
        match r with
        | String c2 r2 =>
            if (if back then space_bytes2 (code c2) (code c)
                else space_bytes2 (code c) (code c2))
            then lstrip_text back r2
            else
              match r2 with
              | String c3 r3 =>
                  if (if back
                      then space_bytes3 (code c3) (code c2) (code c)
                      else space_bytes3 (code c) (code c2) (code c3))
                  then lstrip_text back r3
                  else s
              | EmptyString => s
              end
        | EmptyString => s
        end
  | EmptyString => EmptyString
  end.

(** [s.strip()] *)
Definition strip (s : string) : string :=
  String.rev (lstrip_text true (String.rev (lstrip_text false s))).

(** [s.startswith(p)] *)
Definition startswith (s p : string) : bool := String.prefix p s.

(** [needle in hay] for two strings. *)
Definition str_contains (hay needle : string) : bool :=
  match String.index 0 needle hay with Some _ => true | None => false end.

(** Value of a digit character in bases up to 36. *)
Definition digit_val (c : ascii) : option Z :=
  let n := code c in
  if (48 <=? n) && (n <=? 57) then Some (n - 48)
  else if (97 <=? n) && (n <=? 122) then Some (n - 87)
  else if (65 <=? n) && (n <=? 90) then Some (n - 55)
  else None.

(** The digits of an integer literal: at least one digit, single
    underscores only between two digits.  [prev] tells whether the
    character before was a digit. *)
Fixpoint int_digits (base : Z) (prev : bool) (acc : Z) (s : string)
  : option Z :=
  match s with
  | EmptyString => if prev then Some acc else None
  | String c r =>
      if Ascii.eqb c "_" then
        if prev then int_digits base false acc r else None
      else
        match digit_val c with
        | Some d =>
            if d <? base then int_digits base true (acc * base + d) r
            else None
        | None => None
        end
  end.

(** After the sign: for base 16 an optional [0x]/[0X] which one underscore
    may follow. *)
Definition int_body (base : Z) (s : string) : option Z :=
  match s with
  | String "0" (String x r) =>
      if (base =? 16) && (Ascii.eqb x "x" || Ascii.eqb x "X") then
        match r with
        | String "_" r' => int_digits base false 0 r'
        | _ => int_digits base false 0 r
        end
      else int_digits base false 0 s
  | _ => int_digits base false 0 s
  end.

(** The code points [str.isspace] accepts. *)
Definition unicode_space (cp : Z) : bool :=
  ((9 <=? cp) && (cp <=? 13)) || ((28 <=? cp) && (cp <=? 32)) ||
  (cp =? 0x85) || (cp =? 0xA0) || (cp =? 0x1680) ||
  ((0x2000 <=? cp) && (cp <=? 0x200A)) || (cp =? 0x2028) || (cp =? 0x2029) ||
  (cp =? 0x202F) || (cp =? 0x205F) || (cp =? 0x3000).

(** The decimal digits of Unicode 14.0 come in runs of ten; these are the
    zeros. *)
Definition decimal_zeros : list Z :=
  [ 0x30; 0x660; 0x6f0; 0x7c0; 0x966; 0x9e6; 0xa66; 0xae6; 0xb66;
    0xbe6; 0xc66; 0xce6; 0xd66; 0xde6; 0xe50; 0xed0; 0xf20; 0x1040;
    0x1090; 0x17e0; 0x1810; 0x1946; 0x19d0; 0x1a80; 0x1a90; 0x1b50;
    0x1bb0; 0x1c40; 0x1c50; 0xa620; 0xa8d0; 0xa900; 0xa9d0; 0xa9f0;
    0xaa50; 0xabf0; 0xff10; 0x104a0; 0x10d30; 0x11066; 0x110f0;
    0x11136; 0x111d0; 0x112f0; 0x11450; 0x114d0; 0x11650; 0x116c0;
    0x11730; 0x118e0; 0x11950; 0x11c50; 0x11d50; 0x11da0; 0x16a60;
    0x16ac0; 0x16b50; 0x1d7ce; 0x1d7d8; 0x1d7e2; 0x1d7ec; 0x1d7f6;
    0x1e140; 0x1e2f0; 0x1e950; 0x1fbf0 ].

Definition unicode_decimal (cp : Z) : option Z :=
  match List.find (fun z => (z <=? cp) && (cp <=? z + 9)) decimal_zeros with
  | Some z => Some (cp - z)
  | None => None
  end.

(** What [int] makes of a character from 127 on: a blank becomes a space,
    a decimal digit its ASCII digit, anything else ends the conversion. *)
Definition ascii_of_cp (cp : Z) : option ascii :=
  if unicode_space cp then Some " "%char
  else
    match unicode_decimal cp with
    | Some d => Some (ascii_of_N (Z.to_N (48 + d)))
    | None => None
    end.

(** The same for a code point written with more bytes than it needs, which
    is not UTF-8: [lo] is the least code point of the length. *)
Definition ascii_of_cp_from (lo cp : Z) : option ascii :=
  if cp <? lo then None else ascii_of_cp cp.

(** The value bits of a continuation byte of UTF-8. *)
Definition cont (c : ascii) : option Z :=
  if (128 <=? code c) && (code c <=? 191) then Some (code c - 128) else None.

(** The first step of [int(text, base)] on a [str]: characters below 127
    stay, the others are decoded and replaced; [None] when a character is
    neither blank nor decimal digit (or the bytes are not UTF-8). *)
Fixpoint decimal_and_space_to_ascii (s : string) : option string :=
  match s with
  | EmptyString => Some EmptyString
  | String c r =>
      let n := code c in
      if n <? 127 then String c <$> decimal_and_space_to_ascii r
      else
        match r with
        | String c2 r2 =>
            match cont c2 with
            | None => None
            | Some x2 =>
                if (0xC2 <=? n) && (n <=? 0xDF) then
                  match ascii_of_cp ((n - 0xC0) * 64 + x2) with
                  | Some a => String a <$> decimal_and_space_to_ascii r2
                  | None => None
                  end
                else
                  match r2 with
                  | String c3 r3 =>
                      match cont c3 with
                      | None => None
                      | Some x3 =>
                          if (0xE0 <=? n) && (n <=? 0xEF) then
                            match ascii_of_cp_from 0x800
                                    (((n - 0xE0) * 64 + x2) * 64 + x3) with
                            | Some a =>
                                String a <$> decimal_and_space_to_ascii r3
                            | None => None
                            end
                          else
                            match r3 with
                            | String c4 r4 =>
                                match cont c4 with
                                | None => None
                                | Some x4 =>
                                    if (0xF0 <=? n) && (n <=? 0xF4) then
                                      match ascii_of_cp_from 0x10000
                                              ((((n - 0xF0) * 64 + x2) * 64
                                                + x3) * 64 + x4) with
                                      | Some a =>
                                          String a <$>
                                            decimal_and_space_to_ascii r4
                                      | None => None
                                      end
                                    else None
                                end
                            | EmptyString => None
                            end
                      end
                  | EmptyString => None
                  end
            end
        | EmptyString => None
        end
  end.

(** The number of digits 0..9 in a text. *)
Fixpoint count_digits (s : string) : Z :=
  match s with
  | EmptyString => 0
  | String c r =>
      (if (48 <=? code c) && (code c <=? 57) then 1 else 0) + count_digits r
  end.

(** [sys.get_int_max_str_digits()], which the program leaves at its
    default. *)
Definition int_max_str_digits : Z := 4300.

(** [int(text, base)] for a [str] and the bases the program uses (10 and
    16); [None] is [ValueError].  Of the two, only base 10 has the limit
    on the number of digits. *)
Definition py_int (base : Z) (text : string) : option Z :=
  match decimal_and_space_to_ascii text with
  | None => None
  | Some t =>
      if (base =? 10) && (int_max_str_digits <? count_digits t) then None
      else
        match rstrip is_int_space (lstrip is_int_space t) with
        | String "+" r => int_body base r
        | String "-" r => Z.opp <$> int_body base r
        | s => int_body base s
        end
  end.

(** [str(n)] for an integer. *)
Definition py_str_int (n : Z) : string := pretty n.

(* ===================================================================== *)
(** ** The state: attributes of [PrinterApp], widgets, and the world      *)
(* ===================================================================== *)

(** A printer handle (an object made by [Usb(...)]), named by the order of
    its creation. *)
Definition handle := nat.

(** Calls on an open handle. *)
Inductive pcmd : Type :=
| PSet (align : option string) (size : option (Z * Z))
| PRaw (bytes : list Z)
| PText (s : string)
| PCut
| PClose.

(** What happened at the USB transport, oldest first. *)
Inductive usb_event : Type :=
| UsbOpen (h : handle) (vid pid iface : pyval)
| UsbOpenFailed (vid pid iface : pyval)
| UsbCall (h : handle) (c : pcmd) (ok : bool).

(** The transport: [script] decides the outcome of the coming calls
    ([true] = the call succeeds, an exhausted script = all succeed). *)
Record usb_world : Type := mkUsb {
  script : list bool;
  usb_log : list usb_event;
  next_handle : handle
}.

(** The configuration file: missing, or holding text that is not JSON, or
    holding a JSON document ([json.dump] then [json.load] is the identity on
    documents, which is the contract of the library). *)
Inductive fcontent : Type :=
| Garbled
| Document (v : pyval).

Record disk : Type := mkDisk {
  content : option fcontent;   (* [None]: the file does not exist *)
  readable : bool;             (* [open(.., 'r')] succeeds *)
  writable : bool;             (* [open(.., 'w')] succeeds *)
  room : bool;                 (* the write of the document completes *)
  writes : nat                 (* how often the file was opened for writing *)
}.

(** A window made by [_make_popup]. *)
Record popup : Type := mkPopup {
  title : string;
  message : string;
  popup_type : string
}.

(** Callbacks handed to [self.after(0, ..)]. *)
Inductive callback : Type :=
| CbSetCounter (v max_count : Z)
| CbPrintAndReset
| CbAutoCleanupUi
| CbPopup (p : popup)
| CbSetDeviceStatus (connected : bool)
| CbPrintCount
| CbTestPrint.

(** Who called [self.after]: the main thread, the worker thread number
    [t], or a presence check. *)
Inductive origin : Type :=
| Main
| Worker (t : nat)
| Probe.

(** Where a worker thread stands in [_auto_worker]. *)
Inductive wpc : Type :=
| WStart
| WTest (i max_count : Z) (interval : float)
| WPost (i max_count : Z) (interval : float)
| WSleep (i max_count : Z) (interval : float)
| WLocked
| WExcept (e : exn)
| WFinally
| WCleanup
| WDone.

Record entry : Type := mkEntry { text : string; enabled : bool }.

(** The widgets the logic touches; [None] when the attribute is missing or
    the widget was destroyed ([hasattr(..) and ..winfo_exists()] fails).
    The progress bar keeps the quotient [v / max_count] as the pair. *)
Record widgets : Type := mkWidgets {
  manual_counter_label : option string;
  auto_counter_label : option string;
  progress_bar : option (Z * Z);
  progress_label : option string;
  max_count_entry : option entry;
  interval_entry : option entry;
  btn_auto : option entry
}.

Record state : Type := mkState {
  (* attributes of PrinterApp *)
  config : pyval;
  counter : Z;
  printer : option handle;
  auto_running : bool;
  _stopped_by_user : bool;
  print_lock : bool;            (* [true]: the lock is held *)
  print_scheduled : bool;
  device_connected : bool;
  status_dot : string;          (* fg_color of the status dot *)
  status_label : string;        (* text of the status label *)
  auto_max_count : Z;
  auto_interval : float;
  ui : widgets;
  (* threads made by [threading.Thread(target=self._auto_worker)] *)
  threads : list wpc;
  (* the Tk queue of [after] callbacks: all that were ever posted, and how
     many of them the main loop has run (first in, first out) *)
  after_log : list (origin * callback);
  after_done : nat;
  (* popups shown so far *)
  popups : list popup;
  (* the world *)
  usb : usb_world;
  fs : disk;
  now_text : string;            (* datetime.now().strftime(..) *)
  now_epoch : Z                 (* int(time.time()) *)
}.

Definition set_config v s :=
  mkState v (counter s) (printer s) (auto_running s) (_stopped_by_user s)
    (print_lock s) (print_scheduled s) (device_connected s) (status_dot s)
    (status_label s) (auto_max_count s) (auto_interval s) (ui s) (threads s)
    (after_log s) (after_done s) (popups s) (usb s) (fs s) (now_text s)
    (now_epoch s).
Definition set_counter v s :=
  mkState (config s) v (printer s) (auto_running s) (_stopped_by_user s)
    (print_lock s) (print_scheduled s) (device_connected s) (status_dot s)
    (status_label s) (auto_max_count s) (auto_interval s) (ui s) (threads s)
    (after_log s) (after_done s) (popups s) (usb s) (fs s) (now_text s)
    (now_epoch s).
Definition set_printer v s :=
  mkState (config s) (counter s) v (auto_running s) (_stopped_by_user s)
    (print_lock s) (print_scheduled s) (device_connected s) (status_dot s)
    (status_label s) (auto_max_count s) (auto_interval s) (ui s) (threads s)
    (after_log s) (after_done s) (popups s) (usb s) (fs s) (now_text s)
    (now_epoch s).
Definition set_auto_running v s :=
  mkState (config s) (counter s) (printer s) v (_stopped_by_user s)
    (print_lock s) (print_scheduled s) (device_connected s) (status_dot s)
    (status_label s) (auto_max_count s) (auto_interval s) (ui s) (threads s)
    (after_log s) (after_done s) (popups s) (usb s) (fs s) (now_text s)
    (now_epoch s).
Definition set_stopped_by_user v s :=
  mkState (config s) (counter s) (printer s) (auto_running s) v (print_lock s)
    (print_scheduled s) (device_connected s) (status_dot s) (status_label s)
    (auto_max_count s) (auto_interval s) (ui s) (threads s) (after_log s)
    (after_done s) (popups s) (usb s) (fs s) (now_text s) (now_epoch s).
Definition set_print_lock v s :=
  mkState (config s) (counter s) (printer s) (auto_running s)
    (_stopped_by_user s) v (print_scheduled s) (device_connected s) (status_dot
    s) (status_label s) (auto_max_count s) (auto_interval s) (ui s) (threads s)
    (after_log s) (after_done s) (popups s) (usb s) (fs s) (now_text s)
    (now_epoch s).
Definition set_print_scheduled v s :=
  mkState (config s) (counter s) (printer s) (auto_running s)
    (_stopped_by_user s) (print_lock s) v (device_connected s) (status_dot s)
    (status_label s) (auto_max_count s) (auto_interval s) (ui s) (threads s)
    (after_log s) (after_done s) (popups s) (usb s) (fs s) (now_text s)
    (now_epoch s).
Definition set_device_connected v s :=
  mkState (config s) (counter s) (printer s) (auto_running s)
    (_stopped_by_user s) (print_lock s) (print_scheduled s) v (status_dot s)
    (status_label s) (auto_max_count s) (auto_interval s) (ui s) (threads s)
    (after_log s) (after_done s) (popups s) (usb s) (fs s) (now_text s)
    (now_epoch s).
Definition set_status_dot v s :=
  mkState (config s) (counter s) (printer s) (auto_running s)
    (_stopped_by_user s) (print_lock s) (print_scheduled s) (device_connected s)
    v (status_label s) (auto_max_count s) (auto_interval s) (ui s) (threads s)
    (after_log s) (after_done s) (popups s) (usb s) (fs s) (now_text s)
    (now_epoch s).
Definition set_status_label v s :=
  mkState (config s) (counter s) (printer s) (auto_running s)
    (_stopped_by_user s) (print_lock s) (print_scheduled s) (device_connected s)
    (status_dot s) v (auto_max_count s) (auto_interval s) (ui s) (threads s)
    (after_log s) (after_done s) (popups s) (usb s) (fs s) (now_text s)
    (now_epoch s).
Definition set_auto_max_count v s :=
  mkState (config s) (counter s) (printer s) (auto_running s)
    (_stopped_by_user s) (print_lock s) (print_scheduled s) (device_connected s)
    (status_dot s) (status_label s) v (auto_interval s) (ui s) (threads s)
    (after_log s) (after_done s) (popups s) (usb s) (fs s) (now_text s)
    (now_epoch s).
Definition set_auto_interval v s :=
  mkState (config s) (counter s) (printer s) (auto_running s)
    (_stopped_by_user s) (print_lock s) (print_scheduled s) (device_connected s)
    (status_dot s) (status_label s) (auto_max_count s) v (ui s) (threads s)
    (after_log s) (after_done s) (popups s) (usb s) (fs s) (now_text s)
    (now_epoch s).
Definition set_ui v s :=
  mkState (config s) (counter s) (printer s) (auto_running s)
    (_stopped_by_user s) (print_lock s) (print_scheduled s) (device_connected s)
    (status_dot s) (status_label s) (auto_max_count s) (auto_interval s) v
    (threads s) (after_log s) (after_done s) (popups s) (usb s) (fs s) (now_text
    s) (now_epoch s).
Definition set_threads v s :=
  mkState (config s) (counter s) (printer s) (auto_running s)
    (_stopped_by_user s) (print_lock s) (print_scheduled s) (device_connected s)
    (status_dot s) (status_label s) (auto_max_count s) (auto_interval s) (ui s)
    v (after_log s) (after_done s) (popups s) (usb s) (fs s) (now_text s)
    (now_epoch s).
Definition set_after_log v s :=
  mkState (config s) (counter s) (printer s) (auto_running s)
    (_stopped_by_user s) (print_lock s) (print_scheduled s) (device_connected s)
    (status_dot s) (status_label s) (auto_max_count s) (auto_interval s) (ui s)
    (threads s) v (after_done s) (popups s) (usb s) (fs s) (now_text s)
    (now_epoch s).
Definition set_after_done v s :=
  mkState (config s) (counter s) (printer s) (auto_running s)
    (_stopped_by_user s) (print_lock s) (print_scheduled s) (device_connected s)
    (status_dot s) (status_label s) (auto_max_count s) (auto_interval s) (ui s)
    (threads s) (after_log s) v (popups s) (usb s) (fs s) (now_text s)
    (now_epoch s).
Definition set_popups v s :=
  mkState (config s) (counter s) (printer s) (auto_running s)
    (_stopped_by_user s) (print_lock s) (print_scheduled s) (device_connected s)
    (status_dot s) (status_label s) (auto_max_count s) (auto_interval s) (ui s)
    (threads s) (after_log s) (after_done s) v (usb s) (fs s) (now_text s)
    (now_epoch s).
Definition set_usb v s :=
  mkState (config s) (counter s) (printer s) (auto_running s)
    (_stopped_by_user s) (print_lock s) (print_scheduled s) (device_connected s)
    (status_dot s) (status_label s) (auto_max_count s) (auto_interval s) (ui s)
    (threads s) (after_log s) (after_done s) (popups s) v (fs s) (now_text s)
    (now_epoch s).
Definition set_fs v s :=
  mkState (config s) (counter s) (printer s) (auto_running s)
    (_stopped_by_user s) (print_lock s) (print_scheduled s) (device_connected s)
    (status_dot s) (status_label s) (auto_max_count s) (auto_interval s) (ui s)
    (threads s) (after_log s) (after_done s) (popups s) (usb s) v (now_text s)
    (now_epoch s).

Definition set_manual_counter_label v w :=
  mkWidgets v (auto_counter_label w) (progress_bar w) (progress_label w)
    (max_count_entry w) (interval_entry w) (btn_auto w).
Definition set_auto_counter_label v w :=
  mkWidgets (manual_counter_label w) v (progress_bar w) (progress_label w)
    (max_count_entry w) (interval_entry w) (btn_auto w).
Definition set_progress_bar v w :=
  mkWidgets (manual_counter_label w) (auto_counter_label w) v
    (progress_label w) (max_count_entry w) (interval_entry w) (btn_auto w).
Definition set_progress_label v w :=
  mkWidgets (manual_counter_label w) (auto_counter_label w) (progress_bar w) v
    (max_count_entry w) (interval_entry w) (btn_auto w).
Definition set_max_count_entry v w :=
  mkWidgets (manual_counter_label w) (auto_counter_label w) (progress_bar w)
    (progress_label w) v (interval_entry w) (btn_auto w).
Definition set_interval_entry v w :=
  mkWidgets (manual_counter_label w) (auto_counter_label w) (progress_bar w)
    (progress_label w) (max_count_entry w) v (btn_auto w).
Definition set_btn_auto v w :=
  mkWidgets (manual_counter_label w) (auto_counter_label w) (progress_bar w)
    (progress_label w) (max_count_entry w) (interval_entry w) v.

(* ===================================================================== *)
(** ** Statements: state passing with exceptions                         *)
(* ===================================================================== *)

Inductive res (A : Type) : Type :=
| Ok (a : A)
| Raise (e : exn).
Arguments Ok {A} a.
Arguments Raise {A} e.

(** A statement runs on a state and ends normally with a value or raises;
    either way it leaves a state. *)
Definition M (A : Type) : Type := state -> res A * state.

Definition ret {A} (a : A) : M A := fun s => (Ok a, s).

Definition raise {A} (e : exn) : M A := fun s => (Raise e, s).

Definition bind {A B} (m : M A) (k : A -> M B) : M B :=
  fun s =>
    match m s with
    | (Ok a, s') => k a s'
    | (Raise e, s') => (Raise e, s')
    end.

Declare Scope py_scope.
Delimit Scope py_scope with py.
Notation "x <- m ;; k" := (bind m (fun x => k))
  (at level 100, m at next level, right associativity) : py_scope.
Notation "m ;; k" := (bind m (fun _ => k))
  (at level 100, right associativity) : py_scope.
Open Scope py_scope.

(** Reading an attribute, and running an update of the state. *)
Definition get {A} (f : state -> A) : M A := fun s => (Ok (f s), s).

Definition modify (f : state -> state) : M unit := fun s => (Ok tt, f s).

(** [try: m  except <those e with catches e>: h e] *)
Definition try_except_on {A} (catches : exn -> bool) (m : M A)
  (h : exn -> M A) : M A :=
  fun s =>
    match m s with
    | (Ok a, s') => (Ok a, s')
    | (Raise e, s') => if catches e then h e s' else (Raise e, s')
    end.

(** [except Exception] and the bare [except:] catch every exception of
    [exn]. *)
Definition try_except {A} (m : M A) (h : exn -> M A) : M A :=
  try_except_on (fun _ => true) m h.

(** [try: m  finally: f]: [f] runs on every way out of [m]; an exception
    of [f] replaces the outcome of [m]. *)
Definition try_finally {A} (m : M A) (f : M unit) : M A :=
  fun s =>
    match m s with
    | (r, s') =>
        match f s' with
        | (Ok _, s'') => (r, s'')
        | (Raise e, s'') => (Raise e, s'')
        end
    end.

(** The state a statement leaves. *)
Definition run {A} (m : M A) (s : state) : state := snd (m s).

(** [_make_popup(master, title, message, popup_type)]: the window is
    recorded; building it is taken not to fail. *)
Definition _make_popup (t msg ty : string) : M unit :=
  modify (fun s => set_popups (popups s ++ [mkPopup t msg ty]) s).

(** [self.after(0, cb)] called by [who]. *)
Definition after (who : origin) (cb : callback) : M unit :=
  modify (fun s => set_after_log (after_log s ++ [(who, cb)]) s).

(** [str(e)] of a caught exception.  The text depends on the interpreter
    and on the driver; the name of the class stands in its place, and no
    statement rests on it. *)
Definition py_str_exn (e : exn) : string :=
  match e with
  | ValueError => "ValueError"
  | AttributeError => "AttributeError"
  | TypeError => "TypeError"
  | OverflowError => "OverflowError"
  | RuntimeError => "RuntimeError"
  | OSError => "OSError"
  | ZeroDivisionError => "ZeroDivisionError"
  | USBError => "USBError"
  end.

(* ===================================================================== *)
(** ** Config store: [DEFAULT_CONFIG], [load_config], [save_config]       *)
(* ===================================================================== *)

(** The dict literal, in the order of its keys. *)
Definition DEFAULT_CONFIG : list (string * pyval) :=
  [ ("vendor_id", PyStr "0x0fe6");
    ("product_id", PyStr "0x811e");
    ("interface", PyInt 0);
    ("auto_max_count", PyInt 10);
    ("auto_interval", PyFloat 1%float) ].

(** [DEFAULT_CONFIG.copy()] *)
Definition default_config : pyval := PyDict (list_to_map DEFAULT_CONFIG).

(** [key in container] for a string key; numbers, booleans and [None] are
    not iterable. *)
Definition py_contains (container : pyval) (key : string) : res bool :=
  match container with
  | PyDict m => Ok (bool_decide (is_Some (m !! key)))
  | PyList l =>
      Ok (existsb (fun v => match v with
                            | PyStr s => String.eqb s key
                            | _ => false
                            end) l)
  | PyStr s => Ok (str_contains s key)
  | _ => Raise TypeError
  end.

(** [container[key] = v] for a string key: only a dict supports it. *)
Definition py_setitem (container : pyval) (key : string) (v : pyval)
  : res pyval :=
  match container with
  | PyDict m => Ok (PyDict (<[key := v]> m))
  | _ => Raise TypeError
  end.

(** [container.get(key, default)]: only a dict has the method. *)
Definition py_get (container : pyval) (key : string) (default : pyval)
  : res pyval :=
  match container with
  | PyDict m => Ok (match m !! key with Some v => v | None => default end)
  | _ => Raise AttributeError
  end.

(** The loop [for key in DEFAULT_CONFIG: if key not in config: config[key]
    = DEFAULT_CONFIG[key]], on the remaining keys. *)
Fixpoint merge_defaults (defaults : list (string * pyval)) (cfg : pyval)
  : res pyval :=
  match defaults with
  | [] => Ok cfg
  | (key, v) :: rest =>
      match py_contains cfg key with
      | Raise e => Raise e
      | Ok true => merge_defaults rest cfg
      | Ok false =>
          match py_setitem cfg key v with
          | Raise e => Raise e
          | Ok cfg' => merge_defaults rest cfg'
          end
      end
  end.

(** The body of the [try] of [load_config]; [Ok None] when the file does
    not exist and control falls out of the [if]. *)
Definition load_config_try (d : disk) : res (option pyval) :=
  match content d with
  | None => Ok None
  | Some c =>
      if negb (readable d) then Raise OSError
      else
        match c with
        | Garbled => Raise ValueError
        | Document v =>
            match merge_defaults DEFAULT_CONFIG v with
            | Ok cfg => Ok (Some cfg)
            | Raise e => Raise e
            end
        end
  end.

Definition load_config (d : disk) : pyval :=
  match load_config_try d with
  | Ok (Some cfg) => cfg
  | Ok None => default_config
  | Raise _ => default_config
  end.

(** [open(CONFIG_FILE, 'w')]: fails when the file cannot be written,
    otherwise leaves an empty file, which is not JSON. *)
Definition open_for_write : M unit :=
  fun s =>
    let d := fs s in
    if writable d then
      (Ok tt, set_fs (mkDisk (Some Garbled) (readable d) (writable d)
                        (room d) (S (writes d))) s)
    else (Raise OSError, s).

(** [json.dump(config, f, indent=2)] and the close of the file: when the
    write does not complete, the text left is not JSON. *)
Definition json_dump (cfg : pyval) : M unit :=
  fun s =>
    let d := fs s in
    if room d then
      (Ok tt, set_fs (mkDisk (Some (Document cfg)) (readable d) (writable d)
                        (room d) (writes d)) s)
    else (Raise OSError, s).

Definition save_config (cfg : pyval) : M bool :=
  try_except
    (open_for_write ;;
     json_dump cfg ;;
     ret true)
    (fun _ => ret false).

(* ===================================================================== *)
(** ** Accessors of the USB identifiers                                  *)
(* ===================================================================== *)

(** Lifting a result into a statement. *)
Definition lift {A} (r : res A) : M A := fun s => (r, s).

(** [int(vid, 16)] *)
Definition int16 (s : string) : M pyval :=
  match py_int 16 s with
  | Some z => ret (PyInt z)
  | None => raise ValueError
  end.

Definition _get_vendor_id : M pyval :=
  try_except
    (cfg <- get config ;;
     vid <- lift (py_get cfg "vendor_id" (PyStr "0x0fe6")) ;;
     match vid with
     | PyStr s => int16 s
     | _ => ret vid
     end)
    (fun _ => ret (PyInt 0x0fe6)).

Definition _get_product_id : M pyval :=
  try_except
    (cfg <- get config ;;
     pid <- lift (py_get cfg "product_id" (PyStr "0x811e")) ;;
     match pid with
     | PyStr s => int16 s
     | _ => ret pid
     end)
    (fun _ => ret (PyInt 0x811e)).

Definition _get_interface : M pyval :=
  cfg <- get config ;;
  lift (py_get cfg "interface" (PyInt 0)).

(* ===================================================================== *)
(** ** Printer transport and connection                                  *)
(* ===================================================================== *)

(** The outcome of the next transport call, and the script after it. *)
Definition next_outcome (u : usb_world) : bool * list bool :=
  match script u with
  | [] => (true, [])
  | b :: r => (b, r)
  end.

(** [Usb(vid, pid, iface)] *)
Definition Usb (vid pid iface : pyval) : M handle :=
  fun s =>
    let u := usb s in
    let '(ok, rest) := next_outcome u in
    if ok then
      (Ok (next_handle u),
       set_usb (mkUsb rest
                  (usb_log u ++ [UsbOpen (next_handle u) vid pid iface])
                  (S (next_handle u))) s)
    else
      (Raise USBError,
       set_usb (mkUsb rest (usb_log u ++ [UsbOpenFailed vid pid iface])
                  (next_handle u)) s).

(** A method call [p.set(..)], [p._raw(..)], [p.text(..)], [p.cut()],
    [p.close()] on the handle [p]. *)
Definition call (p : handle) (c : pcmd) : M unit :=
  fun s =>
    let u := usb s in
    let '(ok, rest) := next_outcome u in
    (if ok then Ok tt else Raise USBError,
     set_usb (mkUsb rest (usb_log u ++ [UsbCall p c ok]) (next_handle u)) s).

(** [COLORS["success"]] and [COLORS["accent"]] *)
Definition color_success : string := "#00d9a0".
Definition color_accent : string := "#e94560".

Definition _set_device_status (connected : bool) : M unit :=
  modify (set_device_connected connected) ;;
  if connected then
    modify (set_status_dot color_success) ;;
    modify (set_status_label "Connected")
  else
    modify (set_status_dot color_accent) ;;
    modify (set_status_label "Disconnected") ;;
    p <- get printer ;;
    match p with
    | Some h =>
        try_except (call h PClose) (fun _ => ret tt) ;;
        modify (set_printer None)
    | None => ret tt
    end.

Definition connect_printer : M bool :=
  p <- get printer ;;
  match p with
  | Some _ => ret true
  | None =>
      try_except
        (vid <- _get_vendor_id ;;
         pid <- _get_product_id ;;
         iface <- _get_interface ;;
         h <- Usb vid pid iface ;;
         modify (set_printer (Some h)) ;;
         _set_device_status true ;;
         ret true)
        (fun e =>
           after Main
             (CbPopup (mkPopup "Connection Error"
                         ("Gagal terhubung ke printer:" ++ nl ++ py_str_exn e)
                         "error")) ;;
           modify (set_printer None) ;;
           ret false)
  end.

(* ===================================================================== *)
(** ** The two print jobs                                                *)
(* ===================================================================== *)

(** [self.print_lock.acquire(blocking=False)]: never waits; tells whether
    the lock was taken. *)
Definition acquire_nonblocking : M bool :=
  fun s =>
    if print_lock s then (Ok false, s)
    else (Ok true, set_print_lock true s).

(** [self.print_lock.release()]: releasing a lock that is not held raises
    [RuntimeError]. *)
Definition release : M unit :=
  fun s =>
    if print_lock s then (Ok tt, set_print_lock false s)
    else (Raise RuntimeError, s).

(** A method call on [p = self.printer]; on [None] the attribute lookup
    fails. *)
Definition pcall (p : option handle) (c : pcmd) : M unit :=
  match p with
  | Some h => call h c
  | None => raise AttributeError
  end.

Definition bold_on : pcmd := PRaw [0x1b; 0x45; 0x01].
Definition bold_off : pcmd := PRaw [0x1b; 0x45; 0x00].
Definition rule25 : string := "-------------------------".
Definition rule21 : string := "---------------------".
Definition busy_text : string := "Proses cetak sedang berjalan. Mohon tunggu.".

(** The job proper of [print_count], inside the lock: the [try] with its
    [except Exception]. *)
Definition print_count_body : M unit :=
  try_except
    (connected <- connect_printer ;;
     if negb connected then ret tt
     else
       p <- get printer ;;
       ts <- get now_text ;;
       order_id <- get now_epoch ;;
       try_except
         (pcall p (PSet (Some "center") (Some (2, 2))))
         (fun _ =>
            try_except (pcall p (PSet (Some "center") None))
              (fun _ => ret tt)) ;;
       try_except
         (pcall p bold_on ;;
          pcall p (PText ("LAPORAN HITUNGAN" ++ nl)) ;;
          pcall p bold_off)
         (fun _ => pcall p (PText ("LAPORAN HITUNGAN" ++ nl))) ;;
       try_except (pcall p (PSet None (Some (1, 1))))
         (fun _ => ret tt) ;;
       pcall p (PText (rule25 ++ nl ++ nl)) ;;
       pcall p (PSet (Some "left") None) ;;
       pcall p (PText ("Tanggal : " ++ ts ++ nl)) ;;
       pcall p (PText ("Nomor   : #" ++ py_str_int order_id ++ nl)) ;;
       pcall p (PText (rule25 ++ nl)) ;;
       try_except
         (pcall p bold_on ;;
          c <- get counter ;;
          pcall p (PText ("Hasil Hitungan : " ++ py_str_int c ++ nl)) ;;
          pcall p bold_off)
         (fun _ =>
            c <- get counter ;;
            pcall p (PText ("Hasil Hitungan : " ++ py_str_int c ++ nl))) ;;
       pcall p (PText (rule25 ++ nl ++ nl)) ;;
       pcall p (PSet (Some "center") None) ;;
       pcall p (PText ("Terima kasih!" ++ nl)) ;;
       pcall p (PText ("Dicetak oleh PrinterPro" ++ nl ++ nl)) ;;
       try_except (pcall p PCut) (fun _ => ret tt) ;;
       _make_popup "Success" "Struk berhasil dicetak." "success")
    (fun e =>
       _make_popup "Print Error"
         ("Gagal mencetak:" ++ nl ++ py_str_exn e) "error").

Definition print_count : M unit :=
  got <- acquire_nonblocking ;;
  if negb got then _make_popup "Info" busy_text "info"
  else
    try_finally print_count_body
      (try_except release (fun _ => ret tt)).

(** The job proper of [test_print], inside the lock: the [try] with its
    [except Exception]. *)
Definition test_print_body : M unit :=
  try_except
    (connected <- connect_printer ;;
     if negb connected then ret tt
     else
       p <- get printer ;;
       ts <- get now_text ;;
       try_except
         (pcall p (PSet (Some "center") (Some (2, 2))))
         (fun _ =>
            try_except (pcall p (PSet (Some "center") None))
              (fun _ => ret tt)) ;;
       try_except
         (pcall p bold_on ;;
          pcall p (PText ("TEST PRINT" ++ nl)) ;;
          pcall p bold_off)
         (fun _ => pcall p (PText ("TEST PRINT" ++ nl))) ;;
       pcall p (PText (rule21 ++ nl ++ nl)) ;;
       pcall p (PSet (Some "left") None) ;;
       pcall p (PText ("Waktu : " ++ ts ++ nl)) ;;
       pcall p (PText ("Printer: BT-58D" ++ nl)) ;;
       pcall p (PText ("Status : OK" ++ nl ++ nl)) ;;
       pcall p (PSet (Some "center") None) ;;
       pcall p bold_on ;;
       pcall p (PText ("Test berhasil!" ++ nl)) ;;
       pcall p bold_off ;;
       pcall p (PText nl) ;;
       try_except (pcall p PCut) (fun _ => ret tt) ;;
       _make_popup "Success" "Test print berhasil." "success")
    (fun e =>
       _make_popup "Print Error"
         ("Gagal mencetak:" ++ nl ++ py_str_exn e) "error").

Definition test_print : M unit :=
  got <- acquire_nonblocking ;;
  if negb got then _make_popup "Info" busy_text "info"
  else
    try_finally test_print_body
      (try_except release (fun _ => ret tt)).

(** [_safe_print_call] and [_safe_test_print_call]: on the main thread the
    job runs at once, elsewhere it is handed to the main loop. *)
Definition _safe_print_call (who : origin) : M unit :=
  match who with
  | Main => print_count
  | _ => after who CbPrintCount
  end.

Definition _safe_test_print_call (who : origin) : M unit :=
  match who with
  | Main => test_print
  | _ => after who CbTestPrint
  end.

(* ===================================================================== *)
(** ** Counter operations                                                *)
(* ===================================================================== *)

(** Writing a widget that may be missing. *)
Definition configure_manual_label (txt : string) : M unit :=
  modify (fun s =>
    match manual_counter_label (ui s) with
    | Some _ => set_ui (set_manual_counter_label (Some txt) (ui s)) s
    | None => s
    end).

Definition configure_auto_label (txt : string) : M unit :=
  modify (fun s =>
    match auto_counter_label (ui s) with
    | Some _ => set_ui (set_auto_counter_label (Some txt) (ui s)) s
    | None => s
    end).

Definition progress_bar_set (v : Z * Z) : M unit :=
  modify (fun s =>
    match progress_bar (ui s) with
    | Some _ => set_ui (set_progress_bar (Some v) (ui s)) s
    | None => s
    end).

Definition configure_progress_label (txt : string) : M unit :=
  modify (fun s =>
    match progress_label (ui s) with
    | Some _ => set_ui (set_progress_label (Some txt) (ui s)) s
    | None => s
    end).

Definition _reset_counter : M unit :=
  modify (set_counter 0) ;;
  configure_manual_label "0".

Definition _update_label : M unit :=
  c <- get counter ;;
  configure_manual_label (py_str_int c) ;;
  c <- get counter ;;
  configure_auto_label (py_str_int c).

Definition _manual_add : M unit :=
  modify (fun s => set_counter (counter s + 1) s) ;;
  _update_label.

Definition _print_and_reset : M unit :=
  _safe_print_call Main ;;
  modify (set_counter 0) ;;
  _update_label ;;
  progress_bar_set (0, 1).

(** [v / max_count], kept as the pair; a zero divisor raises. *)
Definition true_div (v max_count : Z) : M (Z * Z) :=
  if max_count =? 0 then raise ZeroDivisionError else ret (v, max_count).

Definition _set_counter_from_thread (v max_count : Z) : M unit :=
  modify (set_counter v) ;;
  _update_label ;;
  bar <- get (fun s => progress_bar (ui s)) ;;
  match bar with
  | Some _ => ratio <- true_div v max_count ;; progress_bar_set ratio
  | None => ret tt
  end ;;
  configure_progress_label
    ("Counting: " ++ py_str_int v ++ "/" ++ py_str_int max_count).

Definition set_entry_state (on : bool) (e : option entry) : option entry :=
  match e with
  | Some x => Some (mkEntry (text x) on)
  | None => None
  end.

(** The guarded [configure(state=..)] of the two entries. *)
Definition entries_configure (on : bool) : M unit :=
  modify (fun s =>
    set_ui (set_max_count_entry (set_entry_state on (max_count_entry (ui s)))
              (ui s)) s) ;;
  modify (fun s =>
    set_ui (set_interval_entry (set_entry_state on (interval_entry (ui s)))
              (ui s)) s).

Definition _auto_cleanup_ui : M unit :=
  try_except
    (entries_configure true ;;
     modify (fun s =>
       match btn_auto (ui s) with
       | Some _ => set_ui (set_btn_auto (Some (mkEntry "Start" true)) (ui s)) s
       | None => s
       end) ;;
     configure_progress_label "Complete")
    (fun _ => ret tt).

(* ===================================================================== *)
(** ** Auto run: [_toggle_auto] and [_auto_worker]                        *)
(* ===================================================================== *)

(** [widget.get()] of an entry that is an attribute of the application:
    [None] is an attribute that was never made. *)
Definition entry_get (w : widgets -> option entry) : M string :=
  fun s =>
    match w (ui s) with
    | Some e => (Ok (text e), s)
    | None => (Raise AttributeError, s)
    end.

(** [self.btn_auto.configure(..)], not guarded by [hasattr]. *)
Definition btn_auto_configure (f : entry -> entry) : M unit :=
  fun s =>
    match btn_auto (ui s) with
    | Some b => (Ok tt, set_ui (set_btn_auto (Some (f b)) (ui s)) s)
    | None => (Raise AttributeError, s)
    end.

(** [self.progress_label.configure(..)], not guarded by [hasattr]. *)
Definition progress_label_configure (txt : string) : M unit :=
  fun s =>
    match progress_label (ui s) with
    | Some _ => (Ok tt, set_ui (set_progress_label (Some txt) (ui s)) s)
    | None => (Raise AttributeError, s)
    end.

(** [except (ValueError, AttributeError)] *)
Definition value_or_attribute (e : exn) : bool :=
  match e with
  | ValueError | AttributeError => true
  | _ => false
  end.

Definition int10 (s : string) : M Z :=
  match py_int 10 s with
  | Some z => ret z
  | None => raise ValueError
  end.

(** The thread number a new thread gets. *)
Definition new_thread : M unit :=
  modify (fun s => set_threads (threads s ++ [WStart]) s).

(** One step of the worker thread number [t] standing at [pc]: the
    shared attributes it reads and writes are [auto_running],
    [print_scheduled] (inside [with self._ui_lock], one step) and the
    queue of [after].  [time_sleep interval] is what [time.sleep] does
    with the interval on the platform: [None] when it returns, the
    exception when it raises. *)
Definition worker_step (time_sleep : float -> option exn) (t : nat)
  (pc : wpc) (s : state) : wpc * state :=
  match pc with
  | WStart => (WTest 0 (auto_max_count s) (auto_interval s), s)
  | WTest i max_count interval =>
      if auto_running s && (i <? max_count)
      then (WPost (i + 1) max_count interval, s)
      else (WLocked, s)
  | WPost i max_count interval =>
      (WSleep i max_count interval,
       run (after (Worker t) (CbSetCounter i max_count)) s)
  | WSleep i max_count interval =>
      match time_sleep interval with
      | None => (WTest i max_count interval, s)
      | Some e => (WExcept e, s)
      end
  | WLocked =>
      if negb (print_scheduled s) then
        (WFinally,
         run (after (Worker t) CbPrintAndReset) (set_print_scheduled true s))
      else (WFinally, s)
  | WExcept e =>
      (WFinally,
       run (after (Worker t)
              (CbPopup (mkPopup "Auto Error"
                          ("Terjadi error pada proses otomatis:" ++ nl
                           ++ py_str_exn e) "error"))) s)
  | WFinally => (WCleanup, set_auto_running false s)
  | WCleanup => (WDone, run (after (Worker t) CbAutoCleanupUi) s)
  | WDone => (WDone, s)
  end.

(* =================================================================== *)
(** ** Settings dialog: [save_settings]                                 *)
(* =================================================================== *)

Definition vendor_msg : string :=
  "Vendor ID harus dalam format hex (contoh: 0x0fe6)".
Definition product_msg : string :=
  "Product ID harus dalam format hex (contoh: 0x811e)".
Definition interface_msg : string :=
  "Interface harus berupa angka (contoh: 0)".

(** [if not v.startswith("0x"): v = "0x" + v] *)
Definition with_prefix (v : string) : string :=
  if negb (startswith v "0x") then "0x" ++ v else v.

(** The three [try .. except: popup; return] blocks yield [None] on the
    [return]. *)
Definition check_hex (v msg : string) : M (option string) :=
  try_except
    (let v' := with_prefix v in
     int16 v' ;;
     ret (Some v'))
    (fun _ => _make_popup "Invalid Input" msg "error" ;; ret None).

Definition check_int (v msg : string) : M (option Z) :=
  try_except
    (n <- int10 v ;; ret (Some n))
    (fun _ => _make_popup "Invalid Input" msg "error" ;; ret None).

(** [self.config[key] = v] *)
Definition config_set (key : string) (v : pyval) : M unit :=
  cfg <- get config ;;
  cfg' <- lift (py_setitem cfg key v) ;;
  modify (set_config cfg').

Definition save_settings (vid_entry pid_entry iface_entry : string)
  : M unit :=
  let new_vid := strip vid_entry in
  let new_pid := strip pid_entry in
  let new_iface := strip iface_entry in
  r <- check_hex new_vid vendor_msg ;;
  match r with
  | None => ret tt
  | Some new_vid =>
      r <- check_hex new_pid product_msg ;;
      match r with
      | None => ret tt
      | Some new_pid =>
          r <- check_int new_iface interface_msg ;;
          match r with
          | None => ret tt
          | Some new_iface =>
              config_set "vendor_id" (PyStr new_vid) ;;
              config_set "product_id" (PyStr new_pid) ;;
              config_set "interface" (PyInt new_iface) ;;
              p <- get printer ;;
              match p with
              | Some h =>
                  try_except (call h PClose) (fun _ => ret tt) ;;
                  modify (set_printer None)
              | None => ret tt
              end ;;
              cfg <- get config ;;
              saved <- save_config cfg ;;
              if saved
              then _make_popup "Success" "Konfigurasi berhasil disimpan."
                     "success"
              else _make_popup "Error" "Gagal menyimpan konfigurasi." "error"
          end
      end
  end.

(* =================================================================== *)
(** ** The main loop, the threads and the user                          *)
(* =================================================================== *)

Definition run_callback (cb : callback) : M unit :=
  match cb with
  | CbSetCounter v max_count => _set_counter_from_thread v max_count
  | CbPrintAndReset => _print_and_reset
  | CbAutoCleanupUi => _auto_cleanup_ui
  | CbPopup p => _make_popup (title p) (message p) (popup_type p)
  | CbSetDeviceStatus connected => _set_device_status connected
  | CbPrintCount => print_count
  | CbTestPrint => test_print
  end.

(** What the user can do; each is handled on the main thread.
    [Rebuild w] stands for a navigation or for typing into an entry: the
    widgets become [w]. *)
Inductive action : Type :=
| ClickAdd
| ClickReset
| ClickAuto
| ClickPrint
| ClickTestPrint
| ClickSave (vid_entry pid_entry iface_entry : string)
| Rebuild (w : widgets).

(** One scheduling decision: the worker thread [t] takes a step, the
    main loop runs the oldest pending callback, the user acts, or a
    presence check hands in its result. *)
Inductive label : Type :=
| LWorker (t : nat)
| LMain
| LUser (a : action)
| LProbe (connected : bool).

Section AutoRun.

(** [float(text)] of the interpreter on the text of an entry; [None] is
    [ValueError]. *)
Variable py_float : string -> option float.

(** [time.sleep(interval)] of the platform: [None] when it returns. *)
Variable time_sleep : float -> option exn.

Definition float_of (s : string) : M float :=
  match py_float s with
  | Some f => ret f
  | None => raise ValueError
  end.

Definition _toggle_auto : M unit :=
  running <- get auto_running ;;
  if negb running then
    try_except_on value_or_attribute
      (txt <- entry_get max_count_entry ;;
       max_count <- int10 txt ;;
       modify (set_auto_max_count (if max_count <? 1 then 1 else max_count)))
      (fun _ => modify (set_auto_max_count 10)) ;;
    try_except_on value_or_attribute
      (txt <- entry_get interval_entry ;;
       interval <- float_of txt ;;
       modify (set_auto_interval
                 (if PrimFloat.ltb interval 0.1%float then 0.1%float
                  else interval)))
      (fun _ => modify (set_auto_interval 1%float)) ;;
    entries_configure false ;;
    modify (set_auto_running true) ;;
    modify (set_counter 0) ;;
    _update_label ;;
    modify (set_stopped_by_user false) ;;
    modify (set_print_scheduled false) ;;
    btn_auto_configure (fun b => mkEntry "Stop" (enabled b)) ;;
    m <- get auto_max_count ;;
    progress_label_configure ("Counting to " ++ py_str_int m ++ "...") ;;
    new_thread
  else
    modify (set_stopped_by_user true) ;;
    modify (set_auto_running false) ;;
    btn_auto_configure (fun b => mkEntry (text b) false).

Definition handle_action (a : action) : M unit :=
  match a with
  | ClickAdd => _manual_add
  | ClickReset => _reset_counter
  | ClickAuto =>
      b <- get (fun s => btn_auto (ui s)) ;;
      match b with
      | Some (mkEntry _ true) => _toggle_auto
      | _ => ret tt
      end
  | ClickPrint => _safe_print_call Main
  | ClickTestPrint => _safe_test_print_call Main
  | ClickSave v p i => save_settings v p i
  | Rebuild w => modify (set_ui w)
  end.

(** A disabled decision leaves the state as it is; an exception of a
    callback ends that callback (Tk reports it and goes on). *)
Definition step (l : label) (s : state) : state :=
  match l with
  | LWorker t =>
      match threads s !! t with
      | Some pc =>
          let '(pc', s') := worker_step time_sleep t pc s in
          set_threads (<[t := pc']> (threads s')) s'
      | None => s
      end
  | LMain =>
      match after_log s !! after_done s with
      | Some (_, cb) =>
          run (run_callback cb) (set_after_done (S (after_done s)) s)
      | None => s
      end
  | LUser a => run (handle_action a) s
  | LProbe connected => run (after Probe (CbSetDeviceStatus connected)) s
  end.

Definition exec (sched : list label) (s : state) : state :=
  fold_left (fun s l => step l s) sched s.

End AutoRun.

(* ===================================================================== *)
(** ** Vocabulary of the statements                                      *)
(* ===================================================================== *)

(** The state right after [__init__]: nothing counted, printed, posted or
    connected yet. *)
Definition initial (s : state) : Prop :=
  counter s = 0 /\ printer s = None /\ auto_running s = false /\
  _stopped_by_user s = false /\ print_lock s = false /\
  print_scheduled s = false /\ threads s = [] /\ after_log s = [] /\
  after_done s = 0%nat /\ usb_log (usb s) = [].

(** Calls of the two counter buttons. *)
Inductive counter_op : Type :=
| ManualAdd
| ResetCounter.

Definition do_op (o : counter_op) : M unit :=
  match o with
  | ManualAdd => _manual_add
  | ResetCounter => _reset_counter
  end.

Definition do_ops (ops : list counter_op) (s : state) : state :=
  fold_left (fun s o => run (do_op o) s) ops s.

Definition has_reset (ops : list counter_op) : bool :=
  existsb (fun o => match o with ResetCounter => true | _ => false end) ops.

(** The number of [ManualAdd] calls that no [ResetCounter] follows. *)
Fixpoint adds_since_reset (ops : list counter_op) : nat :=
  match ops with
  | [] => 0
  | ManualAdd :: rest =>
      if has_reset rest then adds_since_reset rest
      else S (adds_since_reset rest)
  | ResetCounter :: rest => adds_since_reset rest
  end.

(** The application after [__init__] when no configuration file exists:
    the defaults are loaded and the dashboard is shown, so the widgets of
    the manual and of the auto screen do not exist yet. *)
Definition no_widgets : widgets :=
  mkWidgets None None None None None None None.

Definition boot : state :=
  mkState default_config 0 None false false false false false "#e94560"
    "Checking..." 10 1%float no_widgets [] [] 0%nat [] (mkUsb [] [] 0%nat)
    (mkDisk None true true true 0%nat)
    "01-01-2025 00:00:00" 1735689600.

(** The widgets [_show_auto] builds on the booted application. *)
Definition auto_screen : widgets :=
  mkWidgets None (Some "0") (Some (0, 1)) (Some "Ready to start")
    (Some (mkEntry "10" true)) (Some (mkEntry "1.0" true))
    (Some (mkEntry "Start" true)).

(** The widgets [_show_manual] builds on the booted application. *)
Definition manual_screen : widgets :=
  mkWidgets (Some "0") None None None None None None.

(** A configuration file a user edited by hand: [{"vendor_id": null}]. *)
Definition null_vendor_file : disk :=
  mkDisk (Some (Document (PyDict {[ "vendor_id" := PyNone ]}))) true true true
    0%nat.

(** The application booted on that file: [self.config] is what
    [load_config] returned. *)
Definition boot_null_vendor : state :=
  set_fs null_vendor_file (set_config (load_config null_vendor_file) boot).

(** What the settings dialog accepts: an identifier that parses as
    hexadecimal once it carries the [0x] prefix (the prefix may be typed or
    left out), and an interface that parses as a decimal integer. *)
Definition hex_ok (entry_text : string) : bool :=
  match py_int 16 (with_prefix (strip entry_text)) with
  | Some _ => true
  | None => false
  end.

Definition int_ok (entry_text : string) : bool :=
  match py_int 10 (strip entry_text) with
  | Some _ => true
  | None => false
  end.

(** The popup of a rejected field. *)
Definition invalid_input (msg : string) : popup :=
  mkPopup "Invalid Input" msg "error".

(** The text of an entry, when the entry exists. *)
Definition entry_text (e : option entry) : option string :=
  match e with
  | Some x => Some (text x)
  | None => None
  end.

(** The state in which a print job found the lock taken: only the notice
    was added. *)
Definition busy (s : state) : state :=
  set_popups (popups s ++ [mkPopup "Info" busy_text "info"]) s.

(** The booted application with a transport that follows [outcomes]. *)
Definition boot_with_script (outcomes : list bool) : state :=
  set_usb (mkUsb outcomes [] 0%nat) boot.

(** [float(text)] on the few texts the examples type into the interval
    entry; every other text counts as not a number. *)
Definition float_of_text (t : string) : option float :=
  if String.eqb t "1.0" then Some 1%float
  else if String.eqb t "0.05" then Some 0.05%float
  else if String.eqb t "2.5" then Some 2.5%float
  else if String.eqb t "nan" then Some PrimFloat.nan
  else None.

(** A [time.sleep] for the examples: not-a-number raises [ValueError], as
    in every CPython; the other intervals the examples use (0.1, 1.0 and
    2.5 seconds) return. *)
Definition sleep_returns (interval : float) : option exn :=
  if PrimFloat.is_nan interval then Some ValueError else None.

(** The auto screen with other texts in the two entries. *)
Definition auto_screen_with (max_text interval_text : string) : widgets :=
  set_interval_entry (Some (mkEntry interval_text true))
    (set_max_count_entry (Some (mkEntry max_text true)) auto_screen).

(** A statement keeps a relation between the state it starts from and the
    state it leaves, on every way out. *)
Definition keeps (R : state -> state -> Prop) {A} (m : M A) : Prop :=
  forall s, R s (run m s).

(** Posted by the main thread or by a presence check, not by a worker. *)
Definition not_by_worker (e : origin * callback) : Prop :=
  match fst e with
  | Worker _ => False
  | _ => True
  end.

(** What code of the main thread may do to the queue and to the threads:
    post callbacks of its own, and start threads. *)
Definition grows (s s' : state) : Prop :=
  (exists extra, after_log s' = (after_log s ++ extra)%list /\
                 Forall not_by_worker extra) /\
  (exists k, threads s' = (threads s ++ repeat WStart k)%list).

(** The worker has not yet passed [with self._ui_lock]. *)
Definition before_lock (pc : wpc) : bool :=
  match pc with
  | WStart | WTest _ _ _ | WPost _ _ _ | WSleep _ _ _ | WLocked => true
  | _ => false
  end.

(** What the callbacks of a run leave alone: the flags the worker reads,
    the threads, the position of the main loop in the queue and the
    settings of the run. *)
Definition same_control (s s' : state) : Prop :=
  auto_running s' = auto_running s /\
  print_scheduled s' = print_scheduled s /\
  threads s' = threads s /\
  after_done s' = after_done s /\
  auto_max_count s' = auto_max_count s /\
  auto_interval s' = auto_interval s.

(** ... and nothing is posted, *)
Definition quiet_frame (s s' : state) : Prop :=
  same_control s s' /\ after_log s' = after_log s.

Definition is_main_popup (e : origin * callback) : Prop :=
  match e with
  | (Main, CbPopup _) => True
  | _ => False
  end.

(** ... or at most one popup is posted by the main thread. *)
Definition popup_frame (s s' : state) : Prop :=
  same_control s s' /\
  exists extra, after_log s' = (after_log s ++ extra)%list /\
                Forall is_main_popup extra /\ (length extra <= 1)%nat.

(** The values handed to [_set_counter_from_thread] by a list of
    callbacks, in order. *)
Definition shown (cbs : list callback) : list Z :=
  omap (fun cb => match cb with
                  | CbSetCounter v _ => Some v
                  | _ => None
                  end) cbs.

Definition is_print (cb : callback) : bool :=
  match cb with
  | CbPrintAndReset => true
  | _ => false
  end.

(** How many of the callbacks are the automatic print. *)
Definition prints (cbs : list callback) : nat :=
  length (filter (fun cb => is_print cb = true) cbs).

(** The callbacks posted by worker threads, in order. *)
Definition worker_posts (log : list (origin * callback)) : list callback :=
  omap (fun e => match fst e with
                 | Worker _ => Some (snd e)
                 | _ => None
                 end) log.

(** What was posted, and what the main loop has run, since the state
    [s0]. *)
Definition posted_since (s0 s : state) : list (origin * callback) :=
  drop (length (after_log s0)) (after_log s).

Definition delivered_since (s0 s : state) : list callback :=
  snd <$> take (after_done s - length (after_log s0)) (posted_since s0 s).

(** Threads that have ended. *)
Definition all_done (l : list wpc) : Prop := Forall (fun pc => pc = WDone) l.

(** All threads have ended and the queue is empty. *)
Definition quiescent (s : state) : Prop :=
  Forall (fun pc => pc = WDone) (threads s) /\
  after_done s = length (after_log s).

(** Scheduling decisions of an undisturbed run: the threads, the main
    loop and the presence monitor go on, the user does nothing. *)
Definition undisturbed (l : label) : Prop :=
  match l with
  | LWorker _ | LMain | LProbe _ => True
  | LUser _ => False
  end.

Definition is_probe_step (l : label) : bool :=
  match l with
  | LProbe _ => true
  | _ => false
  end.

(** How many results the presence monitor hands in during a schedule. *)
Definition probe_steps (sched : list label) : nat :=
  length (filter (fun l => is_probe_step l = true) sched).

Definition is_probe_entry (e : origin * callback) : bool :=
  match e with
  | (Probe, CbSetDeviceStatus _) => true
  | _ => false
  end.

(** How many results of the presence monitor were ever posted. *)
Definition probe_entries (s : state) : nat :=
  length (filter (fun e => is_probe_entry e = true) (after_log s)).

Definition is_worker_step (t : nat) (l : label) : bool :=
  match l with
  | LWorker t' => Nat.eqb t' t
  | _ => false
  end.

(** How many steps a schedule gives to the worker thread number [t]. *)
Definition worker_steps (t : nat) (sched : list label) : nat :=
  length (filter (fun l => is_worker_step t l = true) sched).

(** The counter after the main loop has run the callbacks [cbs] of an
    undisturbed run, from the counter [c]. *)
Definition counter_after (cbs : list callback) (c : Z) : Z :=
  fold_left (fun c cb => match cb with
                         | CbSetCounter v _ => v
                         | CbPrintAndReset => 0
                         | _ => c
                         end) cbs c.

(** The callbacks [CbSetCounter 1 m], .., [CbSetCounter i m]. *)
Definition counts (i m : Z) : list callback :=
  (fun v => CbSetCounter v m) <$> seqZ 1 i.

(** What a worker of a run to [m] has posted when it stands at [pc]. *)
Definition expected (m : Z) (pc : wpc) : list callback :=
  match pc with
  | WStart => []
  | WTest i _ _ => counts i m
  | WPost i _ _ => counts (i - 1) m
  | WSleep i _ _ => counts i m
  | WLocked => counts m m
  | WExcept _ => []
  | WFinally | WCleanup => counts m m ++ [CbPrintAndReset]
  | WDone => counts m m ++ [CbPrintAndReset; CbAutoCleanupUi]
  end.

(** The positions an undisturbed worker of a run to [m] with the interval
    [iv] goes through. *)
Definition on_track (m : Z) (iv : float) (pc : wpc) : Prop :=
  match pc with
  | WTest i m' iv' => m' = m /\ iv' = iv /\ 0 <= i <= m
  | WPost i m' iv' | WSleep i m' iv' => m' = m /\ iv' = iv /\ 1 <= i <= m
  | WExcept _ => False
  | _ => True
  end.

(** How far the worker has come. *)
Definition rank (m : Z) (pc : wpc) : Z :=
  match pc with
  | WStart => 0
  | WTest i _ _ => 3 * i + 1
  | WPost i _ _ => 3 * i - 1
  | WSleep i _ _ => 3 * i
  | WLocked | WExcept _ => 3 * m + 2
  | WFinally => 3 * m + 3
  | WCleanup => 3 * m + 4
  | WDone => 3 * m + 5
  end.

(** Entries of the queue in an undisturbed run: counts, the print and the
    cleanup from the worker, popups from the main thread, results of the
    presence monitor. *)
Definition run_entry (e : origin * callback) : Prop :=
  match e with
  | (Worker _, CbSetCounter _ _) | (Worker _, CbPrintAndReset)
  | (Worker _, CbAutoCleanupUi) | (Main, CbPopup _)
  | (Probe, CbSetDeviceStatus _) => True
  | _ => False
  end.

Definition is_popup_entry (e : origin * callback) : bool :=
  match e with
  | (Main, CbPopup _) => true
  | _ => false
  end.

(** The invariant of an undisturbed run to [m] with interval [iv] that
    started in [s0]; [old] are the threads of earlier runs, which have
    ended, and the worker of this run is the last thread. *)
Definition run_inv (old : list wpc) (m : Z) (iv : float) (s0 s : state)
  : Prop :=
  exists pc extra,
    threads s = (old ++ [pc])%list /\ on_track m iv pc /\
    after_log s = (after_log s0 ++ extra)%list /\
    Forall run_entry extra /\
    worker_posts extra = expected m pc /\
    (length (after_log s0) <= after_done s <= length (after_log s))%nat /\
    counter s =
      counter_after
        (snd <$> take (after_done s - length (after_log s0)) extra)
        (counter s0) /\
    (length (filter (fun e => is_popup_entry e = true) extra) <=
     prints (snd <$> take (after_done s - length (after_log s0)) extra))%nat /\
    (rank m pc < 3 * m + 4 -> auto_running s = true) /\
    (before_lock pc = true -> print_scheduled s = false) /\
    (pc = WStart -> auto_max_count s = m /\ auto_interval s = iv).

Definition rank_of (m : Z) (s : state) : Z :=
  match last (threads s) with
  | Some pc => rank m pc
  | None => 0
  end.

(** What no callback and no print job changes: whether a run is on and
    which threads exist; and what they post is not attributed to a
    worker. *)
Definition stopped_frame (s s' : state) : Prop :=
  auto_running s' = auto_running s /\ threads s' = threads s /\
  exists extra, after_log s' = (after_log s ++ extra)%list /\
                Forall not_by_worker extra.





(** The booted application, on the auto screen, after the start click and
    three steps of the worker: the count 1 is published and the worker
    sleeps. *)
Definition mid_run : state :=
  exec float_of_text sleep_returns
    [LUser (Rebuild auto_screen); LUser ClickAuto; LWorker 0; LWorker 0;
     LWorker 0] boot.

(** The handles [Usb(..)] has made, and those [close()] was called on. *)
Definition opened (log : list usb_event) : list handle :=
  omap (fun ev => match ev with
                  | UsbOpen h _ _ _ => Some h
                  | _ => None
                  end) log.

Definition closed (log : list usb_event) : list handle :=
  omap (fun ev => match ev with
                  | UsbCall h PClose _ => Some h
                  | _ => None
                  end) log.

(** The connection handles that exist: made and not closed. *)
Definition live (log : list usb_event) : list handle :=
  filter (fun h => h ∉ closed log) (opened log).

(** The handles that exist are exactly the one the application holds, if
    it holds one; handles are named in the order of their creation. *)
Definition handles_ok (s : state) : Prop :=
  live (usb_log (usb s)) = option_list (printer s) /\
  Forall (fun h => (h < next_handle (usb s))%nat)
    (opened (usb_log (usb s)) ++ closed (usb_log (usb s))).

Definition keeps_handles (s s' : state) : Prop :=
  handles_ok s -> handles_ok s'.

(** Nothing is connected, closed or dropped. *)
Definition same_handles (s s' : state) : Prop :=
  printer s' = printer s /\
  opened (usb_log (usb s')) = opened (usb_log (usb s)) /\
  closed (usb_log (usb s')) = closed (usb_log (usb s)) /\
  next_handle (usb s') = next_handle (usb s).

(** A call on the handle [p] other than [close()]. *)
Definition call_on (p : option handle) (ev : usb_event) : Prop :=
  match ev with
  | UsbCall h c _ => p = Some h /\ c <> PClose
  | _ => False
  end.

(** The handle is kept and the transport only sees calls on [p]. *)
Definition calls_on (p : option handle) (s s' : state) : Prop :=
  printer s' = printer s /\ config s' = config s /\
  next_handle (usb s') = next_handle (usb s) /\
  exists extra, usb_log (usb s') = (usb_log (usb s) ++ extra)%list /\
                Forall (call_on p) extra.

(** An attempt to connect. *)
Definition is_open_attempt (ev : usb_event) : bool :=
  match ev with
  | UsbOpen _ _ _ _ | UsbOpenFailed _ _ _ => true
  | _ => false
  end.

(** The events of the transport since the state [s]. *)
Definition usb_since (s s' : state) : list usb_event :=
  drop (length (usb_log (usb s))) (usb_log (usb s')).

(** The booted application after the user clicked the print button: it
    holds the handle 0. *)
Definition connected : state :=
  exec float_of_text sleep_returns [LUser ClickPrint] boot.

(** Only the handle held at the start is used, and it is kept. *)
Definition uses_printer (s s' : state) : Prop := calls_on (printer s) s s'.

(** From a state without handle and with a dict as configuration: one
    attempt to connect, and then only calls on the handle it made. *)
Definition reconnects (s s' : state) : Prop :=
  printer s = None -> (exists m, config s = PyDict m) ->
  let n := next_handle (usb s) in
  (exists vid pid iface,
      usb_log (usb s') = (usb_log (usb s) ++ [UsbOpenFailed vid pid iface])%list /\
      printer s' = None) \/
  (exists vid pid iface rest,
      usb_log (usb s') =
        (usb_log (usb s) ++ UsbOpen n vid pid iface :: rest)%list /\
      Forall (call_on (Some n)) rest /\ printer s' = Some n).

(* ===================================================================== *)
(** ** Vocabulary of the further properties                              *)
(* ===================================================================== *)

(** What a print job leaves alone: the counter, the configuration, the
    widgets of the counter screens and the configuration file. *)
Definition same_view (s s' : state) : Prop :=
  counter s' = counter s /\ config s' = config s /\ ui s' = ui s /\
  fs s' = fs s.

(** The status dot, the status label and [device_connected] are as they
    were, or they show "Connected". *)
Definition status_frame (s s' : state) : Prop :=
  (status_dot s' = status_dot s /\ status_label s' = status_label s /\
   device_connected s' = device_connected s) \/
  (status_dot s' = color_success /\ status_label s' = "Connected" /\
   device_connected s' = true).

(** With a handle held at the start, only that handle is used and it is
    kept. *)
Definition held (s s' : state) : Prop :=
  is_Some (printer s) -> uses_printer s s'.

(** What a worker whose first [time.sleep] raises [e] has posted when it
    stands at [pc], in a run to [m]. *)
Definition auto_error_popup (e : exn) : callback :=
  CbPopup (mkPopup "Auto Error"
             ("Terjadi error pada proses otomatis:" ++ nl ++ py_str_exn e)
             "error").

Definition expected_failing (m : Z) (e : exn) (pc : wpc) : list callback :=
  match pc with
  | WStart | WTest _ _ _ | WPost _ _ _ | WLocked => []
  | WSleep _ _ _ | WExcept _ => [CbSetCounter 1 m]
  | WFinally | WCleanup => [CbSetCounter 1 m; auto_error_popup e]
  | WDone => [CbSetCounter 1 m; auto_error_popup e; CbAutoCleanupUi]
  end.

(** The positions such a worker goes through. *)
Definition failing_track (m : Z) (iv : float) (e : exn) (pc : wpc) : Prop :=
  match pc with
  | WStart | WFinally | WCleanup | WDone => True
  | WTest i m' iv' => i = 0 /\ m' = m /\ iv' = iv
  | WPost i m' iv' | WSleep i m' iv' => i = 1 /\ m' = m /\ iv' = iv
  | WExcept e' => e' = e
  | WLocked => False
  end.

Definition failing_steps_left (pc : wpc) : nat :=
  match pc with
  | WStart => 7
  | WTest _ _ _ => 6
  | WPost _ _ _ => 5
  | WSleep _ _ _ => 4
  | WExcept _ | WLocked => 3
  | WFinally => 2
  | WCleanup => 1
  | WDone => 0
  end.

Definition failing_inv (old : list wpc) (m : Z) (iv : float) (e : exn)
  (s0 s : state) : Prop :=
  exists pc extra,
    threads s = (old ++ [pc])%list /\ failing_track m iv e pc /\
    after_log s = (after_log s0 ++ extra)%list /\
    worker_posts extra = expected_failing m e pc /\
    ((3 < failing_steps_left pc)%nat -> auto_running s = true) /\
    ((failing_steps_left pc < 2)%nat -> auto_running s = false) /\
    (pc = WStart -> auto_max_count s = m /\ auto_interval s = iv).

Definition failing_left (s : state) : nat :=
  match last (threads s) with
  | Some pc => failing_steps_left pc
  | None => 0
  end.

(** What no callback changes: the limits of the run. *)
Definition same_limits (s s' : state) : Prop :=
  auto_max_count s' = auto_max_count s /\
  auto_interval s' = auto_interval s.

(** The names of the recognized keys. *)
Definition default_keys : list string := fst <$> DEFAULT_CONFIG.

(** A JSON text or array in which [in] finds every recognized key. *)
Definition names_every_key (v : pyval) : Prop :=
  match v with
  | PyList _ | PyStr _ =>
      Forall (fun k => py_contains v k = Ok true) default_keys
  | _ => False
  end.

(** The settings typed as four hex digits each, no prefix, upper case, and
    the interface 1. *)
Definition saved : state := run (save_settings "0FE6" "811E" "1") boot.

(** A configuration file holding the JSON array of the five key names. *)
Definition key_list_file : disk :=
  mkDisk (Some (Document (PyList (PyStr <$> default_keys)))) true true true
    0%nat.

(* ===================================================================== *)
(** ** The presence monitor: [_check_usb_device]                         *)
(* ===================================================================== *)

(** [text.replace("0x", "")]: every occurrence found from the left is
    removed. *)
Fixpoint remove_0x (text : string) : string :=
  match text with
  | EmptyString => EmptyString
  | String c r =>
      match r with
      | String c2 r2 =>
          if Ascii.eqb c "0" && Ascii.eqb c2 "x" then remove_0x r2
          else String c (remove_0x r)
      | EmptyString => String c EmptyString
      end
  end.

(** [text.lower()] on ASCII text. *)
Definition lower_char (c : ascii) : ascii :=
  if (65 <=? code c) && (code c <=? 90)
  then ascii_of_N (N_of_ascii c + 32)
  else c.

Fixpoint lower (text : string) : string :=
  match text with
  | EmptyString => EmptyString
  | String c r => String (lower_char c) (lower r)
  end.

(** [v.replace("0x", "").lower()]: only a string has the methods. *)
Definition replace_lower (v : pyval) : res string :=
  match v with
  | PyStr t => Ok (lower (remove_0x t))
  | _ => Raise AttributeError
  end.

(** [lsusb] is what [subprocess.run(["lsusb"], ..)] does at the time of
    the call: the text of its standard output, or an exception (no such
    program, timeout). *)
Definition _check_usb_device (lsusb : res string) : M bool :=
  try_except
    (cfg <- get config ;;
     v <- lift (py_get cfg "vendor_id" (PyStr "0x0fe6")) ;;
     vid <- lift (replace_lower v) ;;
     p <- lift (py_get cfg "product_id" (PyStr "0x811e")) ;;
     pid <- lift (replace_lower p) ;;
     let search_pattern := vid ++ ":" ++ pid in
     stdout <- lift lsusb ;;
     ret (str_contains (lower stdout) search_pattern))
    (fun _ => ret false).

(** The function [check] that [_update_usb_status] runs in a thread of its
    own. *)
Definition check (lsusb : res string) : M unit :=
  connected <- _check_usb_device lsusb ;;
  after Probe (CbSetDeviceStatus connected).


(** A configuration file written by hand with the identifiers as JSON
    numbers: [{"vendor_id": 4070, "product_id": 33054}]. *)
Definition numeric_ids_file : disk :=
  mkDisk (Some (Document (PyDict {[ "vendor_id" := PyInt 4070;
                                    "product_id" := PyInt 33054 ]})))
    true true true 0%nat.

Definition boot_numeric_ids : state :=
  set_config (load_config numeric_ids_file) (set_fs numeric_ids_file boot).

(** A line of [lsusb] for the printer. *)
Definition lsusb_line : string :=
  "Bus 001 Device 004: ID 0fe6:811e" ++ nl.

(* ===================================================================== *)
(** ** Start of the application: the configuration in [__init__]         *)
(* ===================================================================== *)

(** [v.copy()]: dicts and lists have the method. *)
Definition py_copy (v : pyval) : res pyval :=
  match v with
  | PyDict _ | PyList _ => Ok v
  | _ => Raise AttributeError
  end.

(** What [__init__] does with the configuration, on the file [d]:
    [CONFIG = load_config()] of the module, then [self.config =
    CONFIG.copy()] and the two [self.config.get(..)] of the auto mode
    settings.  The result is [self.config], or the exception that ends the
    start. *)
Definition __init__ (d : disk) : res pyval :=
  match py_copy (load_config d) with
  | Raise e => Raise e
  | Ok cfg =>
      match py_get cfg "auto_max_count" (PyInt 10) with
      | Raise e => Raise e
      | Ok _ =>
          match py_get cfg "auto_interval" (PyFloat 1%float) with
          | Raise e => Raise e
          | Ok _ => Ok cfg
          end
      end
  end.

(** A dict that has every recognized key. *)
Definition complete (cfg : pyval) : Prop :=
  exists m : gmap string pyval,
    cfg = PyDict m /\ forall k, In k default_keys -> is_Some (m !! k).

Definition keeps_complete (s s' : state) : Prop :=
  complete (config s) -> complete (config s').

(** Nothing is shown and nothing is posted. *)
Definition same_notices (s s' : state) : Prop :=
  popups s' = popups s /\ after_log s' = after_log s.

(** A statement that shows the popup [p] when it returns and nothing when
    it raises, and posts nothing. *)
Definition ends_with (p : popup) (m : M unit) : Prop :=
  forall s,
    match m s with
    | (Ok _, s') => popups s' = (popups s ++ [p])%list /\
                    after_log s' = after_log s
    | (Raise _, s') => same_notices s s'
    end.

(** The one notice of a print job that found the lock free: the popup
    [p] of its success or a "Print Error" popup, shown at once, or a
    "Connection Error" popup posted to the main loop. *)
Definition one_notice (p : popup) (s s' : state) : Prop :=
  (exists q, popups s' = (popups s ++ [q])%list /\
             after_log s' = after_log s /\
             (q = p \/ exists msg, q = mkPopup "Print Error" msg "error")) \/
  (popups s' = popups s /\ printer s' = None /\
   exists msg,
     after_log s' =
       (after_log s ++
          [(Main, CbPopup (mkPopup "Connection Error" msg "error"))])%list).

(* ===================================================================== *)
(** ** Vocabulary of the lock and of the print flag                       *)
(* ===================================================================== *)

(** The lock is as it was. *)
Definition same_lock (s s' : state) : Prop := print_lock s' = print_lock s.

(** The flag of the automatic print is as it was. *)
Definition same_flag (s s' : state) : Prop :=
  print_scheduled s' = print_scheduled s.

(** An automatic print in the queue: [_print_and_reset] posted by a
    worker. *)
Definition is_any_auto_print (e : origin * callback) : bool :=
  match e with
  | (Worker _, CbPrintAndReset) => true
  | _ => false
  end.

Definition auto_print_count (log : list (origin * callback)) : nat :=
  length (filter (fun e => is_any_auto_print e = true) log).

(** The decision starts a run: a click on the enabled button of the auto
    screen while no run is on. *)
Definition is_start (l : label) (s : state) : bool :=
  match l with
  | LUser ClickAuto =>
      negb (auto_running s) &&
      match btn_auto (ui s) with
      | Some b => enabled b
      | None => false
      end
  | _ => false
  end.

(** No decision of the schedule starts a run: the schedule stays within
    the run that is on (the user may stop it, and do anything else). *)
Fixpoint no_start (py_float : string -> option float)
  (time_sleep : float -> option exn) (sched : list label) (s : state)
  : Prop :=
  match sched with
  | [] => True
  | l :: rest =>
      is_start l s = false /\
      no_start py_float time_sleep rest (step py_float time_sleep l s)
  end.

(** What a step inside a run does to the flag and to the queue: the flag
    stays and no automatic print is posted, or the flag was clear, is set,
    and one automatic print is posted. *)
Definition flag_step (s s' : state) : Prop :=
  exists extra,
    after_log s' = (after_log s ++ extra)%list /\
    ((print_scheduled s' = print_scheduled s /\
      auto_print_count extra = 0%nat) \/
     (print_scheduled s = false /\ print_scheduled s' = true /\
      auto_print_count extra = 1%nat)).

(** The widgets [_show_auto] builds when the counter is [c], the maximum
    is [m] and [str(self.auto_interval)] is [interval_text]. *)
Definition shown_auto_screen (c m : Z) (interval_text : string) : widgets :=
  mkWidgets None (Some (py_str_int c)) (Some (0, 1)) (Some "Ready to start")
    (Some (mkEntry (py_str_int m) true)) (Some (mkEntry interval_text true))
    (Some (mkEntry "Start" true)).

(** The user opens the auto screen, starts a run to 10 every 1.0 seconds,
    sees the count 1, stops the run while the worker sleeps, goes to the
    manual screen and back, which builds the auto screen again. *)
Definition stop_and_return : list label :=
  [LUser (Rebuild auto_screen); LUser ClickAuto;
   LWorker 0; LWorker 0; LWorker 0; LMain;
   LUser ClickAuto;
   LUser (Rebuild manual_screen);
   LUser (Rebuild (shown_auto_screen 1 10 "1.0"))].

(** The state before that stop, the state after it, the state when the
    user is back on the auto screen, and the state after the second click
    on Start. *)
Definition before_stop : state :=
  exec float_of_text sleep_returns (take 6 stop_and_return) boot.

Definition stopped : state :=
  exec float_of_text sleep_returns (take 7 stop_and_return) boot.

Definition returned : state :=
  exec float_of_text sleep_returns stop_and_return boot.

Definition restarted : state :=
  step float_of_text sleep_returns (LUser ClickAuto) returned.

(** The two workers and the main loop take turns until all has ended. *)
Definition two_workers : list label :=
  (concat (repeat [LWorker 0; LWorker 0; LWorker 0;
                   LWorker 1; LWorker 1; LWorker 1; LMain; LMain] 12)
   ++ repeat LMain 4)%list.

(** What the worker thread [t] has posted. *)
Definition posts_of (t : nat) (log : list (origin * callback))
  : list callback :=
  omap (fun e => match fst e with
                 | Worker t' => if Nat.eqb t' t then Some (snd e) else None
                 | _ => None
                 end) log.

(** Modelled following the spec's words: "hex-parseable (optionally
    0x-prefixed)", one or more hexadecimal digits after an optional
    [0x]. *)
Definition is_hex_digit (c : ascii) : bool :=
  ((48 <=? code c) && (code c <=? 57)) ||
  ((97 <=? code c) && (code c <=? 102)) ||
  ((65 <=? code c) && (code c <=? 70)).

Fixpoint all_hex_digits (s : string) : bool :=
  match s with
  | EmptyString => true
  | String c r => is_hex_digit c && all_hex_digits r
  end.

Definition spec_hex_parseable (text : string) : bool :=
  match text with
  | String "0" (String "x" r) => negb (String.eqb r "") && all_hex_digits r
  | _ => negb (String.eqb text "") && all_hex_digits text
  end.

(** Every character of the text has the property. *)
Fixpoint all_chars (P : ascii -> Prop) (t : string) : Prop :=
  match t with
  | String c r => P c /\ all_chars P r
  | EmptyString => True
  end.

Definition head_char (P : ascii -> Prop) (t : string) : Prop :=
  match t with
  | String c _ => P c
  | EmptyString => True
  end.

(* ===================================================================== *)
(** * Properties                                                         *)
(* ===================================================================== *)

(** ** Counter: manual add and reset *)

Lemma counter_manual_add (s : state) :
  counter (run _manual_add s) = counter s + 1.
Proof.
  unfold run, _manual_add, _update_label, configure_manual_label,
    configure_auto_label, bind, modify, get; cbn.
  destruct (manual_counter_label (ui s)); cbn;
    destruct (auto_counter_label (ui s)); reflexivity.
Qed.

Lemma counter_reset (s : state) : counter (run _reset_counter s) = 0.
Proof.
  unfold run, _reset_counter, configure_manual_label, bind, modify; cbn.
  destruct (manual_counter_label (ui s)); reflexivity.
Qed.

Lemma do_ops_cons (o : counter_op) (ops : list counter_op) (s : state) :
  do_ops (o :: ops) s = do_ops ops (run (do_op o) s).
Proof. reflexivity. Qed.

(** The counter after any sequence of the two operations, from any
    state. *)
Lemma counter_do_ops (ops : list counter_op) :
  forall s,
    counter (do_ops ops s) =
    (if has_reset ops then 0 else counter s) + Z.of_nat (adds_since_reset ops).
Proof.
  induction ops as [|o ops IH]; intros s.
  - cbn. lia.
  - rewrite do_ops_cons, IH. destruct o; cbn [do_op has_reset existsb orb adds_since_reset].
    + rewrite counter_manual_add. fold (has_reset ops).
      destruct (has_reset ops); lia.
    + rewrite counter_reset. destruct (has_reset ops); lia.
Qed.

(** C5. For every finite sequence of ManualAdd and ResetCounter calls run
    from a state whose counter is 0 (the start), the counter equals the
    number of ManualAdd calls made since the most recent ResetCounter (all
    of them if there was none), and it is not negative after any prefix of
    the sequence. *)
Theorem counter_counts_adds_since_reset
  (ops : list counter_op) (s : state) :
  counter s = 0 ->
  counter (do_ops ops s) = Z.of_nat (adds_since_reset ops) /\
  forall n, 0 <= counter (do_ops (take n ops) s).
Proof.
  intros H0. split.
  - rewrite counter_do_ops, H0. destruct (has_reset ops); lia.
  - intros n. rewrite counter_do_ops, H0.
    destruct (has_reset (take n ops)); lia.
Qed.

Lemma counter_counts_adds_since_reset_witness :
  counter (do_ops [ManualAdd; ManualAdd; ResetCounter; ManualAdd; ManualAdd;
                   ManualAdd] (set_ui manual_screen boot)) = 3 /\
  forall n,
    0 <= counter (do_ops (take n [ManualAdd; ManualAdd; ResetCounter;
                                  ManualAdd; ManualAdd; ManualAdd])
                    (set_ui manual_screen boot)).
Proof.
  exact (counter_counts_adds_since_reset
           [ManualAdd; ManualAdd; ResetCounter; ManualAdd; ManualAdd;
            ManualAdd] (set_ui manual_screen boot) eq_refl).
Defined.

(** ** Config store *)

(** On a dict the merge loop is the union that prefers the keys of the
    file. *)
Lemma merge_defaults_dict (defaults : list (string * pyval)) :
  forall m : gmap string pyval,
    merge_defaults defaults (PyDict m) =
    Ok (PyDict (m ∪ list_to_map defaults)).
Proof.
  induction defaults as [|[k v] rest IH]; intros m; cbn.
  - by rewrite (right_id_L ∅ (∪)).
  - case_bool_decide as Hk; cbn.
    + rewrite IH. do 2 f_equal. apply map_eq. intros i.
      rewrite !lookup_union. destruct (decide (k = i)) as [->|Hne].
      * destruct Hk as [x Hx]. rewrite Hx. by rewrite !union_Some_l.
      * by rewrite lookup_insert_ne.
    + rewrite IH. do 2 f_equal.
      assert (m !! k = None) as Hnone.
      { destruct (m !! k) eqn:E; [|done]. exfalso. apply Hk. eauto. }
      rewrite <- insert_union_l. by rewrite insert_union_r.
Qed.

Lemma load_config_dict (d : disk) (m : gmap string pyval) :
  content d = Some (Document (PyDict m)) -> readable d = true ->
  load_config d = PyDict (m ∪ list_to_map DEFAULT_CONFIG).
Proof.
  intros Hc Hr. unfold load_config, load_config_try.
  rewrite Hc, Hr. cbn [negb]. by rewrite merge_defaults_dict.
Qed.

Lemma load_config_missing (d : disk) :
  content d = None -> load_config d = default_config.
Proof. intros Hc. unfold load_config, load_config_try. by rewrite Hc. Qed.

Lemma load_config_garbled (d : disk) :
  content d = Some Garbled -> load_config d = default_config.
Proof.
  intros Hc. unfold load_config, load_config_try. rewrite Hc.
  by destruct (readable d).
Qed.

(** Whenever the body of the [try] raises, the defaults are returned. *)
Lemma load_config_raise (d : disk) (e : exn) :
  load_config_try d = Raise e -> load_config d = default_config.
Proof. intros H. unfold load_config. by rewrite H. Qed.

(** A document that is not a dict: a number cannot be searched, a list
    cannot take the missing key; both end in the defaults. *)
Example load_config_not_a_dict :
  load_config (mkDisk (Some (Document (PyInt 5))) true true true 0%nat) =
    default_config /\
  load_config (mkDisk (Some (Document (PyList [PyStr "vendor_id"]))) true true
                 true 0%nat) = default_config.
Proof. split; reflexivity. Qed.

Lemma save_config_ok (cfg : pyval) (s : state) :
  writable (fs s) = true -> room (fs s) = true ->
  fst (save_config cfg s) = Ok true /\
  content (fs (run (save_config cfg) s)) = Some (Document cfg) /\
  readable (fs (run (save_config cfg) s)) = readable (fs s).
Proof.
  intros Hw Hr.
  unfold run, save_config, try_except, try_except_on, bind, open_for_write,
    json_dump, ret.
  rewrite Hw. cbn. rewrite Hr. cbn. done.
Qed.

(** Save then Load is a round trip: after a successful [save_config]
    of a dict, [load_config] returns a dict that agrees with the saved one
    on every key the saved one has (so on all recognized keys of a complete
    configuration) and takes the default for every other key; [load_config]
    on a missing file or on a file that is not JSON returns exactly the
    default configuration; and a readable file holding a partial dict is
    completed from the defaults. *)
Theorem save_load_roundtrip (cfg : gmap string pyval) (s : state) :
  writable (fs s) = true -> room (fs s) = true -> readable (fs s) = true ->
  fst (save_config (PyDict cfg) s) = Ok true /\
  (exists loaded : gmap string pyval,
      load_config (fs (run (save_config (PyDict cfg)) s)) = PyDict loaded /\
      (forall k v, cfg !! k = Some v -> loaded !! k = Some v) /\
      (forall k, cfg !! k = None ->
                 loaded !! k = (list_to_map DEFAULT_CONFIG : gmap string pyval) !! k)) /\
  (forall d, content d = None \/ content d = Some Garbled ->
             load_config d = default_config) /\
  (forall d (m : gmap string pyval),
      content d = Some (Document (PyDict m)) -> readable d = true ->
      exists loaded : gmap string pyval,
        load_config d = PyDict loaded /\
        (forall k v, m !! k = Some v -> loaded !! k = Some v) /\
        (forall k v, m !! k = None -> In (k, v) DEFAULT_CONFIG ->
                     loaded !! k = Some v)).
Proof.
  intros Hw Hroom Hread.
  destruct (save_config_ok (PyDict cfg) s Hw Hroom) as (Hok & Hc & Hr).
  split; [exact Hok|]. split; [|split].
  - exists (cfg ∪ list_to_map DEFAULT_CONFIG). split.
    + apply load_config_dict; [exact Hc | by rewrite Hr].
    + split.
      * intros k v Hk. by apply lookup_union_Some_l.
      * intros k Hk. by rewrite lookup_union_r.
  - intros d [H|H]; [by apply load_config_missing | by apply load_config_garbled].
  - intros d m Hc' Hr'. exists (m ∪ list_to_map DEFAULT_CONFIG). split.
    + by apply load_config_dict.
    + split.
      * intros k v Hk. by apply lookup_union_Some_l.
      * intros k v Hk Hin. rewrite lookup_union_r by done.
        cbn in Hin.
        destruct Hin as [H|[H|[H|[H|[H|[]]]]]]; inversion H; subst; reflexivity.
Qed.

Lemma save_load_roundtrip_witness :
  fst (save_config default_config boot) = Ok true /\
  load_config (fs (run (save_config default_config) boot)) = default_config.
Proof.
  pose proof (save_load_roundtrip (list_to_map DEFAULT_CONFIG) boot
                eq_refl eq_refl eq_refl) as (Hok & (loaded & Hl & _ & _) & _).
  split; [exact Hok|]. vm_compute. reflexivity.
Defined.

(** C7. A configuration file that holds the JSON array of the five key
    names is readable and is not a configuration, yet [load_config]
    returns the array, not the default configuration: every key is found
    "in" it, so the loop changes nothing and raises nothing.  The start of
    the application then fails on it. *)
Theorem load_config_key_list :
  content key_list_file =
    Some (Document
            (PyList [PyStr "vendor_id"; PyStr "product_id"; PyStr "interface";
                     PyStr "auto_max_count"; PyStr "auto_interval"])) /\
  readable key_list_file = true /\
  load_config key_list_file =
    PyList [PyStr "vendor_id"; PyStr "product_id"; PyStr "interface";
            PyStr "auto_max_count"; PyStr "auto_interval"] /\
  load_config key_list_file <> default_config /\
  __init__ key_list_file = Raise AttributeError.
Proof. repeat split; try reflexivity. discriminate. Qed.


(** ** Accessors of the USB identifiers *)

(** The accessors never raise. *)
Lemma get_vendor_id_returns (s : state) :
  exists v, fst (_get_vendor_id s) = Ok v.
Proof.
  unfold _get_vendor_id, try_except, try_except_on, bind, get, lift, int16,
    ret, raise.
  destruct (py_get (config s) "vendor_id" (PyStr "0x0fe6")) as [v|e]; cbn;
    [|eauto].
  destruct v; cbn; eauto. destruct (py_int 16 s0); cbn; eauto.
Qed.

Lemma get_product_id_returns (s : state) :
  exists v, fst (_get_product_id s) = Ok v.
Proof.
  unfold _get_product_id, try_except, try_except_on, bind, get, lift, int16,
    ret, raise.
  destruct (py_get (config s) "product_id" (PyStr "0x811e")) as [v|e]; cbn;
    [|eauto].
  destruct v; cbn; eauto. destruct (py_int 16 s0); cbn; eauto.
Qed.

(** A stored string, parseable or not, and a missing key give an
    integer. *)
Lemma get_vendor_id_of_string (s : state) (m : gmap string pyval) :
  config s = PyDict m ->
  (m !! "vendor_id" = None \/ exists txt, m !! "vendor_id" = Some (PyStr txt)) ->
  exists z, fst (_get_vendor_id s) = Ok (PyInt z) /\
            (m !! "vendor_id" = None -> z = 0x0fe6) /\
            (forall txt, m !! "vendor_id" = Some (PyStr txt) ->
                         z = default 0x0fe6 (py_int 16 txt)).
Proof.
  intros Hc Hm.
  unfold _get_vendor_id, try_except, try_except_on, bind, get, lift, int16,
    ret, raise.
  rewrite Hc. cbn. destruct Hm as [Hn|[txt Ht]].
  - rewrite Hn. cbn. exists 0x0fe6. split; [reflexivity|]. split; [done|].
    intros ? ?; discriminate.
  - rewrite Ht. cbn. destruct (py_int 16 txt) as [z|] eqn:E; cbn.
    + exists z. split; [reflexivity|]. split; [intros ?; discriminate|].
      intros txt' [= <-]. by rewrite E.
    + exists 0x0fe6. split; [reflexivity|]. split; [done|].
      intros txt' [= <-]. by rewrite E.
Qed.

(** C10 (the code departs from it). On the configuration loaded from the
    file [{"vendor_id": null}], [_get_vendor_id] returns [None], which is
    not an integer: a stored value that is neither a string nor an integer
    is handed back as it is. *)
Theorem get_vendor_id_not_integer :
  fst (_get_vendor_id boot_null_vendor) = Ok PyNone /\ is_int PyNone = false.
Proof. split; vm_compute; reflexivity. Qed.

(** ** Settings dialog *)

(** C8. Saving settings is rejected when [int(v, 16)] raises on the vendor
    or the product identifier, [v] being the stripped text of the entry
    with [0x] put in front unless it starts with it, or when [int] raises
    on the stripped text of the interface: the only effect is one popup
    whose message names the first offending field; the configuration in
    memory, the printer handle and the file are as before and the file was
    not opened for writing.  What [int] accepts in base 16 is more than the
    hexadecimal numerals (underscores between digits, a second prefix, the
    digits of other scripts), so a text that is no hexadecimal numeral may
    be committed. *)
Theorem save_settings_rejects_invalid
  (vid_entry pid_entry iface_entry : string) (s : state) :
  hex_ok vid_entry = false \/ hex_ok pid_entry = false \/
  int_ok iface_entry = false ->
  let s' := run (save_settings vid_entry pid_entry iface_entry) s in
  let msg := if negb (hex_ok vid_entry) then vendor_msg
             else if negb (hex_ok pid_entry) then product_msg
             else interface_msg in
  save_settings vid_entry pid_entry iface_entry s =
    (Ok tt, set_popups (popups s ++ [invalid_input msg]) s) /\
  config s' = config s /\ fs s' = fs s /\ writes (fs s') = writes (fs s) /\
  printer s' = printer s.
Proof.
  intros Hbad s' msg. subst s' msg.
  unfold run, hex_ok, int_ok in *.
  unfold save_settings, check_hex, check_int, try_except, try_except_on,
    bind, int16, int10, ret, raise, _make_popup, modify, invalid_input.
  destruct (py_int 16 (with_prefix (strip vid_entry))) as [v|]; cbn;
    [|done].
  destruct (py_int 16 (with_prefix (strip pid_entry))) as [p|]; cbn;
    [|done].
  destruct (py_int 10 (strip iface_entry)) as [i|]; cbn; [|done].
  exfalso. destruct Hbad as [H|[H|H]]; discriminate.
Qed.

Lemma save_settings_rejects_invalid_witness :
  save_settings "zzzz" "0x811e" "0" boot =
    (Ok tt, set_popups [invalid_input vendor_msg] boot) /\
  save_settings "0fe6" "811e" "abc" boot =
    (Ok tt, set_popups [invalid_input interface_msg] boot).
Proof.
  split.
  - exact (proj1 (save_settings_rejects_invalid "zzzz" "0x811e" "0" boot
                    (or_introl eq_refl))).
  - exact (proj1 (save_settings_rejects_invalid "0fe6" "811e" "abc" boot
                    (or_intror (or_intror eq_refl)))).
Defined.

(** The text "_12" is not a hexadecimal numeral, with or without prefix,
    and is accepted as vendor identifier all the same: [int("0x_12", 16)]
    is 18.  The configuration in memory changes and the file is written. *)
Lemma save_settings_accepts_underscore :
  let s' := run (save_settings "_12" "0x811e" "0") boot in
  spec_hex_parseable (strip "_12") = false /\
  config s' <> config boot /\
  writes (fs s') <> writes (fs boot) /\
  py_get (config boot) "vendor_id" PyNone = Ok (PyStr "0x0fe6") /\
  py_get (config s') "vendor_id" PyNone = Ok (PyStr "0x_12") /\
  fst (_get_vendor_id s') = Ok (PyInt 18) /\
  writes (fs boot) = 0%nat /\ writes (fs s') = 1%nat /\
  content (fs s') = Some (Document (config s')) /\
  title <$> popups s' = ["Success"].
Proof.
  cbn zeta. split; [reflexivity|]. split.
  { intros H. apply (f_equal (fun c => py_get c "vendor_id" PyNone)) in H.
    vm_compute in H. discriminate H. }
  split; [vm_compute; discriminate|].
  vm_compute. repeat split; reflexivity.
Qed.

(** Accepted input is committed: the prefixed identifiers and the integer
    are stored and the file is written. *)
Example save_settings_accepts :
  let s' := run (save_settings " 0FE6 " "0x811e" "1") boot in
  py_get (config s') "vendor_id" PyNone = Ok (PyStr "0x0FE6") /\
  py_get (config s') "interface" PyNone = Ok (PyInt 1) /\
  content (fs s') = Some (Document (config s')) /\
  writes (fs s') = 1%nat.
Proof. vm_compute. repeat split; reflexivity. Qed.

(** ** Print lock *)

Lemma run_try_finally {A} (m : M A) (f : M unit) (s : state) :
  run (try_finally m f) s = run f (run m s).
Proof.
  unfold run, try_finally. destruct (m s) as [r s1]. cbn.
  destruct (f s1) as [[[]|e] s2]; reflexivity.
Qed.

(** When the [finally] block cannot raise, the outcome is that of the
    body. *)
Lemma fst_try_finally {A} (m : M A) (f : M unit) (s : state) :
  (forall s1, fst (f s1) = Ok tt) ->
  fst (try_finally m f s) = fst (m s).
Proof.
  intros Hf. unfold try_finally. destruct (m s) as [r s1]. cbn.
  specialize (Hf s1). destruct (f s1) as [[[]|e] s2]; cbn in *; congruence.
Qed.

(** When the handler cannot raise, neither can the [try]. *)
Lemma fst_try_except_unit (m : M unit) (h : exn -> M unit) (s : state) :
  (forall e s1, fst (h e s1) = Ok tt) ->
  fst (try_except m h s) = Ok tt.
Proof.
  intros Hh. unfold try_except, try_except_on.
  destruct (m s) as [[[]|e] s1]; cbn; [reflexivity | apply Hh].
Qed.

(** The guarded release: [try: self.print_lock.release() except: pass]. *)
Lemma guarded_release (s : state) :
  fst (try_except release (fun _ => ret tt) s) = Ok tt /\
  print_lock (run (try_except release (fun _ => ret tt)) s) = false.
Proof.
  unfold run, try_except, try_except_on, release, ret.
  destruct (print_lock s) eqn:E; cbn; auto.
Qed.

Lemma make_popup_ok (t msg ty : string) (s : state) :
  fst (_make_popup t msg ty s) = Ok tt.
Proof. reflexivity. Qed.

(** Shape shared by the two print jobs. *)
Lemma print_job_busy (body : M unit) (h : exn -> M unit) (s : state) :
  print_lock s = true ->
  (got <- acquire_nonblocking ;;
   if negb got then _make_popup "Info" busy_text "info"
   else try_finally (try_except body h)
          (try_except release (fun _ => ret tt))) s = (Ok tt, busy s).
Proof.
  intros Hl. unfold bind, acquire_nonblocking. rewrite Hl. reflexivity.
Qed.

Lemma print_job_returns (body : M unit) (h : exn -> M unit) (s : state) :
  (forall e s1, fst (h e s1) = Ok tt) ->
  print_lock s = false ->
  fst ((got <- acquire_nonblocking ;;
        if negb got then _make_popup "Info" busy_text "info"
        else try_finally (try_except body h)
               (try_except release (fun _ => ret tt))) s) = Ok tt.
Proof.
  intros Hh Hl. unfold bind, acquire_nonblocking. rewrite Hl. cbn [negb].
  rewrite fst_try_finally by (intros; apply guarded_release).
  by apply fst_try_except_unit.
Qed.

Lemma print_job_releases (body : M unit) (h : exn -> M unit) (s : state) :
  print_lock s = false ->
  print_lock
    (run (got <- acquire_nonblocking ;;
          if negb got then _make_popup "Info" busy_text "info"
          else try_finally (try_except body h)
                 (try_except release (fun _ => ret tt))) s) = false.
Proof.
  intros Hl. unfold run at 1, bind, acquire_nonblocking. rewrite Hl.
  cbn [negb].
  change (print_lock
            (run (try_finally (try_except body h)
                    (try_except release (fun _ => ret tt)))
               (set_print_lock true s)) = false).
  rewrite run_try_finally. apply guarded_release.
Qed.

(** The three ways out of a print job on the booted application: a
    connection failure leaves no handle and posts the error popup; a
    failing printer call is reported; a clean run prints the counter and
    ends with the cut. *)
Example print_count_connection_failure :
  let s := run print_count (boot_with_script [false]) in
  printer s = None /\ print_lock s = false /\ popups s = [] /\
  length (after_log s) = 1%nat.
Proof. vm_compute. repeat split; reflexivity. Qed.

Example print_count_printer_error :
  let s := run print_count
             (boot_with_script [true; true; true; true; true; true; false]) in
  print_lock s = false /\
  title <$> popups s = ["Print Error"].
Proof. vm_compute. repeat split; reflexivity. Qed.

Example print_count_success :
  let s := run print_count (set_counter 7 boot) in
  print_lock s = false /\ printer s = Some 0%nat /\
  title <$> popups s = ["Success"] /\
  In (UsbCall 0%nat (PText ("Hasil Hitungan : 7" ++ nl)) true)
     (usb_log (usb s)) /\
  last (usb_log (usb s)) = Some (UsbCall 0%nat PCut true).
Proof. vm_compute. repeat split; try reflexivity. tauto. Qed.

(** ** Starting an auto run *)

Section Start.

Variable py_float : string -> option float.


End Start.


(** Texts that are not numbers fall back to 10 and 1.0. *)
Example toggle_auto_defaults :
  let s' := run (_toggle_auto float_of_text)
              (set_ui (auto_screen_with "ten" "fast") boot) in
  auto_max_count s' = 10 /\ auto_interval s' = 1%float /\ popups s' = [].
Proof. vm_compute. repeat split; reflexivity. Qed.

(** The digits of every script count: the full-width digits of twelve. *)
Example toggle_auto_full_width :
  let s' := run (_toggle_auto float_of_text)
              (set_ui (auto_screen_with "１２" "1.0") boot) in
  auto_max_count s' = 12 /\ auto_interval s' = 1%float.
Proof. vm_compute. split; reflexivity. Qed.

(** A maximum with more than 4300 digits is not converted: the run counts
    to 10. *)
Example toggle_auto_long_number :
  let digits := String.concat "" (repeat "1" 4301) in
  let s' := run (_toggle_auto float_of_text)
              (set_ui (auto_screen_with digits "1.0") boot) in
  auto_max_count s' = 10.
Proof. vm_compute. reflexivity. Qed.

(** ** Walking through statements *)

Section Walk.

Context (R : state -> state -> Prop) `{!PreOrder R}.

Lemma keeps_ret {A} (a : A) : keeps R (ret a).
Proof. intros s. reflexivity. Qed.

Lemma keeps_raise {A} (e : exn) : keeps R (raise e : M A).
Proof. intros s. reflexivity. Qed.

Lemma keeps_get {A} (f : state -> A) : keeps R (get f).
Proof. intros s. reflexivity. Qed.

Lemma keeps_lift {A} (r : res A) : keeps R (lift r).
Proof. intros s. reflexivity. Qed.

Lemma keeps_bind {A B} (m : M A) (k : A -> M B) :
  keeps R m -> (forall a, keeps R (k a)) -> keeps R (bind m k).
Proof.
  intros Hm Hk s. specialize (Hm s). unfold run, bind in *.
  destruct (m s) as [[a|e] s1]; cbn in *; [|exact Hm].
  etrans; [exact Hm | apply Hk].
Qed.

Lemma keeps_try_except_on {A} (c : exn -> bool) (m : M A) (h : exn -> M A) :
  keeps R m -> (forall e, keeps R (h e)) -> keeps R (try_except_on c m h).
Proof.
  intros Hm Hh s. specialize (Hm s). unfold run, try_except_on in *.
  destruct (m s) as [[a|e] s1]; cbn in *; [exact Hm|].
  destruct (c e); [|exact Hm].
  etrans; [exact Hm | apply Hh].
Qed.

Lemma keeps_try_except {A} (m : M A) (h : exn -> M A) :
  keeps R m -> (forall e, keeps R (h e)) -> keeps R (try_except m h).
Proof. apply keeps_try_except_on. Qed.

Lemma keeps_try_finally {A} (m : M A) (f : M unit) :
  keeps R m -> keeps R f -> keeps R (try_finally m f).
Proof.
  intros Hm Hf s. rewrite run_try_finally.
  etrans; [apply Hm | apply Hf].
Qed.

End Walk.

(** Splits a statement along its binds and handlers; [leaf] closes what
    is left. *)
Ltac walk leaf :=
  repeat first
    [ apply keeps_ret; apply _
    | apply keeps_raise; apply _
    | apply keeps_get; apply _
    | apply keeps_lift; apply _
    | apply keeps_bind; [apply _ | | intros ?]
    | apply keeps_try_except; [apply _ | | intros ?]
    | apply keeps_try_except_on; [apply _ | | intros ?]
    | apply keeps_try_finally; [apply _ | | ]
    | match goal with
      | |- keeps _ (match ?x with _ => _ end) => destruct x
      end
    | leaf ].

(** ** Main-thread code only posts for itself and starts threads *)

Lemma grows_refl (s : state) : grows s s.
Proof.
  split; [exists [] | exists 0%nat]; cbn; rewrite ?app_nil_r; auto.
Qed.

Lemma grows_trans (a b c : state) : grows a b -> grows b c -> grows a c.
Proof.
  intros [(e1 & H1 & F1) (k1 & T1)] [(e2 & H2 & F2) (k2 & T2)]. split.
  - exists (e1 ++ e2)%list. rewrite H2, H1, app_assoc. split; [done|].
    apply Forall_app; auto.
  - exists (k1 + k2)%nat. rewrite T2, T1, <- app_assoc. f_equal.
    by rewrite repeat_app.
Qed.

#[export] Instance grows_preorder : PreOrder grows.
Proof. split; [exact grows_refl | exact grows_trans]. Qed.

Lemma grows_same (s s' : state) :
  after_log s' = after_log s -> threads s' = threads s -> grows s s'.
Proof.
  intros Hl Ht. split; [exists [] | exists 0%nat]; cbn;
    rewrite ?app_nil_r; auto.
Qed.

Lemma grows_after (who : origin) (cb : callback) :
  not_by_worker (who, cb) -> keeps grows (after who cb).
Proof.
  intros Hw s. split; [exists [(who, cb)] | exists 0%nat]; cbn;
    rewrite ?app_nil_r; auto.
Qed.

Lemma grows_new_thread : keeps grows new_thread.
Proof.
  intros s. split; [exists [] | exists 1%nat]; cbn; rewrite ?app_nil_r; auto.
Qed.

(** Leaves: statements that touch neither the queue nor the threads. *)
Ltac same_leaf :=
  intros ?; apply grows_same;
  unfold run, modify, _make_popup, acquire_nonblocking, release, pcall, call,
    Usb, open_for_write, json_dump, entry_get, btn_auto_configure,
    progress_label_configure, configure_manual_label, configure_auto_label,
    progress_bar_set, true_div, configure_progress_label, int16, int10, raise, ret;
  cbn; repeat (case_match; cbn); reflexivity.

Ltac grows_walk :=
  walk ltac:(first [ apply grows_after; exact I
                   | apply grows_new_thread
                   | same_leaf ]).

Lemma grows_get_vendor_id : keeps grows _get_vendor_id.
Proof. unfold _get_vendor_id. grows_walk. Qed.

Lemma grows_get_product_id : keeps grows _get_product_id.
Proof. unfold _get_product_id. grows_walk. Qed.

Lemma grows_set_device_status (c : bool) : keeps grows (_set_device_status c).
Proof. unfold _set_device_status. grows_walk. Qed.

Lemma grows_connect_printer : keeps grows connect_printer.
Proof.
  unfold connect_printer, _get_interface.
  walk ltac:(first [ apply grows_get_vendor_id | apply grows_get_product_id
                   | apply grows_set_device_status
                   | apply grows_after; exact I | same_leaf ]).
Qed.

Ltac grows_known :=
  first [ apply grows_get_vendor_id | apply grows_get_product_id
        | apply grows_set_device_status | apply grows_connect_printer
        | apply grows_after; exact I | apply grows_new_thread | same_leaf ].

Lemma grows_print_count : keeps grows print_count.
Proof. unfold print_count, print_count_body. walk grows_known. Qed.

Lemma grows_test_print : keeps grows test_print.
Proof. unfold test_print, test_print_body. walk grows_known. Qed.

Lemma grows_update_label : keeps grows _update_label.
Proof. unfold _update_label. walk grows_known. Qed.

Lemma grows_save_config (cfg : pyval) : keeps grows (save_config cfg).
Proof. unfold save_config. walk grows_known. Qed.

Lemma grows_run_callback (cb : callback) : keeps grows (run_callback cb).
Proof.
  destruct cb; cbn [run_callback];
    [ unfold _set_counter_from_thread
    | unfold _print_and_reset, _safe_print_call
    | unfold _auto_cleanup_ui, entries_configure
    | | | | ];
    walk ltac:(first [ apply grows_print_count | apply grows_test_print
                     | apply grows_update_label | grows_known ]).
Qed.

Lemma grows_handle_action (py_float : string -> option float) (a : action) :
  keeps grows (handle_action py_float a).
Proof.
  destruct a; cbn [handle_action _safe_print_call _safe_test_print_call];
    [ unfold _manual_add
    | unfold _reset_counter
    | unfold _toggle_auto, entries_configure, float_of
    | | 
    | unfold save_settings, check_hex, check_int, config_set
    | ];
    walk ltac:(first [ apply grows_print_count | apply grows_test_print
                     | apply grows_update_label | apply grows_save_config
                     | grows_known ]).
Qed.

(** ** The print lock is held during the job *)

#[export] Instance same_lock_preorder : PreOrder same_lock.
Proof.
  split.
  - by intros s.
  - intros a b c H1 H2. unfold same_lock in *. congruence.
Qed.

Ltac lock_leaf :=
  intros ?;
  unfold same_lock, run, after, modify, _make_popup, pcall, call, Usb, int16,
    raise, ret, get, lift;
  cbn; repeat (case_match; cbn); reflexivity.

Lemma lock_print_count_body : keeps same_lock print_count_body.
Proof.
  unfold print_count_body, connect_printer, _set_device_status,
    _get_vendor_id, _get_product_id, _get_interface.
  walk lock_leaf.
Qed.

Lemma lock_test_print_body : keeps same_lock test_print_body.
Proof.
  unfold test_print_body, connect_printer, _set_device_status,
    _get_vendor_id, _get_product_id, _get_interface.
  walk lock_leaf.
Qed.

Lemma locked_job (body : M unit) (s : state) :
  print_lock s = false ->
  run (got <- acquire_nonblocking ;;
       if negb got then _make_popup "Info" busy_text "info"
       else try_finally body (try_except release (fun _ => ret tt))) s =
  run (try_except release (fun _ => ret tt))
    (run body (set_print_lock true s)).
Proof.
  intros Hl. unfold run at 1, bind, acquire_nonblocking. rewrite Hl.
  cbn [negb].
  change (run (try_finally body (try_except release (fun _ => ret tt)))
            (set_print_lock true s) =
          run (try_except release (fun _ => ret tt))
            (run body (set_print_lock true s))).
  apply run_try_finally.
Qed.

(** C3. Both print jobs take the lock without waiting.  When the lock is
    held the job only adds the "print in progress" notice and returns: no
    other part of the state changes.  When the lock is free the job takes
    it: the job proper ([print_count_body], [test_print_body]) starts in
    the state with the lock held, never touches the lock, so the lock is
    still held when it ends, on every way out (success, a failing printer
    call, a failing connection), and the [finally] block then releases
    it; the job returns normally and the lock is free again afterwards,
    whatever the transport does. *)
Theorem print_jobs_lock_discipline (s : state) :
  (print_lock s = true ->
   print_count s = (Ok tt, busy s) /\ test_print s = (Ok tt, busy s)) /\
  (forall x,
      print_lock (run print_count_body x) = print_lock x /\
      print_lock (run test_print_body x) = print_lock x) /\
  (print_lock s = false ->
   let held := set_print_lock true s in
   acquire_nonblocking s = (Ok true, held) /\
   print_lock held = true /\
   print_lock (run print_count_body held) = true /\
   print_lock (run test_print_body held) = true /\
   run print_count s =
     run (try_except release (fun _ => ret tt))
       (run print_count_body held) /\
   run test_print s =
     run (try_except release (fun _ => ret tt))
       (run test_print_body held) /\
   fst (print_count s) = Ok tt /\ print_lock (run print_count s) = false /\
   fst (test_print s) = Ok tt /\ print_lock (run test_print s) = false).
Proof.
  split; [|split].
  - intros Hl. split; [unfold print_count | unfold test_print];
      by apply print_job_busy.
  - intros x. split;
      [apply lock_print_count_body | apply lock_test_print_body].
  - intros Hl held. subst held.
    split; [unfold acquire_nonblocking; by rewrite Hl|].
    split; [reflexivity|].
    split; [by rewrite lock_print_count_body|].
    split; [by rewrite lock_test_print_body|].
    split; [unfold print_count; by apply locked_job|].
    split; [unfold test_print; by apply locked_job|].
    repeat split.
    + unfold print_count, print_count_body.
      apply print_job_returns; [|exact Hl]. intros; apply make_popup_ok.
    + unfold print_count, print_count_body. by apply print_job_releases.
    + unfold test_print, test_print_body.
      apply print_job_returns; [|exact Hl]. intros; apply make_popup_ok.
    + unfold test_print, test_print_body. by apply print_job_releases.
Qed.

Lemma print_jobs_lock_discipline_witness :
  print_count (set_print_lock true boot) =
    (Ok tt, busy (set_print_lock true boot)) /\
  acquire_nonblocking (boot_with_script [false]) =
    (Ok true, set_print_lock true (boot_with_script [false])) /\
  print_lock
    (run print_count_body (set_print_lock true (boot_with_script [false])))
    = true /\
  print_lock (run print_count (boot_with_script [false])) = false /\
  print_lock (run test_print
                (boot_with_script [true; true; true; false; false])) = false.
Proof.
  split; [exact (proj1 (proj1 (print_jobs_lock_discipline
                                 (set_print_lock true boot)) eq_refl))|].
  destruct (proj2 (proj2 (print_jobs_lock_discipline
                            (boot_with_script [false]))) eq_refl)
    as (H1 & _ & H3 & _ & _ & _ & _ & H8 & _).
  split; [exact H1|]. split; [exact H3|]. split; [exact H8|].
  exact (proj2 (proj2 (proj2 (proj2 (proj2 (proj2 (proj2 (proj2 (proj2
           (proj2 (proj2 (print_jobs_lock_discipline
              (boot_with_script [true; true; true; false; false])))
              eq_refl)))))))))).
Defined.

(** ** What the callbacks of a run leave alone *)

Lemma same_control_refl (s : state) : same_control s s.
Proof. by repeat split. Qed.

Lemma same_control_trans (a b c : state) :
  same_control a b -> same_control b c -> same_control a c.
Proof.
  intros (A1 & A2 & A3 & A4 & A5 & A6) (B1 & B2 & B3 & B4 & B5 & B6).
  repeat split; congruence.
Qed.

#[export] Instance quiet_frame_preorder : PreOrder quiet_frame.
Proof.
  split.
  - intros s. split; [apply same_control_refl | done].
  - intros a b c [A1 A2] [B1 B2]. split;
      [by eapply same_control_trans | congruence].
Qed.

Lemma quiet_popup (s s' : state) : quiet_frame s s' -> popup_frame s s'.
Proof.
  intros [Hc Hl]. split; [exact Hc|]. exists []. rewrite app_nil_r.
  split; [done|]. split; [constructor | cbn; lia].
Qed.

Lemma popup_then_quiet (a b c : state) :
  popup_frame a b -> quiet_frame b c -> popup_frame a c.
Proof.
  intros [A1 (extra & Hl & Hf & Hn)] [B1 B2]. split;
    [by eapply same_control_trans|].
  exists extra. rewrite B2. done.
Qed.

Lemma quiet_then_popup (a b c : state) :
  quiet_frame a b -> popup_frame b c -> popup_frame a c.
Proof.
  intros [A1 A2] [B1 (extra & Hl & Hf & Hn)]. split;
    [by eapply same_control_trans|].
  exists extra. rewrite Hl, A2. done.
Qed.

(** Composition of statements that keep different relations. *)
Section Compose.

Context (R1 R2 R3 : state -> state -> Prop).
Hypothesis incl1 : forall a b, R1 a b -> R3 a b.
Hypothesis comp : forall a b c, R1 a b -> R2 b c -> R3 a c.

Lemma keeps_bind_comp {A B} (m : M A) (k : A -> M B) :
  keeps R1 m -> (forall a, keeps R2 (k a)) -> keeps R3 (bind m k).
Proof.
  intros Hm Hk s. specialize (Hm s). unfold run, bind in *.
  destruct (m s) as [[a|e] s1]; cbn in *; [|by apply incl1].
  eapply comp; [exact Hm | apply Hk].
Qed.

Lemma keeps_try_except_comp {A} (m : M A) (h : exn -> M A) :
  keeps R1 m -> (forall e, keeps R2 (h e)) -> keeps R3 (try_except m h).
Proof.
  intros Hm Hh s. specialize (Hm s).
  unfold run, try_except, try_except_on in *.
  destruct (m s) as [[a|e] s1]; cbn in *; [by apply incl1|].
  eapply comp; [exact Hm | apply Hh].
Qed.

Lemma keeps_try_finally_comp {A} (m : M A) (f : M unit) :
  keeps R1 m -> keeps R2 f -> keeps R3 (try_finally m f).
Proof.
  intros Hm Hf s. rewrite run_try_finally. eapply comp; [apply Hm | apply Hf].
Qed.

End Compose.

Ltac quiet_leaf :=
  intros ?; split; [repeat split|];
  unfold run, modify, _make_popup, acquire_nonblocking, release, pcall, call,
    Usb, open_for_write, json_dump, entry_get, btn_auto_configure,
    progress_label_configure, configure_manual_label, configure_auto_label,
    progress_bar_set, true_div, configure_progress_label, int16, int10, raise, ret;
  cbn; repeat (case_match; cbn); reflexivity.

Lemma quiet_get_vendor_id : keeps quiet_frame _get_vendor_id.
Proof. unfold _get_vendor_id. walk quiet_leaf. Qed.

Lemma quiet_get_product_id : keeps quiet_frame _get_product_id.
Proof. unfold _get_product_id. walk quiet_leaf. Qed.

Lemma quiet_set_device_status (c : bool) :
  keeps quiet_frame (_set_device_status c).
Proof. unfold _set_device_status. walk quiet_leaf. Qed.

Lemma quiet_update_label : keeps quiet_frame _update_label.
Proof. unfold _update_label. walk quiet_leaf. Qed.

Lemma quiet_set_counter_from_thread (v m : Z) :
  keeps quiet_frame (_set_counter_from_thread v m).
Proof.
  unfold _set_counter_from_thread.
  walk ltac:(first [apply quiet_update_label | quiet_leaf]).
Qed.

Lemma quiet_auto_cleanup_ui : keeps quiet_frame _auto_cleanup_ui.
Proof. unfold _auto_cleanup_ui, entries_configure. walk quiet_leaf. Qed.

Lemma quiet_make_popup (t msg ty : string) :
  keeps quiet_frame (_make_popup t msg ty).
Proof. quiet_leaf. Qed.

Lemma popup_connect_printer : keeps popup_frame connect_printer.
Proof.
  unfold connect_printer, _get_interface.
  apply (keeps_bind_comp quiet_frame popup_frame popup_frame
           quiet_popup quiet_then_popup); [apply keeps_get; apply _|].
  intros [h|]; [intros s; apply quiet_popup; reflexivity|].
  apply (keeps_try_except_comp quiet_frame popup_frame popup_frame
           quiet_popup quiet_then_popup).
  - walk ltac:(first [ apply quiet_get_vendor_id | apply quiet_get_product_id
                     | apply quiet_set_device_status | quiet_leaf ]).
  - intros e.
    apply (keeps_bind_comp popup_frame quiet_frame popup_frame
             (fun _ _ H => H) popup_then_quiet).
    + intros s. split; [by repeat split|].
      eexists [_]. cbn. split; [reflexivity|]. split; [|lia].
      by repeat constructor.
    + intros _. walk quiet_leaf.
Qed.

(** The part of a print job after the connection posts nothing. *)
Lemma popup_print_job (body : bool -> M unit) (h : exn -> M unit) :
  (forall b, keeps quiet_frame (body b)) ->
  (forall e, keeps quiet_frame (h e)) ->
  keeps popup_frame
    (got <- acquire_nonblocking ;;
     if negb got then _make_popup "Info" busy_text "info"
     else try_finally (try_except (connected <- connect_printer ;; body connected) h)
            (try_except release (fun _ => ret tt))).
Proof.
  intros Hb Hh.
  apply (keeps_bind_comp quiet_frame popup_frame popup_frame
           quiet_popup quiet_then_popup); [quiet_leaf|].
  intros got. destruct (negb got);
    [intros s; apply quiet_popup; apply quiet_make_popup|].
  apply (keeps_try_finally_comp popup_frame quiet_frame popup_frame
           popup_then_quiet); [|walk quiet_leaf].
  apply (keeps_try_except_comp popup_frame quiet_frame popup_frame
           (fun _ _ H => H) popup_then_quiet); [|exact Hh].
  apply (keeps_bind_comp popup_frame quiet_frame popup_frame
           (fun _ _ H => H) popup_then_quiet); [apply popup_connect_printer|].
  exact Hb.
Qed.

Lemma popup_print_count : keeps popup_frame print_count.
Proof.
  unfold print_count, print_count_body. apply popup_print_job.
  - intros b. walk quiet_leaf.
  - intros e. quiet_leaf.
Qed.

Lemma popup_print_and_reset : keeps popup_frame _print_and_reset.
Proof.
  unfold _print_and_reset, _safe_print_call.
  apply (keeps_bind_comp popup_frame quiet_frame popup_frame
           (fun _ _ H => H) popup_then_quiet); [apply popup_print_count|].
  intros _. walk ltac:(first [apply quiet_update_label | quiet_leaf]).
Qed.

(** ** The counter under the callbacks of a run *)

Lemma print_count_returns (s : state) : fst (print_count s) = Ok tt.
Proof.
  destruct (print_lock s) eqn:E; unfold print_count, print_count_body.
  - by rewrite print_job_busy.
  - apply print_job_returns; [|exact E]. intros; apply make_popup_ok.
Qed.

Lemma counter_update_label (s : state) :
  counter (run _update_label s) = counter s.
Proof.
  unfold run, _update_label, configure_manual_label, configure_auto_label,
    bind, modify, get; cbn.
  destruct (manual_counter_label (ui s)); cbn;
    destruct (auto_counter_label (ui s)); reflexivity.
Qed.

Lemma counter_set_counter_from_thread (v m : Z) (s : state) :
  counter (run (_set_counter_from_thread v m) s) = v.
Proof.
  destruct s as [cfg c p ar sb lk ps dc sd sl mx iv [ml al pb pl me ie ba]
                 th lg dn pops u f nt ne].
  unfold run, _set_counter_from_thread, _update_label, progress_bar_set,
    true_div, configure_progress_label, configure_manual_label,
    configure_auto_label, bind, modify, get, raise, ret; cbn.
  destruct ml, al, pb, pl; cbn; try reflexivity;
    destruct (m =? 0); reflexivity.
Qed.

Lemma counter_print_and_reset (s : state) :
  counter (run _print_and_reset s) = 0.
Proof.
  unfold run, _print_and_reset, _safe_print_call, bind.
  pose proof (print_count_returns s) as Hr.
  destruct (print_count s) as [[[]|e] s1]; cbn in Hr; [|discriminate].
  unfold _update_label, progress_bar_set, true_div, configure_manual_label,
    configure_auto_label, bind, modify, get; cbn.
  repeat (case_match; cbn); reflexivity.
Qed.

Lemma counter_auto_cleanup_ui (s : state) :
  counter (run _auto_cleanup_ui s) = counter s.
Proof.
  unfold run, _auto_cleanup_ui, entries_configure, configure_progress_label,
    try_except, try_except_on, bind, modify, ret; cbn.
  repeat (case_match; cbn); reflexivity.
Qed.

(** ** Lists of callbacks *)

Lemma counter_after_app (l1 l2 : list callback) (c : Z) :
  counter_after (l1 ++ l2) c = counter_after l2 (counter_after l1 c).
Proof. apply fold_left_app. Qed.

Lemma prints_app (l1 l2 : list callback) :
  prints (l1 ++ l2) = (prints l1 + prints l2)%nat.
Proof. unfold prints. by rewrite filter_app, length_app. Qed.

Lemma shown_app (l1 l2 : list callback) :
  shown (l1 ++ l2) = (shown l1 ++ shown l2)%list.
Proof. apply omap_app. Qed.

Lemma worker_posts_app (l1 l2 : list (origin * callback)) :
  worker_posts (l1 ++ l2) = (worker_posts l1 ++ worker_posts l2)%list.
Proof. apply omap_app. Qed.

Lemma counts_snoc (i m : Z) :
  1 <= i -> counts i m = (counts (i - 1) m ++ [CbSetCounter i m])%list.
Proof.
  intros Hi. unfold counts.
  replace i with ((i - 1) + 1) at 1 by lia.
  rewrite seqZ_app by lia. rewrite fmap_app. f_equal. cbn.
  replace (1 + (i - 1)) with i by lia. reflexivity.
Qed.

Lemma length_counts (i m : Z) : length (counts i m) = Z.to_nat i.
Proof. unfold counts. by rewrite length_fmap, length_seqZ. Qed.

Lemma shown_counts (i m : Z) : shown (counts i m) = seqZ 1 i.
Proof.
  unfold counts, shown. induction (seqZ 1 i) as [|v l IH]; [done|].
  cbn. by rewrite IH.
Qed.

Lemma prints_counts (i m : Z) : prints (counts i m) = 0%nat.
Proof.
  unfold counts, prints. induction (seqZ 1 i) as [|v l IH]; [done|].
  rewrite fmap_cons, filter_cons. cbn [is_print]. by case_decide.
Qed.

(** In the queue of a run, what the main loop is shown, the prints and the
    counter only depend on what the worker posted. *)
Lemma run_entries_project (l : list (origin * callback)) :
  Forall run_entry l ->
  shown (snd <$> l) = shown (worker_posts l) /\
  prints (snd <$> l) = prints (worker_posts l) /\
  (forall c, counter_after (snd <$> l) c = counter_after (worker_posts l) c) /\
  length l = (length (worker_posts l) +
              length (filter (fun e => is_popup_entry e = true) l) +
              length (filter (fun e => is_probe_entry e = true) l))%nat.
Proof.
  induction 1 as [|[o cb] l Hx Hl (IH1 & IH2 & IH3 & IH4)]; [done|].
  destruct o, cb; cbn in Hx; try done;
    rewrite ?fmap_cons; unfold shown, prints, worker_posts in *;
    cbn [omap fst snd list_omap]; rewrite ?filter_cons; cbn;
    repeat case_decide; try done; cbn;
    (split; [by rewrite ?IH1|]); (split; [by rewrite ?IH2|]);
    (split; [intros c; apply IH3 | rewrite IH4; lia]).
Qed.

(** ** An undisturbed run *)

Lemma insert_last (old : list wpc) (pc pc' : wpc) :
  <[length old := pc']> (old ++ [pc])%list = (old ++ [pc'])%list.
Proof.
  rewrite insert_app_r_alt by lia. by rewrite Nat.sub_diag.
Qed.

Lemma set_threads_same (s : state) : set_threads (threads s) s = s.
Proof. by destruct s. Qed.

(** A step of a thread that has ended, or of a thread that does not
    exist, changes nothing. *)
Lemma step_other_worker (py_float : string -> option float)
  (time_sleep : float -> option exn) (old : list wpc) (pc : wpc) (t : nat)
  (s : state) :
  all_done old -> threads s = (old ++ [pc])%list -> t <> length old ->
  step py_float time_sleep (LWorker t) s = s.
Proof.
  intros Hold Hth Ht. cbn [step]. rewrite Hth.
  destruct (decide (t < length old)%nat) as [Hlt|Hge].
  - rewrite lookup_app_l by done.
    destruct (lookup_lt_is_Some_2 old t Hlt) as [x Hx]. rewrite Hx.
    assert (x = WDone) as ->
      by (eapply Forall_lookup_1 in Hold; [exact Hold | exact Hx]).
    cbn. rewrite list_insert_id; [apply set_threads_same|].
    rewrite Hth, lookup_app_l by done. exact Hx.
  - rewrite lookup_ge_None_2; [done|]. rewrite length_app. cbn. lia.
Qed.

Lemma worker_steps_cons (t : nat) (l : label) (sched : list label) :
  worker_steps t (l :: sched) =
  ((if is_worker_step t l then 1 else 0) + worker_steps t sched)%nat.
Proof.
  unfold worker_steps. rewrite filter_cons.
  destruct (is_worker_step t l); by case_decide.
Qed.

Section Run.

Context (py_float : string -> option float)
  (time_sleep : float -> option exn) (old : list wpc) (m : Z) (iv : float)
  (s0 : state).
Hypothesis old_done : all_done old.
Hypothesis m_nonneg : 0 <= m.
Hypothesis sleeps : time_sleep iv = None.

Lemma take_snoc_le {A} (l : list A) (x : A) (d : nat) :
  (d <= length l)%nat -> take d (l ++ [x])%list = take d l.
Proof. intros H. by rewrite take_app_le. Qed.

Lemma popups_snoc_worker (extra : list (origin * callback)) (t : nat)
  (cb : callback) :
  filter (fun e => is_popup_entry e = true)
    (extra ++ [(Worker t, cb)])%list =
  filter (fun e => is_popup_entry e = true) extra.
Proof.
  rewrite filter_app, filter_cons, filter_nil. cbn. 
  case_decide; [done|]. by rewrite app_nil_r.
Qed.

Lemma probes_snoc (log : list (origin * callback)) (e : origin * callback) :
  length (filter (fun e => is_probe_entry e = true) (log ++ [e])%list) =
  (length (filter (fun e => is_probe_entry e = true) log) +
   if is_probe_entry e then 1 else 0)%nat.
Proof.
  rewrite filter_app, length_app, filter_cons, filter_nil.
  destruct (is_probe_entry e); by case_decide.
Qed.

Lemma probe_entries_worker (t : nat) (s : state) :
  probe_entries (step py_float time_sleep (LWorker t) s) = probe_entries s.
Proof.
  unfold probe_entries. cbn [step].
  destruct (threads s !! t) as [pc|]; [|done].
  destruct pc; cbn; repeat (case_match; cbn); simplify_eq; cbn;
    rewrite ?probes_snoc; cbn; lia.
Qed.

Lemma run_inv_worker (s : state) :
  run_inv old m iv s0 s ->
  run_inv old m iv s0 (step py_float time_sleep (LWorker (length old)) s) /\
  Z.min (rank_of m s + 1) (3 * m + 5) <=
    rank_of m (step py_float time_sleep (LWorker (length old)) s).
Proof.
  intros (pc & extra & Hth & Htrack & Hlog & Hent & Hwp & Hd & Hc & Hpop &
          Hrun & Hsched & Hstart).
  unfold rank_of. cbn [step]. rewrite Hth, list_lookup_middle by done. rewrite ?last_snoc.
  pose proof Hd as Hd'. rewrite Hlog, length_app in Hd'.
  assert (after_done s - length (after_log s0) <= length extra)%nat as Hle
    by lia.
  destruct pc; cbn [worker_step on_track rank expected before_lock] in *.
  - (* WStart *)
    destruct (Hstart eq_refl) as [Hm Hiv]. rewrite Hm, Hiv.
    cbn; rewrite ?Hth, ?insert_last, ?last_snoc; cbn. split; [|lia].
    exists (WTest 0 m iv), extra. cbn.
    repeat split; try done; try lia.
    intros _. apply Hrun. lia.
  - (* WTest *)
    destruct Htrack as (-> & -> & Hi).
    rewrite (Hrun ltac:(lia)). cbn [andb].
    destruct (Z.ltb_spec i m); cbn; rewrite ?Hth, ?insert_last, ?last_snoc; cbn.
    + split; [|lia]. exists (WPost (i + 1) m iv), extra. cbn.
      repeat split; try done; try lia.
      * by replace (i + 1 - 1) with i by lia.
      * intros _. apply Hrun. lia.
    + split; [|lia]. assert (i = m) as -> by lia.
      exists WLocked, extra. cbn. repeat split; try done; try lia.
      intros _. apply Hrun. lia.
  - (* WPost *)
    destruct Htrack as (-> & -> & Hi). cbn; rewrite ?Hth, ?insert_last, ?last_snoc; cbn. split; [|lia].
    exists (WSleep i m iv), (extra ++ [(Worker (length old), CbSetCounter i m)])%list.
    cbn. rewrite Hlog, <- app_assoc, worker_posts_app, Hwp.
    rewrite take_snoc_le by done. rewrite popups_snoc_worker.
    repeat split; try done; try lia.
    + apply Forall_app. split; [done|]. by repeat constructor.
    + by rewrite (counts_snoc i m) by lia.
    + rewrite !length_app. cbn. lia.
    + intros _. apply Hrun. lia.
  - (* WSleep *)
    destruct Htrack as (-> & -> & Hi). rewrite sleeps. cbn; rewrite ?Hth, ?insert_last, ?last_snoc; cbn. split; [|lia].
    exists (WTest i m iv), extra. cbn. repeat split; try done; try lia.
    intros _. apply Hrun. lia.
  - (* WLocked *)
    rewrite (Hsched eq_refl). cbn; rewrite ?Hth, ?insert_last, ?last_snoc; cbn. split; [|lia].
    exists WFinally, (extra ++ [(Worker (length old), CbPrintAndReset)])%list.
    cbn. rewrite Hlog, <- app_assoc, worker_posts_app, Hwp.
    rewrite take_snoc_le by done. rewrite popups_snoc_worker.
    repeat split; try done; try lia.
    + apply Forall_app. split; [done|]. by repeat constructor.
    + rewrite !length_app. cbn. lia.
    + intros _. apply Hrun. lia.
  - (* WExcept *) done.
  - (* WFinally *)
    cbn; rewrite ?Hth, ?insert_last, ?last_snoc; cbn. split; [|lia]. exists WCleanup, extra. cbn.
    repeat split; try done; try lia.
  - (* WCleanup *)
    cbn; rewrite ?Hth, ?insert_last, ?last_snoc; cbn. split; [|lia].
    exists WDone, (extra ++ [(Worker (length old), CbAutoCleanupUi)])%list.
    cbn. rewrite Hlog, <- app_assoc, worker_posts_app, Hwp.
    rewrite take_snoc_le by done. rewrite popups_snoc_worker.
    repeat split; try done; try lia.
    + apply Forall_app. split; [done|]. by repeat constructor.
    + by rewrite <- app_assoc.
    + rewrite !length_app. cbn. lia.
  - (* WDone *)
    cbn; rewrite ?Hth, ?insert_last, ?last_snoc; cbn. split; [|lia]. exists WDone, extra. cbn.
    repeat split; try done; try lia.
Qed.

Lemma worker_posts_main_popups (l : list (origin * callback)) :
  Forall is_main_popup l ->
  worker_posts l = [] /\ Forall run_entry l.
Proof.
  induction 1 as [|[o cb] l Hx Hl [IH1 IH2]]; [done|].
  destruct o, cb; cbn in Hx; try done. split; [exact IH1|].
  by constructor.
Qed.

Lemma prints_single (cb : callback) :
  prints [cb] = if is_print cb then 1%nat else 0%nat.
Proof.
  unfold prints. rewrite filter_cons, filter_nil.
  destruct (is_print cb); by case_decide.
Qed.

(** The main loop runs a callback that keeps the control of the run, posts
    at most a popup, and only when it is the print, and acts on the counter
    as [counter_after] says. *)
Lemma run_inv_deliver (s s2 : state) (who : origin) (cb : callback)
  (extra2 : list (origin * callback)) :
  run_inv old m iv s0 s ->
  after_log s !! after_done s = Some (who, cb) ->
  same_control (set_after_done (S (after_done s)) s) s2 ->
  after_log s2 = (after_log s ++ extra2)%list ->
  Forall is_main_popup extra2 ->
  (length extra2 <= if is_print cb then 1 else 0)%nat ->
  counter s2 = counter_after [cb] (counter s) ->
  run_inv old m iv s0 s2 /\ rank_of m s2 = rank_of m s /\
  after_done s2 = S (after_done s) /\ probe_entries s2 = probe_entries s.
Proof.
  intros (pc & extra & Hth & Htrack & Hlog & Hent & Hwp & Hd & Hc & Hpop &
          Hrun & Hsched & Hstart) Hlook (C1 & C2 & C3 & C4 & C5 & C6)
    Hlog2 Hmain Hlen Hcount.
  assert (probe_entries s2 = probe_entries s) as Hprobe.
  { unfold probe_entries. rewrite Hlog2, filter_app, length_app.
    assert (filter (fun e => is_probe_entry e = true) extra2 = []) as ->;
      [|cbn; lia].
    clear -Hmain. induction Hmain as [|[o cb] l Hx Hl IH]; [done|].
    destruct o, cb; cbn in Hx; try done; rewrite filter_cons; cbn;
      by case_decide. }
  cbn in C1, C2, C3, C4, C5, C6.
  pose proof (lookup_lt_Some _ _ _ Hlook) as Hlt.
  pose proof Hlt as Hlt'. rewrite Hlog, length_app in Hlt'.
  destruct (worker_posts_main_popups extra2 Hmain) as [Hw2 Hr2].
  set (d := (after_done s - length (after_log s0))%nat) in *.
  assert (extra !! d = Some (who, cb)) as Hex.
  { rewrite Hlog, lookup_app_r in Hlook by lia. exact Hlook. }
  assert (take (S d) (extra ++ extra2)%list = (take d extra ++ [(who, cb)])%list)
    as Htake.
  { rewrite take_app_le by (apply lookup_lt_Some in Hex; lia).
    by apply take_S_r. }
  split; [|split; [unfold rank_of; by rewrite C3 | by split]].
  exists pc, (extra ++ extra2)%list.
  rewrite C1, C2, C3, C4, C5, C6, Hlog2, Hcount.
  replace (S (after_done s) - length (after_log s0))%nat with (S d) by lia.
  rewrite Htake, fmap_app, counter_after_app, prints_app. cbn [fmap list_fmap snd].
  rewrite prints_single, worker_posts_app, Hw2, app_nil_r, filter_app,
    !length_app.
  repeat split; try done; try lia; try (by apply Hstart).
  - by rewrite Hlog, app_assoc.
  - by apply Forall_app.
  - by rewrite Hc.
  - pose proof (length_filter (fun e => is_popup_entry e = true) extra2).
    lia.
Qed.

Lemma counter_set_device_status (c : bool) (s : state) :
  counter (run (_set_device_status c) s) = counter s.
Proof.
  unfold run, _set_device_status, bind, try_except, try_except_on, call,
    modify, get, ret. cbn.
  destruct c; cbn; [done|]. destruct (printer s); cbn; [|done].
  by destruct (next_outcome (usb s)) as [[|] rest].
Qed.

Lemma run_inv_main (s : state) :
  run_inv old m iv s0 s ->
  run_inv old m iv s0 (step py_float time_sleep LMain s) /\
  rank_of m (step py_float time_sleep LMain s) = rank_of m s /\
  probe_entries (step py_float time_sleep LMain s) = probe_entries s /\
  ((after_done s = length (after_log s) /\ step py_float time_sleep LMain s = s) \/
   after_done (step py_float time_sleep LMain s) = S (after_done s)).
Proof.
  intros Inv. pose proof Inv as (pc & extra & Hth & Htrack & Hlog & Hent &
                                 Hwp & Hd & _).
  cbn [step].
  destruct (after_log s !! after_done s) as [[who cb]|] eqn:Hlook.
  - assert (run_entry (who, cb)) as Hre.
    { rewrite Hlog in Hlook. apply lookup_app_Some in Hlook as [Hl|[_ Hl]].
      - apply lookup_lt_Some in Hl. lia.
      - eapply Forall_lookup_1 in Hent; [exact Hent | exact Hl]. }
    set (s1 := set_after_done (S (after_done s)) s).
    assert (forall s2,
               quiet_frame s1 s2 -> is_print cb = false ->
               counter s2 = counter_after [cb] (counter s) ->
               run_inv old m iv s0 s2 /\ rank_of m s2 = rank_of m s /\
               probe_entries s2 = probe_entries s /\
               ((after_done s = length (after_log s) /\ s2 = s) \/
                after_done s2 = S (after_done s))) as Hquiet.
    { intros s2 [Hc Hl] Hp Hcnt.
      destruct (run_inv_deliver s s2 who cb []) as (H1 & H2 & H3 & H4);
        try done.
      - by rewrite app_nil_r.
      - rewrite Hp. cbn. lia.
      - split; [exact H1|]. split; [exact H2|]. split; [exact H4|].
        by right. }
    destruct who, cb; cbn in Hre; try done; cbn [run_callback].
    + (* popup of the main thread *)
      apply Hquiet; [apply quiet_make_popup | done | done].
    + (* a count *)
      apply Hquiet; [apply quiet_set_counter_from_thread | done
                    | by rewrite counter_set_counter_from_thread].
    + (* the print *)
      destruct (popup_print_and_reset s1) as [Hc (extra2 & Hl & Hf & Hn)].
      destruct (run_inv_deliver s (run _print_and_reset s1) (Worker t)
                  CbPrintAndReset extra2) as (H1 & H2 & H3 & H4); try done.
      * by rewrite counter_print_and_reset.
      * split; [exact H1|]. split; [exact H2|]. split; [exact H4|].
        by right.
    + (* the cleanup *)
      apply Hquiet; [apply quiet_auto_cleanup_ui | done
                    | by rewrite counter_auto_cleanup_ui].
    + (* a result of the presence monitor *)
      apply Hquiet; [apply quiet_set_device_status | done
                    | by rewrite counter_set_device_status].
  - split; [exact Inv|]. split; [done|]. split; [done|]. left.
    split; [|done]. apply lookup_ge_None in Hlook. lia.
Qed.

(** The presence monitor hands in a result. *)
Lemma run_inv_probe (c : bool) (s : state) :
  run_inv old m iv s0 s ->
  run_inv old m iv s0 (step py_float time_sleep (LProbe c) s) /\
  rank_of m (step py_float time_sleep (LProbe c) s) = rank_of m s /\
  probe_entries (step py_float time_sleep (LProbe c) s) = S (probe_entries s).
Proof.
  intros (pc & extra & Hth & Htrack & Hlog & Hent & Hwp & Hd & Hc & Hpop &
          Hrun & Hsched & Hstart).
  pose proof Hd as Hd'. rewrite Hlog, length_app in Hd'.
  cbn [step]. unfold run, after, modify. cbn.
  split; [|split; [done|]].
  - exists pc, (extra ++ [(Probe, CbSetDeviceStatus c)])%list. cbn.
    rewrite Hlog, <- app_assoc, worker_posts_app, Hwp, app_nil_r.
    rewrite take_snoc_le by lia.
    rewrite filter_app, filter_cons, filter_nil. cbn.
    case_decide; [done|]. rewrite app_nil_r.
    repeat split; try done; try lia; try (by apply Hstart).
    + apply Forall_app. split; [done|]. by repeat constructor.
    + rewrite !length_app. cbn. lia.
  - unfold probe_entries. cbn. rewrite probes_snoc. cbn. lia.
Qed.

Lemma rank_done (pc : wpc) :
  on_track m iv pc ->
  rank m pc <= 3 * m + 5 /\ (3 * m + 5 <= rank m pc -> pc = WDone).
Proof. destruct pc; cbn; intros H; split; try lia; try done. Qed.

Lemma exec_cons (l : label) (sched : list label) (s : state) :
  exec py_float time_sleep (l :: sched) s = exec py_float time_sleep sched (step py_float time_sleep l s).
Proof. reflexivity. Qed.

Lemma exec_app (sched1 sched2 : list label) (s : state) :
  exec py_float time_sleep (sched1 ++ sched2) s =
  exec py_float time_sleep sched2 (exec py_float time_sleep sched1 s).
Proof. apply fold_left_app. Qed.

Lemma probe_steps_cons (l : label) (sched : list label) :
  probe_steps (l :: sched) =
  ((if is_probe_step l then 1 else 0) + probe_steps sched)%nat.
Proof.
  unfold probe_steps. rewrite filter_cons.
  destruct (is_probe_step l); by case_decide.
Qed.

Lemma run_inv_exec (sched : list label) :
  Forall undisturbed sched ->
  forall s,
    run_inv old m iv s0 s ->
    run_inv old m iv s0 (exec py_float time_sleep sched s) /\
    Z.min (rank_of m s + Z.of_nat (worker_steps (length old) sched)) (3 * m + 5) <=
      rank_of m (exec py_float time_sleep sched s) /\
    probe_entries (exec py_float time_sleep sched s) =
      (probe_entries s + probe_steps sched)%nat.
Proof.
  induction 1 as [|l sched Hl Hs IH]; intros s Inv.
  - cbn. split; [exact Inv|]. unfold worker_steps, probe_steps. cbn. lia.
  - rewrite exec_cons, worker_steps_cons, probe_steps_cons.
    destruct l as [t| | |c]; cbn in Hl; try done;
      cbn [is_worker_step is_probe_step];
      [destruct (Nat.eqb_spec t (length old)) as [->|Hne]| |].
    + destruct (run_inv_worker s Inv) as [Inv' Hr].
      pose proof (probe_entries_worker (length old) s) as Hp.
      destruct (IH _ Inv') as (Inv'' & Hr'' & Hp''). split; [exact Inv''|].
      lia.
    + assert (step py_float time_sleep (LWorker t) s = s) as ->.
      { destruct Inv as (pc & extra & Hth & _).
        by apply (step_other_worker _ _ old pc). }
      destruct (IH _ Inv) as (Inv'' & Hr'' & Hp''). split; [exact Inv''|].
      lia.
    + destruct (run_inv_main s Inv) as (Inv' & Hr & Hp & _).
      destruct (IH _ Inv') as (Inv'' & Hr'' & Hp''). split; [exact Inv''|].
      lia.
    + destruct (run_inv_probe c s Inv) as (Inv' & Hr & Hp).
      destruct (IH _ Inv') as (Inv'' & Hr'' & Hp''). split; [exact Inv''|].
      lia.
Qed.

Lemma run_inv_start :
  threads s0 = (old ++ [WStart])%list -> auto_running s0 = true ->
  print_scheduled s0 = false -> auto_max_count s0 = m ->
  auto_interval s0 = iv -> after_done s0 = length (after_log s0) ->
  run_inv old m iv s0 s0.
Proof.
  intros Ht Hr Hp Hm Hiv Hd. exists WStart, [].
  rewrite app_nil_r, Hd, Nat.sub_diag. cbn.
  repeat split; try done; try lia.
Qed.

(** What a finished run has posted and delivered. *)
Lemma run_inv_quiescent (s : state) :
  run_inv old m iv s0 s -> quiescent s ->
  worker_posts (posted_since s0 s) =
    (counts m m ++ [CbPrintAndReset; CbAutoCleanupUi])%list /\
  delivered_since s0 s = snd <$> posted_since s0 s /\
  shown (delivered_since s0 s) = seqZ 1 m /\
  prints (delivered_since s0 s) = 1%nat /\
  counter s = 0.
Proof.
  intros (pc & extra & Hth & Htrack & Hlog & Hent & Hwp & Hd & Hc & _)
    [Hdone Hempty].
  rewrite Hth in Hdone. apply Forall_app in Hdone as [_ Hdone].
  apply Forall_cons_1 in Hdone as [-> _].
  cbn [expected] in Hwp.
  assert (posted_since s0 s = extra) as Hposted.
  { unfold posted_since. by rewrite Hlog, drop_app_length. }
  assert (take (after_done s - length (after_log s0)) extra = extra) as Htake.
  { apply take_ge. rewrite Hempty, Hlog, length_app. lia. }
  unfold delivered_since. rewrite Hposted, Htake.
  destruct (run_entries_project extra Hent) as (P1 & P2 & P3 & _).
  rewrite Htake, P3, Hwp in Hc.
  rewrite P1, P2, Hwp, shown_app, prints_app, shown_counts, prints_counts.
  repeat split; try done.
  - by rewrite app_nil_r.
  - rewrite Hc, counter_after_app. reflexivity.
Qed.

Lemma step_main_empty (s : state) :
  after_done s = length (after_log s) -> step py_float time_sleep LMain s = s.
Proof.
  intros H. cbn. rewrite (proj2 (lookup_ge_None _ _)); [done | lia].
Qed.

Lemma exec_main_empty (n : nat) (s : state) :
  after_done s = length (after_log s) ->
  exec py_float time_sleep (repeat LMain n) s = s.
Proof.
  intros H. induction n as [|n IH]; [done|].
  cbn [repeat]. rewrite exec_cons, step_main_empty by done. exact IH.
Qed.

(** Each turn of the main loop runs one more callback until the queue is
    empty. *)
Lemma drain (n : nat) :
  forall s,
    run_inv old m iv s0 s ->
    let s' := exec py_float time_sleep (repeat LMain n) s in
    run_inv old m iv s0 s' /\ rank_of m s' = rank_of m s /\
    probe_entries s' = probe_entries s /\
    (after_done s' = length (after_log s') \/
     (after_done s + n <= after_done s')%nat).
Proof.
  induction n as [|n IH]; intros s Inv; cbn zeta.
  - cbn. split; [exact Inv|]. split; [done|]. split; [done|]. right. lia.
  - cbn [repeat]. rewrite exec_cons.
    destruct (run_inv_main s Inv) as (Inv' & Hr & Hp & [[He Hs]|Hd]).
    + rewrite Hs, exec_main_empty by done.
      split; [exact Inv|]. split; [done|]. split; [done|]. by left.
    + destruct (IH _ Inv') as (Inv'' & Hr'' & Hp'' & Hd'').
      split; [exact Inv''|]. split; [congruence|]. split; [congruence|].
      destruct Hd'' as [H|H]; [by left | right; lia].
Qed.

(** A finished worker has filled the queue with its [m + 2] callbacks, at
    most one popup, and the results of the presence monitor. *)
Lemma run_inv_queue_bound (s : state) :
  run_inv old m iv s0 s -> 3 * m + 5 <= rank_of m s ->
  threads s = (old ++ [WDone])%list /\
  (length (after_log s) + probe_entries s0 <=
   length (after_log s0) + Z.to_nat m + 3 + probe_entries s)%nat.
Proof.
  intros (pc & extra & Hth & Htrack & Hlog & Hent & Hwp & Hd & Hc & Hpop & _)
    Hrank.
  unfold rank_of in Hrank. rewrite Hth, last_snoc in Hrank.
  destruct (rank_done pc Htrack) as [_ Hdone].
  rewrite (Hdone Hrank) in *. split; [done|].
  destruct (run_entries_project extra Hent) as (_ & P2 & _ & P4).
  cbn [expected] in Hwp.
  assert (prints (snd <$> take (after_done s - length (after_log s0)) extra)
          <= 1)%nat as Hp.
  { pose proof (take_drop (after_done s - length (after_log s0)) extra) as Htd.
    assert (prints (snd <$> extra) = 1%nat) as H1.
    { by rewrite P2, Hwp, prints_app, prints_counts. }
    rewrite <- Htd, fmap_app, prints_app in H1. lia. }
  unfold probe_entries.
  rewrite Hlog, filter_app, !length_app, P4, Hwp, length_app, length_counts.
  cbn. lia.
Qed.

Lemma run_completes (sched : list label) :
  run_inv old m iv s0 s0 ->
  Forall undisturbed sched ->
  (Z.to_nat (3 * m + 5) <= worker_steps (length old) sched)%nat ->
  quiescent
    (exec py_float time_sleep
       (sched ++ repeat LMain (Z.to_nat m + 3 + probe_steps sched)) s0).
Proof.
  intros Inv Hs Hn. rewrite exec_app.
  destruct (run_inv_exec sched Hs s0 Inv) as (Inv1 & Hr1 & Hp1).
  destruct (drain (Z.to_nat m + 3 + probe_steps sched) _ Inv1)
    as (Inv2 & Hr2 & Hp2 & Hd2).
  assert (rank_of m s0 >= 0) as H0.
  { destruct Inv as (pc & extra & Hth & Htrack & _). unfold rank_of.
    rewrite Hth, last_snoc. destruct pc; cbn in *; lia. }
  assert (3 * m + 5 <= rank_of m (exec py_float time_sleep sched s0)) as Hdone by lia.
  rewrite <- Hr2 in Hdone.
  destruct (run_inv_queue_bound _ Inv2 Hdone) as [Hth Hlen].
  split; [rewrite Hth; apply Forall_app; split;
          [exact old_done | by repeat constructor]|].
  destruct Hd2 as [H|H]; [exact H|].
  destruct Inv1 as (pc1 & extra1 & _ & _ & _ & _ & _ & Hd1 & _).
  destruct Inv2 as (pc2 & extra2 & _ & _ & _ & _ & _ & Hd2 & _).
  lia.
Qed.

End Run.

(** The same run with the main loop running each callback as soon as it
    is posted, and a connection that fails at the print: the error popup
    is posted and shown, the counter is reset all the same. *)
Example auto_run_interleaved :
  let s0 := run (_toggle_auto float_of_text)
              (set_ui auto_screen (boot_with_script [false])) in
  let sched :=
    (LWorker 0 :: concat (repeat [LWorker 0; LWorker 0; LMain; LWorker 0] 10)
     ++ repeat (LWorker 0) 4 ++ repeat LMain 3)%list in
  let s := exec float_of_text sleep_returns sched s0 in
  quiescent s /\ counter s = 0 /\ printer s = None /\
  title <$> popups s = ["Connection Error"] /\
  auto_counter_label (ui s) = Some "0" /\
  progress_label (ui s) = Some "Complete".
Proof. vm_compute. repeat split; try reflexivity; repeat constructor. Qed.

(** ** Stopping a run *)

#[export] Instance stopped_frame_preorder : PreOrder stopped_frame.
Proof.
  split.
  - intros s. split; [done|]. split; [done|]. exists [].
    by rewrite app_nil_r.
  - intros a b c (A1 & A2 & e1 & A3 & A4) (B1 & B2 & e2 & B3 & B4).
    split; [congruence|]. split; [congruence|].
    exists (e1 ++ e2)%list. rewrite B3, A3, app_assoc. split; [done|].
    by apply Forall_app.
Qed.

Lemma stopped_after (who : origin) (cb : callback) :
  not_by_worker (who, cb) -> keeps stopped_frame (after who cb).
Proof.
  intros Hw s. split; [done|]. split; [done|]. exists [(who, cb)].
  split; [done|]. by constructor.
Qed.

Ltac stopped_leaf :=
  intros ?; split; [|split; [|exists []; rewrite app_nil_r; split; [|done]]];
  unfold run, modify, _make_popup, acquire_nonblocking, release, pcall, call,
    Usb, open_for_write, json_dump, entry_get, btn_auto_configure,
    progress_label_configure, configure_manual_label, configure_auto_label,
    progress_bar_set, true_div, configure_progress_label, int16, int10, raise, ret;
  cbn; repeat (case_match; cbn); reflexivity.

Lemma stopped_run_callback (cb : callback) :
  keeps stopped_frame (run_callback cb).
Proof.
  destruct cb; cbn [run_callback];
    unfold _set_counter_from_thread, _print_and_reset, _safe_print_call,
      _auto_cleanup_ui, entries_configure, print_count, print_count_body, test_print, test_print_body,
      connect_printer, _set_device_status, _update_label, _get_vendor_id,
      _get_product_id, _get_interface;
    walk ltac:(first [apply stopped_after; exact I | stopped_leaf]).
Qed.

Lemma worker_posts_not_by_worker (l : list (origin * callback)) :
  Forall not_by_worker l -> worker_posts l = [].
Proof.
  induction 1 as [|[o cb] l Hx Hl IH]; [done|].
  destruct o; cbn in Hx; try done; exact IH.
Qed.

Section Stop.

Context (py_float : string -> option float)
  (time_sleep : float -> option exn) (old : list wpc) (s1 : state)
  (pc0 : wpc).
Hypothesis old_done : all_done old.





End Stop.



(** After that stop the worker still goes through its locked block: the
    print is posted by the worker, not by the stop, and the counts 2..10
    never are. *)
Example stopped_run_posts :
  let s' := run (_toggle_auto float_of_text) mid_run in
  snd <$> after_log s' = [CbSetCounter 1 10] /\
  snd <$> after_log (exec float_of_text sleep_returns (repeat (LWorker 0) 6) s') =
    [CbSetCounter 1 10; CbPrintAndReset; CbAutoCleanupUi].
Proof. vm_compute. split; reflexivity. Qed.

(** ** A restart while the stopped worker sleeps *)

(** C1. The run the user starts in [returned] (back on the auto screen
    after the stop, the stopped worker still asleep) meets the conditions
    of the claim: maximum 10, interval 1.0, not stopped, no print
    scheduled, nothing waiting in the queue.  Left alone until all has
    ended, the display callback receives the counts of both workers, not
    1..10, and after the one automatic print the counter ends at 10, not
    at 0: the worker of the stopped run found [auto_running] set again
    when it woke up and went on counting. *)
Theorem auto_run_after_a_stop :
  let s0 := restarted in
  let s := exec float_of_text sleep_returns two_workers s0 in
  is_start (LUser ClickAuto) returned = true /\
  (auto_running s0 = true /\ _stopped_by_user s0 = false /\
   print_scheduled s0 = false /\ auto_max_count s0 = 10 /\
   auto_interval s0 = 1%float /\ after_done s0 = length (after_log s0)) /\
  Forall undisturbed two_workers /\
  quiescent s /\ _stopped_by_user s = false /\
  shown (delivered_since s0 s) =
    [2; 1; 3; 2; 4; 3; 5; 4; 6; 5; 7; 6; 8; 7; 9; 8; 10; 9; 10] /\
  prints (delivered_since s0 s) = 1%nat /\
  counter s = 10.
Proof.
  cbn zeta. split; [reflexivity|].
  split; [vm_compute; by repeat split|].
  split; [by repeat constructor|].
  split; [vm_compute; split; [by repeat constructor | reflexivity]|].
  vm_compute. by repeat split.
Qed.

(** C2. The stop click in [before_stop] (run active, worker asleep after
    the count 1) sets [_stopped_by_user] and clears [auto_running].  The
    user goes to the manual screen and back and starts a run before the
    worker wakes up: the stopped worker does not leave its loop at the
    next test, it publishes the remaining counts 2..10. *)
Theorem stopped_worker_goes_on :
  let s' := step float_of_text sleep_returns (LUser ClickAuto) before_stop in
  let s := exec float_of_text sleep_returns
             (LUser (Rebuild manual_screen)
              :: LUser (Rebuild (shown_auto_screen 1 10 "1.0"))
              :: LUser ClickAuto :: two_workers) s' in
  (auto_running before_stop = true /\
   threads before_stop = [WSleep 1 10 1%float] /\
   shown (posts_of 0 (after_log before_stop)) = [1]) /\
  (s' = stopped /\ auto_running s' = false /\ _stopped_by_user s' = true /\
   after_log s' = after_log before_stop /\
   print_scheduled s' = print_scheduled before_stop) /\
  shown (posts_of 0 (posted_since s' s)) = [2; 3; 4; 5; 6; 7; 8; 9; 10].
Proof.
  cbn zeta. split; [vm_compute; by repeat split|].
  split; [vm_compute; by repeat split|].
  vm_compute. reflexivity.
Qed.

(** ** At most one automatic print in a run *)

#[export] Instance same_flag_preorder : PreOrder same_flag.
Proof.
  split.
  - by intros s.
  - intros a b c H1 H2. unfold same_flag in *. congruence.
Qed.

Ltac flag_leaf :=
  intros ?;
  unfold same_flag, run, after, modify, _make_popup, acquire_nonblocking,
    release, pcall, call, Usb, open_for_write, json_dump, entry_get,
    btn_auto_configure, progress_label_configure, configure_manual_label,
    configure_auto_label, progress_bar_set, true_div,
    configure_progress_label, int16, int10, raise, ret, get, lift;
  cbn; repeat (case_match; cbn); reflexivity.

Lemma flag_run_callback (cb : callback) : keeps same_flag (run_callback cb).
Proof.
  destruct cb; cbn [run_callback];
    unfold _set_counter_from_thread, _print_and_reset, _safe_print_call,
      _auto_cleanup_ui, entries_configure, print_count, print_count_body,
      test_print, test_print_body, connect_printer, _set_device_status,
      _update_label, _get_vendor_id, _get_product_id, _get_interface;
    walk flag_leaf.
Qed.

Lemma flag_handle_action (py_float : string -> option float) (a : action)
  (s : state) :
  is_start (LUser a) s = false ->
  same_flag s (run (handle_action py_float a) s).
Proof.
  intros Hn.
  assert (a <> ClickAuto -> same_flag s (run (handle_action py_float a) s))
    as Hother.
  { intros Ha. clear Hn. revert s.
    change (keeps same_flag (handle_action py_float a)).
    destruct a; try done;
      cbn [handle_action _safe_print_call _safe_test_print_call];
      unfold _manual_add, _reset_counter, entries_configure,
        save_settings, check_hex, check_int, config_set, save_config,
        print_count, print_count_body, test_print, test_print_body,
        connect_printer, _set_device_status, _update_label, _get_vendor_id,
        _get_product_id, _get_interface;
      walk flag_leaf. }
  destruct a; try (apply Hother; discriminate).
  cbn [is_start] in Hn. unfold same_flag, run, handle_action, bind, get.
  destruct (btn_auto (ui s)) as [[txt [|]]|] eqn:Hb; cbn in *;
    try reflexivity.
  rewrite andb_true_r in Hn. apply negb_false_iff in Hn.
  unfold _toggle_auto, bind, get, modify, btn_auto_configure.
  rewrite Hn. cbn. rewrite Hb. reflexivity.
Qed.

Lemma auto_print_count_app (l1 l2 : list (origin * callback)) :
  auto_print_count (l1 ++ l2) = (auto_print_count l1 + auto_print_count l2)%nat.
Proof. unfold auto_print_count. by rewrite filter_app, length_app. Qed.

Lemma auto_print_count_not_by_worker (l : list (origin * callback)) :
  Forall not_by_worker l -> auto_print_count l = 0%nat.
Proof.
  induction 1 as [|[o cb] l Hx Hl IH]; [done|].
  unfold auto_print_count in *. rewrite filter_cons.
  destruct o; cbn in Hx; try done; cbn; by case_decide.
Qed.

Lemma flag_step_refl (s : state) : flag_step s s.
Proof. exists []. rewrite app_nil_r. split; [done|]. by left. Qed.

Lemma flag_step_trans (a b c : state) :
  flag_step a b -> flag_step b c -> flag_step a c.
Proof.
  intros (e1 & L1 & H1) (e2 & L2 & H2). exists (e1 ++ e2)%list.
  rewrite L2, L1, app_assoc, auto_print_count_app. split; [done|].
  destruct H1 as [[F1 C1]|(F1 & F1' & C1)], H2 as [[F2 C2]|(F2 & F2' & C2)].
  - left. split; [congruence | lia].
  - right. split; [congruence|]. split; [done | lia].
  - right. split; [done|]. split; [congruence | lia].
  - congruence.
Qed.

Lemma flag_step_frame (s s' : state) :
  same_flag s s' -> grows s s' -> flag_step s s'.
Proof.
  intros Hf [(extra & Hl & Hw) _]. exists extra. split; [exact Hl|].
  left. split; [exact Hf|]. by apply auto_print_count_not_by_worker.
Qed.

Lemma flag_step_step (py_float : string -> option float)
  (time_sleep : float -> option exn) (l : label) (s : state) :
  is_start l s = false -> flag_step s (step py_float time_sleep l s).
Proof.
  intros Hn. destruct l as [t| |a|c]; cbn [step].
  - destruct (threads s !! t) as [pc|]; [|apply flag_step_refl].
    destruct pc; cbn [worker_step];
      try match goal with
          | |- context [time_sleep ?iv] => destruct (time_sleep iv)
          | |- context [if ?c then _ else _] => destruct c eqn:E
          end;
      cbn;
      first
        [ apply flag_step_refl
        | (* the print is posted and the flag set *)
          eexists [_]; split; [reflexivity|]; right;
          apply negb_true_iff in E; by repeat split
        | (* another callback is posted, or nothing *)
          eexists [_]; split; [reflexivity|]; left; by split
        | exists []; rewrite app_nil_r; split; [reflexivity|]; left;
          by split ].
  - destruct (after_log s !! after_done s) as [[who cb]|];
      [|apply flag_step_refl].
    apply (flag_step_trans _ (set_after_done (S (after_done s)) s)).
    + exists []. rewrite app_nil_r. split; [done|]. by left.
    + apply flag_step_frame;
        [apply flag_run_callback | apply grows_run_callback].
  - apply flag_step_frame;
      [by apply flag_handle_action | apply grows_handle_action].
  - eexists [_]. split; [reflexivity|]. left. by split.
Qed.

Lemma flag_step_exec (py_float : string -> option float)
  (time_sleep : float -> option exn) (sched : list label) :
  forall s,
    no_start py_float time_sleep sched s ->
    flag_step s (exec py_float time_sleep sched s).
Proof.
  induction sched as [|l sched IH]; intros s Hn; [apply flag_step_refl|].
  destruct Hn as [Hl Hn]. rewrite exec_cons.
  eapply flag_step_trans; [by apply flag_step_step | by apply IH].
Qed.

Lemma no_start_app (py_float : string -> option float)
  (time_sleep : float -> option exn) (pre post : list label) :
  forall s,
    no_start py_float time_sleep (pre ++ post) s ->
    no_start py_float time_sleep post (exec py_float time_sleep pre s).
Proof.
  induction pre as [|l pre IH]; intros s Hn; [exact Hn|].
  destruct Hn as [_ Hn]. rewrite exec_cons. by apply IH.
Qed.

Lemma toggle_auto_clears_flag (py_float : string -> option float)
  (s : state) :
  auto_running s = false ->
  print_scheduled (run (_toggle_auto py_float) s) = false /\
  after_log (run (_toggle_auto py_float) s) = after_log s.
Proof.
  intros Hrun.
  unfold run, _toggle_auto, bind, get. rewrite Hrun. cbn [negb].
  unfold try_except_on, bind, entry_get, int10, float_of, modify, ret, raise,
    entries_configure, _update_label, configure_manual_label,
    configure_auto_label, btn_auto_configure, progress_label_configure,
    new_thread, get, bind, modify.
  destruct (max_count_entry (ui s)) as [me|]; cbn;
    [destruct (py_int 10 (text me)) as [n|]; cbn|];
    (destruct (interval_entry (ui s)) as [ie|]; cbn;
     [destruct (py_float (text ie)) as [f|]; cbn|]);
    destruct (manual_counter_label (ui s)); cbn;
    destruct (auto_counter_label (ui s)); cbn;
    destruct (btn_auto (ui s)); cbn;
    try (destruct (progress_label (ui s)); cbn).
  all: by split.
Qed.

(** C4. Within one auto run, from the click that starts it until the
    next start, whatever the user does otherwise (stop clicks racing with
    the end of the loop included), however many worker threads are alive
    and however they are scheduled: the number of automatic prints posted
    since the start is 1 when [print_scheduled] is set and 0 when it is
    clear, so at most one; and from a state in which the flag is set, no
    further automatic print is posted. *)
Theorem at_most_one_auto_print (py_float : string -> option float)
  (time_sleep : float -> option exn) (s0 : state) (sched : list label) :
  is_start (LUser ClickAuto) s0 = true ->
  let s1 := step py_float time_sleep (LUser ClickAuto) s0 in
  no_start py_float time_sleep sched s1 ->
  let s := exec py_float time_sleep sched s1 in
  print_scheduled s1 = false /\
  auto_print_count (posted_since s1 s) =
    (if print_scheduled s then 1 else 0)%nat /\
  (auto_print_count (posted_since s1 s) <= 1)%nat /\
  (forall pre post,
      sched = (pre ++ post)%list ->
      print_scheduled (exec py_float time_sleep pre s1) = true ->
      print_scheduled s = true /\
      auto_print_count
        (posted_since (exec py_float time_sleep pre s1) s) = 0%nat).
Proof.
  intros Hstart s1 Hn s.
  assert (print_scheduled s1 = false) as Hf1.
  { subst s1. cbn [is_start] in Hstart.
    apply andb_true_iff in Hstart as [Hr Hb]. apply negb_true_iff in Hr.
    cbn [step]. unfold run, handle_action, bind, get.
    destruct (btn_auto (ui s0)) as [[txt en]|]; [|discriminate].
    cbn in Hb. subst en.
    apply (toggle_auto_clears_flag py_float s0 Hr). }
  split; [exact Hf1|].
  assert (forall a b, flag_step a b ->
            auto_print_count (posted_since a b) =
              (if print_scheduled a then 0
               else if print_scheduled b then 1 else 0)%nat /\
            (print_scheduled a = true -> print_scheduled b = true))
    as Hcount.
  { intros a b (extra & Hl & H). unfold posted_since.
    rewrite Hl, drop_app_length.
    destruct H as [[F C]|(F & F' & C)].
    - rewrite C, F. split; [by destruct (print_scheduled a)|congruence].
    - rewrite C, F, F'. split; [done|congruence]. }
  destruct (Hcount s1 s (flag_step_exec py_float time_sleep sched s1 Hn))
    as [Hc _].
  rewrite Hf1 in Hc.
  split; [exact Hc|]. split; [rewrite Hc; destruct (print_scheduled s); lia|].
  intros pre post -> Hset.
  pose proof (no_start_app py_float time_sleep pre post s1 Hn) as Hn'.
  subst s. rewrite exec_app.
  destruct (Hcount _ _ (flag_step_exec py_float time_sleep post _ Hn'))
    as [Hc' Hs']. rewrite Hset in Hc'. split; [by apply Hs' | exact Hc'].
Qed.

(** The second start of [restarted], with the worker of the stopped run
    still alive: both workers come to the locked block, one print is
    posted. *)
Lemma at_most_one_auto_print_witness :
  let s := exec float_of_text sleep_returns two_workers restarted in
  threads restarted = [WSleep 1 10 1%float; WStart] /\
  threads s = [WDone; WDone] /\
  auto_print_count (posted_since restarted s) = 1%nat.
Proof.
  cbn zeta.
  split; [vm_compute; reflexivity|]. split; [vm_compute; reflexivity|].
  assert (no_start float_of_text sleep_returns two_workers restarted) as Hn
    by (vm_compute; tauto).
  destruct (at_most_one_auto_print float_of_text sleep_returns returned
              two_workers eq_refl Hn) as (_ & Hc & _).
  fold restarted in Hc. rewrite Hc. vm_compute. reflexivity.
Defined.

(** The stop click of that schedule races with the last test of the loop:
    the worker still posts its one print, and the main loop runs it. *)
Example stop_racing_with_completion :
  let sched :=
    [LUser (Rebuild (auto_screen_with "2" "1.0")); LUser ClickAuto;
     LWorker 0; LWorker 0; LWorker 0; LWorker 0; LWorker 0; LWorker 0;
     LWorker 0; LUser ClickAuto; LWorker 0; LMain; LWorker 0; LWorker 0;
     LWorker 0; LMain; LMain; LMain] in
  let s := exec float_of_text sleep_returns sched boot in
  snd <$> after_log s =
    [CbSetCounter 1 2; CbSetCounter 2 2; CbPrintAndReset; CbAutoCleanupUi] /\
  threads s = [WDone] /\ after_done s = 4%nat /\ counter s = 0 /\
  _stopped_by_user s = true.
Proof. vm_compute. repeat split; reflexivity. Qed.

(** ** The connection handle *)

#[export] Instance same_handles_preorder : PreOrder same_handles.
Proof.
  split.
  - intros s. by repeat split.
  - intros a b c (A1 & A2 & A3 & A4) (B1 & B2 & B3 & B4).
    repeat split; congruence.
Qed.

#[export] Instance keeps_handles_preorder : PreOrder keeps_handles.
Proof. split; unfold keeps_handles; [by intros s | intros a b c; tauto]. Qed.

Lemma same_handles_keeps (s s' : state) :
  same_handles s s' -> keeps_handles s s'.
Proof.
  intros (H1 & H2 & H3 & H4) [Hl Hf]. unfold handles_ok, live.
  by rewrite H1, H2, H3, H4.
Qed.

Lemma same_handles_call (h : handle) (c : pcmd) :
  c <> PClose -> keeps same_handles (call h c).
Proof.
  intros Hc s. unfold run, call. destruct (next_outcome (usb s)) as [ok rest].
  unfold same_handles, opened, closed. cbn. rewrite !omap_app. cbn.
  repeat split; try done; rewrite ?app_nil_r; try done.
  destruct c; try done; by rewrite app_nil_r.
Qed.

Lemma same_handles_pcall (p : option handle) (c : pcmd) :
  c <> PClose -> keeps same_handles (pcall p c).
Proof.
  intros Hc. destruct p as [h|]; [by apply same_handles_call|].
  intros s. reflexivity.
Qed.

Ltac handles_leaf :=
  first
    [ apply same_handles_pcall; discriminate
    | intros ?; repeat split;
      unfold run, modify, after, _make_popup, acquire_nonblocking, release,
        open_for_write, json_dump, entry_get, btn_auto_configure,
        progress_label_configure, configure_manual_label,
        configure_auto_label, progress_bar_set, true_div, configure_progress_label,
        new_thread, int16, int10, float_of, raise, ret;
      cbn; repeat (case_match; cbn); reflexivity ].

Lemma same_handles_get_vendor_id : keeps same_handles _get_vendor_id.
Proof. unfold _get_vendor_id. walk handles_leaf. Qed.

Lemma same_handles_get_product_id : keeps same_handles _get_product_id.
Proof. unfold _get_product_id. walk handles_leaf. Qed.

Lemma same_handles_update_label : keeps same_handles _update_label.
Proof. unfold _update_label. walk handles_leaf. Qed.

Lemma same_handles_save_config (cfg : pyval) :
  keeps same_handles (save_config cfg).
Proof. unfold save_config. walk handles_leaf. Qed.

Lemma opened_snoc (log : list usb_event) (ev : usb_event) :
  opened (log ++ [ev]) =
  (opened log ++ match ev with UsbOpen h _ _ _ => [h] | _ => [] end)%list.
Proof. unfold opened. rewrite omap_app. by destruct ev. Qed.

Lemma closed_snoc (log : list usb_event) (ev : usb_event) :
  closed (log ++ [ev]) =
  (closed log ++ match ev with UsbCall h PClose _ => [h] | _ => [] end)%list.
Proof.
  unfold closed. rewrite omap_app. destruct ev as [| |h c ok]; try done.
  by destruct c.
Qed.

Lemma live_open (log : list usb_event) (h : handle) (vid pid iface : pyval) :
  h ∉ closed log ->
  live (log ++ [UsbOpen h vid pid iface]) = (live log ++ [h])%list.
Proof.
  intros Hh. unfold live. rewrite opened_snoc, closed_snoc, app_nil_r.
  rewrite filter_app, filter_cons, filter_nil. by case_decide.
Qed.

Lemma live_open_failed (log : list usb_event) (vid pid iface : pyval) :
  live (log ++ [UsbOpenFailed vid pid iface]) = live log.
Proof. unfold live. by rewrite opened_snoc, closed_snoc, !app_nil_r. Qed.

Lemma live_close (log : list usb_event) (h : handle) (ok : bool) :
  live log = [h] -> live (log ++ [UsbCall h PClose ok]) = [].
Proof.
  unfold live. intros Hl. rewrite opened_snoc, closed_snoc, app_nil_r.
  assert (filter (fun x => x ∉ (closed log ++ [h])%list) (opened log) =
          filter (fun x => x <> h) (filter (fun x => x ∉ closed log) (opened log)))
    as ->.
  { rewrite list_filter_filter. apply list_filter_iff. intros x.
    rewrite elem_of_app, list_elem_of_singleton. tauto. }
  rewrite Hl, filter_cons, filter_nil. by case_decide.
Qed.

(** [close()] on the handle the application holds, whatever its outcome,
    and then dropping it. *)
Lemma close_and_drop (h : handle) (s : state) :
  printer s = Some h -> handles_ok s ->
  let s' := run (try_except (call h PClose) (fun _ => ret tt) ;;
                 modify (set_printer None)) s in
  handles_ok s' /\ printer s' = None /\ config s' = config s /\
  device_connected s' = device_connected s /\
  exists ok, usb_log (usb s') = (usb_log (usb s) ++ [UsbCall h PClose ok])%list.
Proof.
  intros Hp [Hl Hf]. rewrite Hp in Hl. cbn in Hl.
  apply Forall_app in Hf as [Ho Hc].
  assert (h < next_handle (usb s))%nat as Hlt.
  { eapply Forall_forall in Ho; [exact Ho|].
    assert (h ∈ live (usb_log (usb s))) as Hin by (rewrite Hl; by left).
    unfold live in Hin. by apply list_elem_of_filter in Hin as [_ Hin]. }
  assert (forall ok,
             Forall (fun x => (x < next_handle (usb s))%nat)
               (opened (usb_log (usb s) ++ [UsbCall h PClose ok]) ++
                closed (usb_log (usb s) ++ [UsbCall h PClose ok]))) as Hf'.
  { intros ok. rewrite opened_snoc, closed_snoc, app_nil_r.
    apply Forall_app. split; [done|]. apply Forall_app. split; [done|].
    constructor; [exact Hlt | constructor]. }
  unfold run, bind, try_except, try_except_on, call, modify, ret.
  destruct (next_outcome (usb s)) as [[|] rest]; cbn;
    (split; [split; cbn; [by apply live_close | apply Hf']|]);
    (split; [done|split; [done|split; [done|by eexists]]]).
Qed.

Lemma keeps_handles_set_device_status (c : bool) :
  keeps keeps_handles (_set_device_status c).
Proof.
  intros s Hok. unfold run, _set_device_status, bind, modify, get. cbn.
  destruct c; cbn; [exact Hok|].
  destruct (printer s) as [h|] eqn:Hp; cbn; [|exact Hok].
  apply (close_and_drop h
           (set_status_label "Disconnected"
              (set_status_dot color_accent (set_device_connected false s)))
           Hp Hok).
Qed.

(** The accessors do not change the state. *)
Lemma get_vendor_id_pure (s : state) :
  exists v, _get_vendor_id s = (Ok v, s).
Proof.
  unfold _get_vendor_id, try_except, try_except_on, bind, get, lift, int16,
    ret, raise.
  destruct (py_get (config s) "vendor_id" (PyStr "0x0fe6")) as [v|e]; cbn;
    [|eauto].
  destruct v; cbn; eauto. destruct (py_int 16 s0); cbn; eauto.
Qed.

Lemma get_product_id_pure (s : state) :
  exists v, _get_product_id s = (Ok v, s).
Proof.
  unfold _get_product_id, try_except, try_except_on, bind, get, lift, int16,
    ret, raise.
  destruct (py_get (config s) "product_id" (PyStr "0x811e")) as [v|e]; cbn;
    [|eauto].
  destruct v; cbn; eauto. destruct (py_int 16 s0); cbn; eauto.
Qed.

(** What [connect_printer] does when no handle is held: a new handle, a
    failed attempt, or, when the configuration is not a dict, no attempt
    at all. *)
Lemma connect_printer_none (s : state) :
  printer s = None ->
  let n := next_handle (usb s) in
  let s' := run connect_printer s in
  config s' = config s /\
  ((fst (connect_printer s) = Ok true /\ printer s' = Some n /\
    next_handle (usb s') = S n /\
    exists vid pid iface,
      usb_log (usb s') = (usb_log (usb s) ++ [UsbOpen n vid pid iface])%list) \/
   (fst (connect_printer s) = Ok false /\ printer s' = None /\
    next_handle (usb s') = n /\
    exists vid pid iface,
      usb_log (usb s') = (usb_log (usb s) ++ [UsbOpenFailed vid pid iface])%list) \/
   (fst (connect_printer s) = Ok false /\ printer s' = None /\
    usb s' = usb s /\ forall m, config s <> PyDict m)).
Proof.
  intros Hp. cbn zeta.
  destruct (get_vendor_id_pure s) as [vid Hv].
  destruct (get_product_id_pure s) as [pid Hpid].
  unfold run, connect_printer, bind, get. rewrite Hp.
  unfold try_except, try_except_on, bind. rewrite Hv, Hpid.
  unfold _get_interface, bind, get, lift.
  destruct (py_get (config s) "interface" (PyInt 0)) as [iface|e] eqn:Hi; cbn.
  - unfold Usb. destruct (next_outcome (usb s)) as [[|] rest]; cbn.
    + split; [done|]. left. repeat split; try done. by eexists _, _, _.
    + split; [done|]. right; left. repeat split; try done.
      by eexists _, _, _.
  - split; [done|]. right; right. repeat split; try done.
    intros m Hm. rewrite Hm in Hi. discriminate.
Qed.

Lemma keeps_handles_connect_printer : keeps keeps_handles connect_printer.
Proof.
  intros s Hok. destruct (printer s) as [h|] eqn:Hp.
  - unfold run, connect_printer, bind, get. by rewrite Hp.
  - destruct (connect_printer_none s Hp) as [_ Hc]. cbn zeta in Hc.
    destruct Hok as [Hl Hf]. rewrite Hp in Hl. cbn in Hl.
    apply Forall_app in Hf as [Ho Hcl].
    destruct Hc as [(_ & P1 & P2 & v & p & i & P3)
                   |[(_ & P1 & P2 & v & p & i & P3)|(_ & P1 & P2 & _)]];
      unfold handles_ok; rewrite P1, ?P2, ?P3.
    + rewrite live_open, Hl, opened_snoc, closed_snoc, app_nil_r.
      * split; [done|]. apply Forall_app. split.
        -- apply Forall_app. split; [|by repeat constructor].
           eapply Forall_impl; [exact Ho|]. cbn. lia.
        -- eapply Forall_impl; [exact Hcl|]. cbn. lia.
      * intros Hin. eapply Forall_forall in Hcl; [|exact Hin]. lia.
    + rewrite live_open_failed, opened_snoc, closed_snoc, !app_nil_r.
      split; [done|]. by apply Forall_app.
    + split; [done|]. by apply Forall_app.
Qed.

(** The block [if self.printer is not None: try: self.printer.close()
    except: pass; self.printer = None] followed by more statements. *)
Lemma keeps_handles_close_block {B} (rest : M B) :
  keeps keeps_handles rest ->
  keeps keeps_handles
    (p <- get printer ;;
     match p with
     | Some h =>
         try_except (call h PClose) (fun _ => ret tt) ;;
         modify (set_printer None)
     | None => ret tt
     end ;;
     rest).
Proof.
  intros Hrest s Hok. unfold run at 1, bind at 1, get.
  destruct (printer s) as [h|] eqn:Hp.
  - pose proof (close_and_drop h s Hp Hok) as [Hok' _]. cbn zeta in Hok'.
    change (handles_ok
              (run (bind (try_except (call h PClose) (fun _ => ret tt) ;;
                          modify (set_printer None)) (fun _ => rest)) s)).
    unfold run at 1, bind at 1. unfold run in Hok'.
    destruct ((try_except (call h PClose) (fun _ => ret tt) ;;
               modify (set_printer None)) s) as [[u|e] s1]; cbn in *;
      [by apply Hrest | exact Hok'].
  - change (handles_ok (run (bind (ret tt) (fun _ => rest)) s)).
    by apply Hrest.
Qed.

Lemma keeps_same_handles {A} (m : M A) :
  keeps same_handles m -> keeps keeps_handles m.
Proof. intros H s. apply same_handles_keeps, H. Qed.

(** Leaves for [keeps_handles]: statements that leave the handles
    alone; the composite statements that open or drop a handle are
    recognised before the walk enters them. *)
Ltac kh_leaf :=
  idtac; apply keeps_same_handles;
  match goal with
  | |- keeps _ (pcall _ _) => apply same_handles_pcall; discriminate
  | |- keeps _ _update_label => apply same_handles_update_label
  | |- keeps _ (save_config _) => apply same_handles_save_config
  | _ => handles_leaf
  end.

Ltac kh_pre :=
  idtac; match goal with
  | |- keeps _ connect_printer => apply keeps_handles_connect_printer
  | |- keeps _ (_set_device_status _) => apply keeps_handles_set_device_status
  | |- keeps _ (bind (get printer) _) => apply keeps_handles_close_block
  end.

Ltac walk_with pre leaf :=
  repeat first
    [ pre
    | apply keeps_ret; apply _
    | apply keeps_raise; apply _
    | apply keeps_get; apply _
    | apply keeps_lift; apply _
    | apply keeps_bind; [apply _ | | intros ?]
    | apply keeps_try_except; [apply _ | | intros ?]
    | apply keeps_try_except_on; [apply _ | | intros ?]
    | apply keeps_try_finally; [apply _ | | ]
    | match goal with
      | |- keeps _ (match ?x with _ => _ end) => destruct x
      end
    | leaf ].

Lemma keeps_handles_print_count : keeps keeps_handles print_count.
Proof. unfold print_count, print_count_body. walk_with kh_pre kh_leaf. Qed.

Lemma keeps_handles_test_print : keeps keeps_handles test_print.
Proof. unfold test_print, test_print_body. walk_with kh_pre kh_leaf. Qed.

Ltac kh_pre_jobs :=
  idtac; match goal with
  | |- keeps _ print_count => apply keeps_handles_print_count
  | |- keeps _ test_print => apply keeps_handles_test_print
  | _ => kh_pre
  end.

Lemma keeps_handles_run_callback (cb : callback) :
  keeps keeps_handles (run_callback cb).
Proof.
  destruct cb; cbn [run_callback];
    unfold _set_counter_from_thread, _print_and_reset, _safe_print_call,
      _auto_cleanup_ui, entries_configure;
    walk_with kh_pre_jobs kh_leaf.
Qed.

Lemma keeps_handles_handle_action (py_float : string -> option float)
  (a : action) :
  keeps keeps_handles (handle_action py_float a).
Proof.
  destruct a; cbn [handle_action _safe_print_call _safe_test_print_call];
    unfold _manual_add, _reset_counter, _toggle_auto, entries_configure,
      save_settings, check_hex, check_int, config_set;
    walk_with kh_pre_jobs kh_leaf.
Qed.

Lemma handles_ok_worker (time_sleep : float -> option exn) (t : nat)
  (pc : wpc) (s : state) :
  handles_ok s ->
  handles_ok (set_threads (<[t := fst (worker_step time_sleep t pc s)]>
                             (threads (snd (worker_step time_sleep t pc s))))
                (snd (worker_step time_sleep t pc s))).
Proof.
  intros Hok. destruct pc; cbn; repeat (case_match; cbn); exact Hok.
Qed.

Lemma handles_ok_step (py_float : string -> option float)
  (time_sleep : float -> option exn) (l : label)
  (s : state) :
  handles_ok s -> handles_ok (step py_float time_sleep l s).
Proof.
  intros Hok. destruct l as [t| |a|c]; cbn [step].
  - destruct (threads s !! t) as [pc|]; [|exact Hok].
    pose proof (handles_ok_worker time_sleep t pc s Hok) as H.
    by destruct (worker_step time_sleep t pc s).
  - destruct (after_log s !! after_done s) as [[who cb]|]; [|exact Hok].
    by apply keeps_handles_run_callback.
  - by apply keeps_handles_handle_action.
  - exact Hok.
Qed.

Lemma handles_ok_exec (py_float : string -> option float)
  (time_sleep : float -> option exn)
  (sched : list label) :
  forall s, handles_ok s -> handles_ok (exec py_float time_sleep sched s).
Proof.
  induction sched as [|l sched IH]; intros s Hok; [exact Hok|].
  rewrite exec_cons. apply IH. by apply handles_ok_step.
Qed.

Lemma handles_ok_initial (s : state) :
  initial s -> handles_ok s.
Proof.
  intros (_ & Hp & _ & _ & _ & _ & _ & _ & _ & Hu).
  unfold handles_ok. rewrite Hp, Hu. split; [done | constructor].
Qed.

(** ** The print after a disconnect *)

#[export] Instance calls_on_preorder (p : option handle) :
  PreOrder (calls_on p).
Proof.
  split.
  - intros s. repeat split; try done. exists []. by rewrite app_nil_r.
  - intros a b c (A1 & A2 & A3 & e1 & A4 & A5) (B1 & B2 & B3 & e2 & B4 & B5).
    repeat split; try congruence.
    exists (e1 ++ e2)%list. rewrite B4, A4, app_assoc. split; [done|].
    by apply Forall_app.
Qed.

#[export] Instance uses_printer_preorder : PreOrder uses_printer.
Proof.
  split.
  - intros s. unfold uses_printer. reflexivity.
  - intros a b c Hab Hbc. unfold uses_printer in *.
    etrans; [exact Hab|]. destruct Hab as (Hp & _). by rewrite <- Hp.
Qed.

Lemma calls_on_same (p : option handle) (s s' : state) :
  printer s' = printer s -> config s' = config s -> usb s' = usb s ->
  calls_on p s s'.
Proof.
  intros H1 H2 H3. repeat split; try done; rewrite ?H3; try done.
  exists []. by rewrite app_nil_r.
Qed.

Lemma calls_on_pcall (p : option handle) (c : pcmd) :
  c <> PClose -> keeps (calls_on p) (pcall p c).
Proof.
  intros Hc s. destruct p as [h|]; [|reflexivity].
  unfold run, pcall, call. destruct (next_outcome (usb s)) as [ok rest].
  cbn. repeat split; try done. eexists [_]. split; [reflexivity|].
  by repeat constructor.
Qed.

Ltac calls_leaf :=
  first
    [ apply calls_on_pcall; discriminate
    | intros ?; apply calls_on_same;
      unfold run, modify, _make_popup, release, raise, ret;
      cbn; repeat (case_match; cbn); reflexivity ].

Lemma uses_printer_bind_get {B} (k : option handle -> M B) :
  (forall p, keeps (calls_on p) (k p)) ->
  keeps uses_printer (bind (get printer) k).
Proof. intros Hk s. apply (Hk (printer s) s). Qed.

Lemma uses_printer_leaf {A} (m : M A) :
  (forall p, keeps (calls_on p) m) -> keeps uses_printer m.
Proof. intros H s. apply H. Qed.

Lemma reconnects_then_uses (a b c : state) :
  reconnects a b -> uses_printer b c -> reconnects a c.
Proof.
  intros Hab (U1 & U2 & U3 & extra & U4 & U5) Hp Hcfg.
  destruct (Hab Hp Hcfg) as [(v & p & i & Hl & Hn)
                            |(v & p & i & rest & Hl & Hf & Hn)].
  - left. exists v, p, i. rewrite U1, U4, Hl. split; [|done].
    rewrite Hn in U5. destruct extra as [|ev extra];
      [by rewrite app_nil_r|].
    apply Forall_cons_1 in U5 as [Hev _]. by destruct ev as [| |? ? ?]; cbn in Hev; try done; destruct Hev.
  - right. exists v, p, i, (rest ++ extra)%list. rewrite U1, U4, Hl.
    rewrite <- app_assoc. cbn. split; [done|]. split; [|done].
    apply Forall_app. split; [done|]. by rewrite Hn in U5.
Qed.

Lemma reconnects_connect_printer : keeps reconnects connect_printer.
Proof.
  intros s Hp [m Hm].
  destruct (connect_printer_none s Hp) as [_ Hc]. cbn zeta in *.
  destruct Hc as [(_ & P1 & P2 & v & p & i & P3)
                 |[(_ & P1 & P2 & v & p & i & P3)|(_ & _ & _ & Hnot)]].
  - right. exists v, p, i, []. by repeat split.
  - left. exists v, p, i. by split.
  - by destruct (Hnot m).
Qed.

(** The part of a print job under the lock, from a state without
    handle. *)
Lemma reconnects_print_job (body : bool -> M unit) (h : exn -> M unit) :
  (forall b, keeps uses_printer (body b)) ->
  (forall e, keeps uses_printer (h e)) ->
  keeps reconnects
    (try_finally
       (try_except (connected <- connect_printer ;; body connected) h)
       (try_except release (fun _ => ret tt))).
Proof.
  intros Hb Hh.
  apply (keeps_try_finally_comp reconnects uses_printer reconnects
           reconnects_then_uses).
  - apply (keeps_try_except_comp reconnects uses_printer reconnects
             (fun _ _ H => H) reconnects_then_uses); [|exact Hh].
    apply (keeps_bind_comp reconnects uses_printer reconnects
             (fun _ _ H => H) reconnects_then_uses);
      [apply reconnects_connect_printer | exact Hb].
  - apply uses_printer_leaf. intros p. walk calls_leaf.
Qed.

Lemma reconnects_print_count (s : state) :
  print_lock s = false ->
  reconnects s (run print_count s).
Proof.
  intros Hl.
  unfold run, print_count, print_count_body. unfold bind at 1. unfold acquire_nonblocking.
  rewrite Hl. cbn [negb].
  match goal with
  | |- reconnects s
         (snd (try_finally (try_except (bind connect_printer ?b) ?h) ?r _)) =>
      assert (keeps reconnects
                (try_finally (try_except (bind connect_printer b) h) r))
        as Hjob
  end.
  { apply reconnects_print_job.
    - intros [|]; cbn [negb].
      + apply uses_printer_bind_get. intros p. walk calls_leaf.
      + apply uses_printer_leaf. intros p. walk calls_leaf.
    - intros e. apply uses_printer_leaf. intros p. walk calls_leaf. }
  exact (Hjob (set_print_lock true s)).
Qed.

Lemma live_option_list (s : state) :
  handles_ok s -> (length (live (usb_log (usb s))) <= 1)%nat.
Proof. intros [Hl _]. rewrite Hl. destruct (printer s); cbn; lia. Qed.

(** C9. In every state the application reaches from its start, the
    connection handles that exist (made and not closed) are exactly the one
    held in [self.printer], so there is at most one.  When the presence
    monitor reports "disconnected" while a handle [h] is held, [close()] is
    called on [h], its error if any is ignored, and the handle is dropped:
    no handle exists any more.  The next print job (lock free,
    configuration a dict) then starts with a new attempt to connect and
    never calls the stale handle [h]: it ends without handle or with the
    new one. *)
Theorem disconnect_drops_the_handle (py_float : string -> option float)
  (time_sleep : float -> option exn)
  (s0 : state) (sched0 : list label) (h : handle) :
  initial s0 ->
  let s := exec py_float time_sleep sched0 s0 in
  (live (usb_log (usb s)) = option_list (printer s) /\
   (length (live (usb_log (usb s))) <= 1)%nat) /\
  (printer s = Some h ->
   let s1 := run (_set_device_status false) s in
   (fst (_set_device_status false s) = Ok tt /\ printer s1 = None /\
    device_connected s1 = false /\ live (usb_log (usb s1)) = [] /\
    exists ok,
      usb_log (usb s1) = (usb_log (usb s) ++ [UsbCall h PClose ok])%list) /\
   (print_lock s = false -> (exists m, config s = PyDict m) ->
    let s2 := run print_count s1 in
    exists ev rest,
      usb_since s1 s2 = ev :: rest /\ is_open_attempt ev = true /\
      Forall (fun e => forall c ok, e <> UsbCall h c ok) (ev :: rest) /\
      (printer s2 = None \/ printer s2 = Some (next_handle (usb s))) /\
      (h < next_handle (usb s))%nat)).
Proof.
  intros Hi s.
  assert (handles_ok s) as Hok
    by (apply handles_ok_exec; by apply handles_ok_initial).
  split; [split; [apply Hok | by apply live_option_list]|].
  intros Hp s1.
  assert (s1 = run (try_except (call h PClose) (fun _ => ret tt) ;;
                    modify (set_printer None))
                 (set_status_label "Disconnected"
                    (set_status_dot color_accent
                       (set_device_connected false s)))) as Hs1.
  { subst s1. unfold run at 1, _set_device_status, bind at 1 2 3 4,
      modify at 1 2 3, get. cbn. rewrite Hp. reflexivity. }
  destruct (close_and_drop h
              (set_status_label "Disconnected"
                 (set_status_dot color_accent
                    (set_device_connected false s))) Hp Hok)
    as (Hok1 & Hn1 & Hc1 & Hd1 & ok & Hlog1).
  cbn zeta in *. rewrite <- Hs1 in *. cbn in Hc1, Hd1, Hlog1.
  assert (h < next_handle (usb s))%nat as Hlt.
  { destruct Hok as [Hl Hf]. apply Forall_app in Hf as [Ho _].
    eapply Forall_forall in Ho; [exact Ho|].
    assert (h ∈ live (usb_log (usb s))) as Hin
      by (rewrite Hl, Hp; by left).
    unfold live in Hin. by apply list_elem_of_filter in Hin as [_ Hin]. }
  assert (next_handle (usb s1) = next_handle (usb s) /\
          print_lock s1 = print_lock s /\
          fst (_set_device_status false s) = Ok tt) as (Hnext & Hlock & Hfst).
  { rewrite Hs1.
    unfold run, _set_device_status, bind, try_except, try_except_on, call,
      modify, get, ret. cbn. rewrite Hp. cbn.
    by destruct (next_outcome (usb s)) as [[|] rest]. }
  split.
  - split; [exact Hfst|]. split; [exact Hn1|]. split; [exact Hd1|].
    split; [|by exists ok].
    destruct Hok1 as [Hl1 _]. by rewrite Hl1, Hn1.
  - intros Hfree [m Hm]. set (s2 := run print_count s1).
    assert (print_lock s1 = false) as Hfree1 by congruence.
    assert (exists m, config s1 = PyDict m) as Hcfg1
      by (exists m; congruence).
    destruct (reconnects_print_count s1 Hfree1 Hn1 Hcfg1)
      as [(v & p & i & Hl & Hn)|(v & p & i & rest & Hl & Hf & Hn)];
      fold s2 in Hl, Hn; unfold usb_since; rewrite Hl, drop_app_length.
    + eexists _, []. split; [reflexivity|]. split; [reflexivity|].
      split; [by repeat constructor|]. split; [by left | exact Hlt].
    + eexists _, rest. split; [reflexivity|]. split; [reflexivity|].
      split; [|split; [right; by rewrite Hn, Hnext | exact Hlt]].
      constructor; [done|].
      eapply Forall_impl; [exact Hf|]. intros ev Hev c ok' ->.
      cbn in Hev. destruct Hev as [[= Heq] _]. rewrite Hnext in Heq. lia.
Qed.

Lemma disconnect_drops_the_handle_witness :
  let s1 := run (_set_device_status false) connected in
  printer connected = Some 0%nat /\ printer s1 = None /\
  live (usb_log (usb s1)) = [] /\
  (printer (run print_count s1) = None \/
   printer (run print_count s1) = Some 1%nat).
Proof.
  cbn zeta.
  assert (initial boot) as Hi by (by repeat split).
  assert (printer connected = Some 0%nat) as Hp by (vm_compute; reflexivity).
  assert (print_lock connected = false) as Hl by (vm_compute; reflexivity).
  assert (exists m, config connected = PyDict m) as Hc
    by (exists (list_to_map DEFAULT_CONFIG); vm_compute; reflexivity).
  assert (next_handle (usb connected) = 1%nat) as Hn
    by (vm_compute; reflexivity).
  destruct (disconnect_drops_the_handle float_of_text sleep_returns boot
              [LUser ClickPrint] 0%nat Hi) as [_ Hd].
  fold connected in Hd.
  destruct (Hd Hp) as [(_ & H1 & _ & H2 & _) Hnext].
  split; [exact Hp|]. split; [exact H1|]. split; [exact H2|].
  destruct (Hnext Hl Hc) as (ev & rest & _ & _ & _ & Hq & _).
  rewrite Hn in Hq. exact Hq.
Defined.

(** On the booted application: a print connects (handle 0), the
    disconnect closes it, the next print opens the handle 1 and prints on
    it; without the disconnect the second print reuses the handle 0. *)
Example reconnect_after_disconnect :
  let s1 := run (_set_device_status false) connected in
  let s2 := run print_count s1 in
  usb_since connected s1 = [UsbCall 0%nat PClose true] /\
  head (usb_since s1 s2) =
    Some (UsbOpen 1%nat (PyInt 0x0fe6) (PyInt 0x811e) (PyInt 0)) /\
  printer s2 = Some 1%nat /\ live (usb_log (usb s2)) = [1%nat] /\
  head (usb_since connected (run print_count connected)) =
    Some (UsbCall 0%nat (PSet (Some "center") (Some (2, 2))) true).
Proof. vm_compute. repeat split; reflexivity. Qed.

(* ===================================================================== *)
(** * Further properties of the code                                     *)
(* ===================================================================== *)

(** ** Auto run to any maximum *)

(** X1. An auto run to any maximum [m >= 0] with an interval on which
    [time.sleep] returns, started when the threads of earlier runs have
    ended and the queue is empty, and left undisturbed (no user action;
    the presence monitor may hand in results): however the worker, the
    main loop and the monitor are interleaved, the run ends, and whenever
    it has ended the worker has posted the counts 1..m in order, one
    automatic print and the cleanup, the display callback has received
    1..m, one print ran and the counter is 0. *)
Theorem auto_run_counts_to_max (py_float : string -> option float)
  (time_sleep : float -> option exn) (old : list wpc) (m : Z) (iv : float)
  (s0 : state) :
  0 <= m -> time_sleep iv = None ->
  all_done old -> threads s0 = (old ++ [WStart])%list ->
  auto_running s0 = true -> print_scheduled s0 = false ->
  auto_max_count s0 = m -> auto_interval s0 = iv ->
  after_done s0 = length (after_log s0) ->
  (forall sched,
      Forall undisturbed sched ->
      (Z.to_nat (3 * m + 5) <= worker_steps (length old) sched)%nat ->
      quiescent
        (exec py_float time_sleep
           (sched ++ repeat LMain (Z.to_nat m + 3 + probe_steps sched)) s0)) /\
  (forall sched,
      Forall undisturbed sched ->
      let s := exec py_float time_sleep sched s0 in
      quiescent s ->
      worker_posts (posted_since s0 s) =
        (counts m m ++ [CbPrintAndReset; CbAutoCleanupUi])%list /\
      delivered_since s0 s = snd <$> posted_since s0 s /\
      shown (delivered_since s0 s) = seqZ 1 m /\
      prints (delivered_since s0 s) = 1%nat /\
      counter s = 0).
Proof.
  intros Hm Hsl Hold Ht Hr Hp Hmax Hiv Hd.
  pose proof (run_inv_start old m iv s0 Ht Hr Hp Hmax Hiv Hd) as Inv.
  split.
  - intros sched Hs Hn.
    apply (run_completes py_float time_sleep old m iv s0 Hold Hm Hsl sched
             Inv Hs Hn).
  - intros sched Hs s Hq.
    destruct (run_inv_exec py_float time_sleep old m iv s0 Hold Hm Hsl sched
                Hs s0 Inv) as (Inv' & _).
    exact (run_inv_quiescent old m iv s0 s Inv' Hq).
Qed.

(** The second run of a session, to 3 with the interval 2.5: the thread
    of the first run has ended. *)
Lemma auto_run_counts_to_max_witness :
  let s1 := exec float_of_text sleep_returns
              (LUser (Rebuild (auto_screen_with "1" "1.0")) :: LUser ClickAuto
               :: repeat (LWorker 0) 8 ++ repeat LMain 3) boot in
  let s0 := run (_toggle_auto float_of_text)
              (set_ui (auto_screen_with "3" "2.5") s1) in
  let s := exec float_of_text sleep_returns
             (repeat (LWorker 1) 14 ++ repeat LMain 6) s0 in
  threads s0 = [WDone; WStart] /\
  quiescent s /\ shown (delivered_since s0 s) = [1; 2; 3] /\ counter s = 0.
Proof.
  cbn zeta.
  set (s0 := run (_toggle_auto float_of_text)
               (set_ui (auto_screen_with "3" "2.5")
                  (exec float_of_text sleep_returns
                     (LUser (Rebuild (auto_screen_with "1" "1.0"))
                      :: LUser ClickAuto
                      :: repeat (LWorker 0) 8 ++ repeat LMain 3) boot))).
  assert (threads s0 = [WDone; WStart]) as Ht by (vm_compute; reflexivity).
  assert (auto_running s0 = true) as Hr by (vm_compute; reflexivity).
  assert (print_scheduled s0 = false) as Hp by (vm_compute; reflexivity).
  assert (auto_max_count s0 = 3) as Hm by (vm_compute; reflexivity).
  assert (auto_interval s0 = 2.5%float) as Hi by (vm_compute; reflexivity).
  assert (after_done s0 = length (after_log s0)) as Hd
    by (vm_compute; reflexivity).
  destruct (auto_run_counts_to_max float_of_text sleep_returns [WDone] 3
              2.5%float s0 ltac:(lia) eq_refl
              ltac:(by repeat constructor) Ht Hr Hp Hm Hi Hd)
    as [Hend Hres].
  assert (Forall undisturbed (repeat (LWorker 1) 14)) as H14
    by (repeat constructor).
  assert (Forall undisturbed (repeat (LWorker 1) 14 ++ repeat LMain 6))
    as Hall by (repeat constructor).
  pose proof (Hend (repeat (LWorker 1) 14) H14 (le_n 14)) as Hq.
  split; [exact Ht|]. split; [exact Hq|].
  destruct (Hres _ Hall Hq) as (_ & _ & H1 & _ & H3).
  split; [exact H1 | exact H3].
Defined.

(** ** The limits of a started run *)

(** X2. Whatever the two entries hold, after the start branch of
    [_toggle_auto] the maximum is at least 1 and the interval is not below
    0.1 (also when a missing button makes the branch raise further on). *)
Theorem toggle_auto_limits (py_float : string -> option float) (s : state) :
  auto_running s = false ->
  let s' := run (_toggle_auto py_float) s in
  1 <= auto_max_count s' /\
  PrimFloat.ltb (auto_interval s') 0.1%float = false.
Proof.
  intros Hrun s'. subst s'.
  unfold run, _toggle_auto, bind, get. rewrite Hrun. cbn [negb].
  unfold try_except_on, bind, entry_get, int10, float_of, modify, ret, raise,
    entries_configure, _update_label, configure_manual_label,
    configure_auto_label, btn_auto_configure, progress_label_configure,
    new_thread, get, bind, modify.
  destruct (max_count_entry (ui s)) as [me|]; cbn;
    [destruct (py_int 10 (text me)) as [n|]; cbn|];
    (destruct (interval_entry (ui s)) as [ie|]; cbn;
     [destruct (py_float (text ie)) as [f|]; cbn|]);
    destruct (manual_counter_label (ui s)); cbn;
    destruct (auto_counter_label (ui s)); cbn;
    destruct (btn_auto (ui s)); cbn;
    try (destruct (progress_label (ui s)); cbn).
  all: split.
  all: try reflexivity; try lia.
  all: try (destruct (Z.ltb_spec n 1); lia).
  all: try (destruct (PrimFloat.ltb f 0.1%float) eqn:E;
            [reflexivity | exact E]).
Qed.

Lemma toggle_auto_limits_witness :
  let s' := run (_toggle_auto float_of_text)
              (set_ui (auto_screen_with "-4" "0.05") boot) in
  1 <= auto_max_count s' /\
  PrimFloat.ltb (auto_interval s') 0.1%float = false.
Proof.
  exact (toggle_auto_limits float_of_text
           (set_ui (auto_screen_with "-4" "0.05") boot) eq_refl).
Defined.

(** ** An auto run whose sleep fails *)

#[export] Instance same_limits_preorder : PreOrder same_limits.
Proof.
  split.
  - by intros s.
  - intros a b c [H1 H2] [H3 H4]. split; congruence.
Qed.

Ltac limits_leaf :=
  intros ?; split;
  unfold run, after, modify, _make_popup, acquire_nonblocking, release, pcall,
    call, Usb, open_for_write, json_dump, entry_get, btn_auto_configure,
    progress_label_configure, configure_manual_label, configure_auto_label,
    progress_bar_set, true_div, configure_progress_label, int16, int10, raise, ret;
  cbn; repeat (case_match; cbn); reflexivity.

Lemma limits_run_callback (cb : callback) :
  keeps same_limits (run_callback cb).
Proof.
  destruct cb; cbn [run_callback];
    unfold _set_counter_from_thread, _print_and_reset, _safe_print_call,
      _auto_cleanup_ui, entries_configure, print_count, print_count_body, test_print, test_print_body,
      connect_printer, _set_device_status, _update_label, _get_vendor_id,
      _get_product_id, _get_interface;
    walk limits_leaf.
Qed.

Section Failing.

Context (py_float : string -> option float)
  (time_sleep : float -> option exn) (old : list wpc) (m : Z) (iv : float)
  (e : exn) (s0 : state).
Hypothesis old_done : all_done old.
Hypothesis m_pos : 1 <= m.
Hypothesis fails : time_sleep iv = Some e.

Ltac fin Hon Hoff :=
  repeat split; try done; try (cbn; lia);
  try (intros _; apply Hon; cbn; lia); try (intros _; apply Hoff; cbn; lia).

Lemma failing_inv_worker (s : state) :
  failing_inv old m iv e s0 s ->
  failing_inv old m iv e s0 (step py_float time_sleep (LWorker (length old)) s) /\
  (failing_left (step py_float time_sleep (LWorker (length old)) s) <= failing_left s - 1)%nat.
Proof.
  intros (pc & extra & Hth & Htr & Hlog & Hposts & Hon & Hoff & Hstart).
  unfold failing_left. cbn [step]. rewrite Hth, list_lookup_middle by done. rewrite ?last_snoc.
  destruct pc; cbn [failing_track] in Htr; try done.
  - (* WStart *)
    destruct (Hstart eq_refl) as [Hm Hiv]. cbn. rewrite ?Hth, ?insert_last, ?last_snoc, ?Hm, ?Hiv. cbn.
    split; [|lia]. exists (WTest 0 m iv), extra. cbn. rewrite ?Hth, ?insert_last, ?last_snoc.
    fin Hon Hoff.
  - (* WTest *)
    destruct Htr as (-> & -> & ->). cbn [worker_step].
    rewrite Hon by (cbn; lia).
    destruct (Z.ltb_spec 0 m) as [_|]; [|lia]. cbn. rewrite ?Hth, ?insert_last, ?last_snoc. cbn.
    split; [|lia]. exists (WPost 1 m iv), extra. cbn. rewrite ?Hth, ?insert_last, ?last_snoc.
    fin Hon Hoff.
  - (* WPost *)
    destruct Htr as (-> & -> & ->). cbn. rewrite ?Hth, ?insert_last, ?last_snoc. cbn.
    split; [|lia].
    exists (WSleep 1 m iv), (extra ++ [(Worker (length old), CbSetCounter 1 m)])%list.
    cbn. rewrite ?Hth, ?insert_last, ?last_snoc, Hlog, <- app_assoc, worker_posts_app, Hposts. cbn.
    fin Hon Hoff.
  - (* WSleep *)
    destruct Htr as (-> & -> & ->). cbn [worker_step]. rewrite fails.
    cbn. rewrite ?Hth, ?insert_last, ?last_snoc. cbn. split; [|lia].
    exists (WExcept e), extra. cbn. rewrite ?Hth, ?insert_last, ?last_snoc.
    fin Hon Hoff.
  - (* WExcept *)
    subst e0. cbn. rewrite ?Hth, ?insert_last, ?last_snoc. cbn. split; [|lia].
    exists WFinally, (extra ++ [(Worker (length old), auto_error_popup e)])%list.
    cbn. rewrite ?Hth, ?insert_last, ?last_snoc, Hlog, <- app_assoc, worker_posts_app, Hposts. cbn.
    fin Hon Hoff.
  - (* WFinally *)
    cbn. rewrite ?Hth, ?insert_last, ?last_snoc. cbn. split; [|lia].
    exists WCleanup, extra. cbn. rewrite ?Hth, ?insert_last, ?last_snoc.
    fin Hon Hoff.
  - (* WCleanup *)
    cbn. rewrite ?Hth, ?insert_last, ?last_snoc. cbn. split; [|lia].
    exists WDone, (extra ++ [(Worker (length old), CbAutoCleanupUi)])%list.
    cbn. rewrite ?Hth, ?insert_last, ?last_snoc, Hlog, <- app_assoc, worker_posts_app, Hposts. cbn.
    fin Hon Hoff.
  - (* WDone *)
    cbn. rewrite ?Hth, ?insert_last, ?last_snoc. cbn. split; [|lia].
    exists WDone, extra. cbn. rewrite ?Hth, ?insert_last, ?last_snoc. fin Hon Hoff.
Qed.

Lemma failing_inv_frame (s s' : state) :
  stopped_frame s s' ->
  auto_max_count s' = auto_max_count s ->
  auto_interval s' = auto_interval s ->
  failing_inv old m iv e s0 s ->
  failing_inv old m iv e s0 s' /\ failing_left s' = failing_left s.
Proof.
  intros (F1 & F2 & extra2 & F3 & F4) Hmax Hiv
    (pc & extra & Hth & Htr & Hlog & Hposts & Hon & Hoff & Hstart).
  split.
  - exists pc, (extra ++ extra2)%list.
    rewrite F1, F2, F3, Hlog, <- app_assoc, Hmax, Hiv.
    rewrite worker_posts_app, (worker_posts_not_by_worker extra2 F4),
      app_nil_r.
    split; [done|]. split; [done|]. split; [done|]. split; [done|].
    split; [exact Hon|]. split; [exact Hoff|exact Hstart].
  - unfold failing_left. by rewrite F2.
Qed.

Lemma failing_inv_exec (sched : list label) :
  Forall undisturbed sched ->
  forall s,
    failing_inv old m iv e s0 s ->
    failing_inv old m iv e s0 (exec py_float time_sleep sched s) /\
    (failing_left (exec py_float time_sleep sched s) <=
     failing_left s - worker_steps (length old) sched)%nat.
Proof.
  induction 1 as [|l sched Hl Hs IH]; intros s Inv.
  - cbn. split; [exact Inv|]. lia.
  - rewrite exec_cons, worker_steps_cons.
    destruct l as [t| | |c]; cbn in Hl; try done; cbn [is_worker_step];
      [destruct (Nat.eqb_spec t (length old)) as [->|Hne]| |].
    + destruct (failing_inv_worker s Inv) as [Inv' Hr].
      destruct (IH _ Inv') as [Inv'' Hr'']. split; [exact Inv''|]. lia.
    + assert (step py_float time_sleep (LWorker t) s = s) as ->.
      { destruct Inv as (pc & extra & Hth & _).
        by apply (step_other_worker _ _ old pc). }
      destruct (IH _ Inv) as [Inv'' Hr'']. split; [exact Inv''|]. lia.
    + assert (failing_inv old m iv e s0 (step py_float time_sleep LMain s) /\
              failing_left (step py_float time_sleep LMain s) = failing_left s)
        as [Inv' Hr].
      { cbn [step].
        destruct (after_log s !! after_done s) as [[who cb]|]; [|done].
        pose proof (stopped_run_callback cb
                      (set_after_done (S (after_done s)) s)) as F.
        pose proof (limits_run_callback cb
                      (set_after_done (S (after_done s)) s)) as Q.
        apply (failing_inv_frame s); [exact F| | |exact Inv].
        - apply Q.
        - apply Q. }
      destruct (IH _ Inv') as [Inv'' Hr'']. split; [exact Inv''|]. lia.
    + assert (failing_inv old m iv e s0 (step py_float time_sleep (LProbe c) s) /\
              failing_left (step py_float time_sleep (LProbe c) s) = failing_left s)
        as [Inv' Hr].
      { apply (failing_inv_frame s); [|done|done|exact Inv].
        cbn [step]. unfold run, after, modify. cbn.
        split; [done|]. split; [done|].
        exists [(Probe, CbSetDeviceStatus c)]. split; [done|].
        by repeat constructor. }
      destruct (IH _ Inv') as [Inv'' Hr'']. split; [exact Inv''|]. lia.
Qed.

End Failing.

(** X3. A run whose first [time.sleep] raises (a not-a-number interval
    passes the limit of [_toggle_auto]), started when the threads of
    earlier runs have ended: however it is interleaved with the main loop
    and the presence monitor, after seven steps of the worker the worker
    has ended and [auto_running] is false, and all it has posted is the
    count 1, one "Auto Error" popup and the cleanup: no automatic
    print. *)
Theorem auto_run_sleep_failure (py_float : string -> option float)
  (time_sleep : float -> option exn) (old : list wpc) (m : Z) (iv : float)
  (e : exn) (s0 : state) (sched : list label) :
  1 <= m -> time_sleep iv = Some e ->
  all_done old -> threads s0 = (old ++ [WStart])%list ->
  auto_running s0 = true ->
  auto_max_count s0 = m -> auto_interval s0 = iv ->
  Forall undisturbed sched -> (7 <= worker_steps (length old) sched)%nat ->
  let s := exec py_float time_sleep sched s0 in
  threads s = (old ++ [WDone])%list /\ auto_running s = false /\
  exists msg,
    worker_posts (posted_since s0 s) =
      [CbSetCounter 1 m;
       CbPopup (mkPopup "Auto Error"
                  ("Terjadi error pada proses otomatis:" ++ nl ++ msg)
                  "error");
       CbAutoCleanupUi].
Proof.
  intros Hm Hfail Hold Hth Hrun Hmax Hiv Hs H7 s.
  assert (failing_inv old m iv e s0 s0) as Inv.
  { exists WStart, []. rewrite app_nil_r. cbn.
    repeat split; try done. lia. }
  destruct (failing_inv_exec py_float time_sleep old m iv e s0 Hold Hm Hfail
              sched Hs s0 Inv)
    as [(pc & extra & Ht & Htr & Hlog & Hposts & _ & Hoff & _) Hleft].
  fold s in Ht, Hlog, Hoff, Hleft.
  unfold failing_left in Hleft. rewrite Ht, Hth, !last_snoc in Hleft.
  cbn in Hleft.
  assert (pc = WDone) as ->
    by (destruct pc; cbn in Hleft, Htr; try lia; done).
  split; [exact Ht|]. split; [apply Hoff; cbn; lia|].
  exists (py_str_exn e).
  unfold posted_since. by rewrite Hlog, drop_app_length.
Qed.

Lemma auto_run_sleep_failure_witness :
  let s0 := run (_toggle_auto float_of_text)
              (set_ui (auto_screen_with "3" "nan") boot) in
  let s := exec float_of_text sleep_returns (repeat (LWorker 0) 7) s0 in
  threads s = [WDone] /\ auto_running s = false /\
  exists msg,
    worker_posts (posted_since s0 s) =
      [CbSetCounter 1 3;
       CbPopup (mkPopup "Auto Error"
                  ("Terjadi error pada proses otomatis:" ++ nl ++ msg)
                  "error");
       CbAutoCleanupUi].
Proof.
  cbn zeta.
  apply (auto_run_sleep_failure float_of_text sleep_returns [] 3
           PrimFloat.nan ValueError
           (run (_toggle_auto float_of_text)
              (set_ui (auto_screen_with "3" "nan") boot))
           (repeat (LWorker 0) 7)).
  - lia.
  - reflexivity.
  - constructor.
  - reflexivity.
  - reflexivity.
  - reflexivity.
  - reflexivity.
  - repeat constructor.
  - exact (le_n 7).
Defined.

(** ** What a print job leaves alone *)

#[export] Instance same_view_preorder : PreOrder same_view.
Proof.
  split.
  - by intros s.
  - intros a b c (H1 & H2 & H3 & H4) (H5 & H6 & H7 & H8).
    repeat split; congruence.
Qed.

Ltac view_leaf :=
  intros ?; split; [|split; [|split]];
  unfold run, after, modify, _make_popup, acquire_nonblocking, release, pcall,
    call, Usb, int16, raise, ret;
  cbn; repeat (case_match; cbn); reflexivity.

Lemma view_print_count : keeps same_view print_count.
Proof.
  unfold print_count, print_count_body, connect_printer, _set_device_status, _get_vendor_id,
    _get_product_id, _get_interface.
  walk view_leaf.
Qed.

Lemma view_test_print : keeps same_view test_print.
Proof.
  unfold test_print, test_print_body, connect_printer, _set_device_status, _get_vendor_id,
    _get_product_id, _get_interface.
  walk view_leaf.
Qed.

#[export] Instance status_frame_preorder : PreOrder status_frame.
Proof.
  split.
  - intros s. by left.
  - intros a b c [(A1 & A2 & A3)|(A1 & A2 & A3)]
      [(B1 & B2 & B3)|(B1 & B2 & B3)].
    + left. repeat split; congruence.
    + by right.
    + right. repeat split; congruence.
    + by right.
Qed.

Ltac status_leaf :=
  intros ?;
  unfold status_frame, run, after, modify, _make_popup, acquire_nonblocking,
    release, pcall, call, Usb, int16, raise, ret, get, lift;
  cbn; repeat (case_match; cbn);
  first [left; by repeat split | right; by repeat split].

Lemma status_set_device_status : keeps status_frame (_set_device_status true).
Proof. intros s. by right. Qed.

Ltac status_known :=
  idtac;
  match goal with
  | |- keeps _ (_set_device_status true) => apply status_set_device_status
  end.

Lemma status_connect_printer : keeps status_frame connect_printer.
Proof.
  unfold connect_printer, _get_vendor_id, _get_product_id, _get_interface.
  walk_with status_known status_leaf.
Qed.

Ltac status_pre :=
  idtac;
  match goal with
  | |- keeps _ connect_printer => apply status_connect_printer
  end.

Lemma status_print_count : keeps status_frame print_count.
Proof.
  unfold print_count, print_count_body. walk_with status_pre status_leaf.
Qed.

Lemma status_test_print : keeps status_frame test_print.
Proof.
  unfold test_print, test_print_body. walk_with status_pre status_leaf.
Qed.

(** X4. No print job changes the counter, the configuration, the widgets
    of the counter screens or the configuration file, whatever the lock
    and the transport do; the status dot and the status label stay as
    they are unless the job connects, which makes them show
    "Connected". *)
Theorem print_jobs_keep_the_count (s : state) :
  let s1 := run print_count s in
  let s2 := run test_print s in
  (counter s1 = counter s /\ config s1 = config s /\ ui s1 = ui s /\
   fs s1 = fs s /\ status_frame s s1) /\
  (counter s2 = counter s /\ config s2 = config s /\ ui s2 = ui s /\
   fs s2 = fs s /\ status_frame s s2).
Proof.
  split.
  - destruct (view_print_count s) as (H1 & H2 & H3 & H4).
    repeat split; try done. apply status_print_count.
  - destruct (view_test_print s) as (H1 & H2 & H3 & H4).
    repeat split; try done. apply status_test_print.
Qed.

(** The first print of a session connects: the label changes. *)
Example print_shows_connected :
  status_label boot = "Checking..." /\
  status_label (run print_count boot) = "Connected" /\
  status_dot (run print_count boot) = color_success.
Proof. vm_compute. repeat split; reflexivity. Qed.

(** X5. [_print_and_reset] always returns and always resets: the counter is 0,
    the counter labels that exist show "0" and the progress bar that exists
    is empty, also when the print job found the lock taken, could not
    connect or failed at the printer; what was counted is then lost. *)
Theorem print_and_reset_always_resets (s : state) :
  let s' := run _print_and_reset s in
  fst (_print_and_reset s) = Ok tt /\ counter s' = 0 /\
  manual_counter_label (ui s') =
    (fun _ => "0") <$> manual_counter_label (ui s) /\
  auto_counter_label (ui s') = (fun _ => "0") <$> auto_counter_label (ui s) /\
  progress_bar (ui s') = (fun _ => (0, 1)) <$> progress_bar (ui s) /\
  progress_label (ui s') = progress_label (ui s) /\
  config s' = config s.
Proof.
  intros s'. subst s'.
  unfold run, _print_and_reset, _safe_print_call, bind.
  pose proof (print_count_returns s) as Hr.
  destruct (view_print_count s) as (_ & Hc & Hu & _).
  unfold run in Hc, Hu.
  destruct (print_count s) as [[[]|e] s1]; cbn in Hr, Hc, Hu;
    [|discriminate].
  rewrite <- Hu, <- Hc.
  destruct s1 as [cfg c p ar sb lk ps dc sd sl mx iv [ml al pb pl me ie ba]
                  th lg dn pops u f nt ne].
  unfold _update_label, progress_bar_set, true_div, configure_manual_label,
    configure_auto_label, bind, modify, get; cbn.
  destruct ml, al, pb; cbn; repeat split; reflexivity.
Qed.

(** A count of 7 whose print fails at the printer is reset all the
    same. *)
Example print_and_reset_loses_the_count :
  let s := set_ui auto_screen
             (set_counter 7 (boot_with_script [true; true; false; false])) in
  let s' := run _print_and_reset s in
  title <$> popups s' = ["Print Error"] /\ counter s' = 0 /\
  auto_counter_label (ui s') = Some "0".
Proof. vm_compute. repeat split; reflexivity. Qed.

(** ** A print job with a handle held *)

#[export] Instance held_preorder : PreOrder held.
Proof.
  split.
  - intros s _. reflexivity.
  - intros a b c Hab Hbc Ha. pose proof (Hab Ha) as U.
    etrans; [exact U|]. apply Hbc. destruct U as (Hp & _). by rewrite Hp.
Qed.

Lemma held_uses {A} (m : M A) : keeps uses_printer m -> keeps held m.
Proof. intros H s _. apply H. Qed.

Lemma held_connect_printer : keeps held connect_printer.
Proof.
  intros s [h Hp]. unfold run, connect_printer, bind, get. rewrite Hp.
  reflexivity.
Qed.

Lemma held_print_job (body : M unit) (hd : exn -> M unit) :
  keeps uses_printer body -> (forall e, keeps uses_printer (hd e)) ->
  keeps held
    (got <- acquire_nonblocking ;;
     if negb got then _make_popup "Info" busy_text "info"
     else
       try_finally
         (try_except
            (connected <- connect_printer ;;
             if negb connected then ret tt else body)
            hd)
         (try_except release (fun _ => ret tt))).
Proof.
  intros Hb Hh.
  apply keeps_bind; [apply _ | |intros got].
  - apply held_uses, uses_printer_leaf. intros p s.
    apply calls_on_same; unfold run, acquire_nonblocking;
      destruct (print_lock s); reflexivity.
  - destruct got; cbn [negb].
    + apply keeps_try_finally; [apply _ | |].
      * apply keeps_try_except; [apply _ | |intros e].
        -- apply keeps_bind; [apply _ | apply held_connect_printer |].
           intros [|]; cbn [negb]; apply held_uses; [exact Hb|].
           apply uses_printer_leaf. intros p. walk calls_leaf.
        -- apply held_uses, Hh.
      * apply held_uses, uses_printer_leaf. intros p. walk calls_leaf.
    + apply held_uses, uses_printer_leaf. intros p. walk calls_leaf.
Qed.

(** X6. With a handle held, a print job makes no attempt to connect and never
    closes: the transport only sees calls on that handle, and the handle
    is still held afterwards, also when a call of the job failed. *)
Theorem print_job_uses_held_handle (s : state) (h : handle) :
  printer s = Some h ->
  calls_on (Some h) s (run print_count s) /\
  calls_on (Some h) s (run test_print s).
Proof.
  intros Hp.
  assert (keeps held print_count) as H1.
  { unfold print_count, print_count_body. apply held_print_job.
    - apply uses_printer_bind_get. intros p. walk calls_leaf.
    - intros e. apply uses_printer_leaf. intros p. walk calls_leaf. }
  assert (keeps held test_print) as H2.
  { unfold test_print, test_print_body. apply held_print_job.
    - apply uses_printer_bind_get. intros p. walk calls_leaf.
    - intros e. apply uses_printer_leaf. intros p. walk calls_leaf. }
  pose proof (H1 s (ex_intro _ h Hp)) as U1.
  pose proof (H2 s (ex_intro _ h Hp)) as U2.
  unfold uses_printer in U1, U2. rewrite Hp in U1, U2. by split.
Qed.

Lemma print_job_uses_held_handle_witness :
  calls_on (Some 0%nat) connected (run print_count connected) /\
  calls_on (Some 0%nat) connected (run test_print connected).
Proof. exact (print_job_uses_held_handle connected 0%nat eq_refl). Defined.

(** ** The configuration file: shapes and failures *)

Lemma merge_defaults_not_a_dict (v : pyval) :
  match v with PyList _ | PyStr _ => True | _ => False end ->
  forall defaults : list (string * pyval),
    (merge_defaults defaults v = Ok v /\
     Forall (fun k => py_contains v k = Ok true) (fst <$> defaults)) \/
    merge_defaults defaults v = Raise TypeError.
Proof.
  intros Hv. induction defaults as [|[k dv] rest IH]; cbn.
  - left. split; [done | constructor].
  - destruct v; try done; cbn.
    + destruct (str_contains s k) eqn:E; [|by right].
      destruct IH as [[H1 H2]|H]; [left|by right].
      split; [exact H1|]. constructor; [cbn; by rewrite E | exact H2].
    + destruct (existsb _ l) eqn:E; [|by right].
      destruct IH as [[H1 H2]|H]; [left|by right].
      split; [exact H1|]. constructor; [cbn; by rewrite E | exact H2].
Qed.

Lemma default_config_keys (m : gmap string pyval) (k : string) :
  In k default_keys ->
  is_Some ((m ∪ list_to_map DEFAULT_CONFIG : gmap string pyval) !! k).
Proof.
  intros Hk. apply lookup_union_is_Some. right.
  cbn in Hk. destruct Hk as [<-|[<-|[<-|[<-|[<-|[]]]]]]; vm_compute; eauto.
Qed.

Lemma load_config_shape_cases (d : disk) :
  (exists m : gmap string pyval,
      load_config d = PyDict m /\
      forall k, In k default_keys -> is_Some (m !! k)) \/
  (exists v, content d = Some (Document v) /\ readable d = true /\
             names_every_key v /\ load_config d = v).
Proof.
  assert (exists m : gmap string pyval,
             default_config = PyDict m /\
             forall k, In k default_keys -> is_Some (m !! k)) as Hdef.
  { exists (∅ ∪ list_to_map DEFAULT_CONFIG). split.
    - unfold default_config. by rewrite (left_id_L ∅ (∪)).
    - intros k. apply default_config_keys. }
  unfold load_config, load_config_try.
  destruct (content d) as [[|v]|] eqn:Hc; [| |by left].
  - destruct (readable d); by left.
  - destruct (readable d) eqn:Hr; cbn [negb]; [|by left].
    destruct v as [| | | |t|l|m];
      try (by left).
    + destruct (merge_defaults_not_a_dict (PyStr t) I DEFAULT_CONFIG)
        as [[H1 H2]|H]; rewrite ?H1, ?H; [right|by left].
      by exists (PyStr t).
    + destruct (merge_defaults_not_a_dict (PyList l) I DEFAULT_CONFIG)
        as [[H1 H2]|H]; rewrite ?H1, ?H; [right|by left].
      by exists (PyList l).
    + rewrite merge_defaults_dict. left. eexists. split; [reflexivity|].
      intros k. apply default_config_keys.
Qed.

(** X7. [load_config] never fails, and what it returns is a dict that has
    every recognized key, with one exception: a readable file whose JSON
    value is a text or an array in which [in] finds all five key names is
    returned as it is, not a dict. *)
Theorem load_config_shape (d : disk) :
  (exists m : gmap string pyval,
      load_config d = PyDict m /\
      forall k, In k default_keys -> is_Some (m !! k)) \/
  (exists v, content d = Some (Document v) /\ readable d = true /\
             names_every_key v /\ load_config d = v).
Proof. apply load_config_shape_cases. Qed.

Lemma init_cases (d : disk) :
  match __init__ d with
  | Ok cfg => complete cfg
  | Raise e =>
      e = AttributeError /\
      exists v, content d = Some (Document v) /\ readable d = true /\
                names_every_key v
  end.
Proof.
  assert (forall m : gmap string pyval,
             complete (PyDict (m ∪ list_to_map DEFAULT_CONFIG))) as Hdef.
  { intros m. eexists. split; [reflexivity|].
    intros k. apply default_config_keys. }
  assert (complete default_config) as Hd.
  { unfold default_config. rewrite <- (left_id_L ∅ (∪) (list_to_map _)).
    apply Hdef. }
  unfold __init__, load_config, load_config_try.
  destruct (content d) as [[|v]|] eqn:Hc; [| |exact Hd].
  - destruct (readable d); exact Hd.
  - destruct (readable d) eqn:Hr; cbn [negb]; [|exact Hd].
    destruct v as [| | | |t|l|m]; try exact Hd.
    + destruct (merge_defaults_not_a_dict (PyStr t) I DEFAULT_CONFIG)
        as [[H1 H2]|H]; rewrite ?H1, ?H; [|exact Hd].
      cbn. split; [done|]. by exists (PyStr t).
    + destruct (merge_defaults_not_a_dict (PyList l) I DEFAULT_CONFIG)
        as [[H1 H2]|H]; rewrite ?H1, ?H; [|exact Hd].
      cbn. split; [done|]. by exists (PyList l).
    + rewrite merge_defaults_dict. cbn. apply Hdef.
Qed.

Lemma load_config_shape_witness :
  exists m : gmap string pyval,
    load_config (fs boot) = PyDict m /\ is_Some (m !! "interface").
Proof.
  destruct (load_config_shape (fs boot))
    as [(m & Hm & Hk)|(v & Hc & _)]; [|discriminate].
  exists m. split; [exact Hm|]. apply Hk. cbn. tauto.
Defined.

(** X8. The application only starts on a dict: when [__init__] gets past the
    configuration, [self.config] is a dict that has every recognized key;
    it fails there, with [AttributeError], exactly on the files whose text
    or array [load_config] returned as it was. *)
Theorem init_needs_a_dict (d : disk) :
  (forall cfg, __init__ d = Ok cfg -> complete cfg) /\
  (forall e, __init__ d = Raise e ->
             e = AttributeError /\
             exists v, content d = Some (Document v) /\ readable d = true /\
                       names_every_key v /\ load_config d = v).
Proof.
  pose proof (init_cases d) as H. split.
  - intros cfg E. by rewrite E in H.
  - intros e E. rewrite E in H. destruct H as (He & v & Hc & Hr & Hn).
    split; [exact He|]. exists v. repeat split; try done.
    destruct (load_config_shape_cases d) as [(m & Hm & _)|(v' & Hc' & _ & _ & Hl)].
    + exfalso. unfold __init__ in E. rewrite Hm in E. cbn in E.
      repeat case_match; discriminate.
    + congruence.
Qed.

Lemma init_needs_a_dict_witness : complete (config boot_null_vendor).
Proof.
  exact (proj1 (init_needs_a_dict null_vendor_file) (config boot_null_vendor)
           eq_refl).
Defined.

(** The JSON array of the five key names passes [load_config] as it is
    and ends the start. *)
Example init_fails_on_key_list :
  load_config key_list_file = PyList (PyStr <$> default_keys) /\
  __init__ key_list_file = Raise AttributeError.
Proof. split; reflexivity. Qed.

(** X9. [save_config] never raises: it returns [True] exactly when the file
    could be opened and written in full.  When the file could not be
    opened it is as before; when it was opened and the dump failed, what
    was there is gone and the next [load_config] gives the defaults. *)
Theorem save_config_failure (cfg : pyval) (s : state) :
  let s' := run (save_config cfg) s in
  fst (save_config cfg s) = Ok (writable (fs s) && room (fs s)) /\
  (writable (fs s) = false -> s' = s) /\
  (writable (fs s) = true -> room (fs s) = false ->
   content (fs s') = Some Garbled /\ load_config (fs s') = default_config).
Proof.
  intros s'. subst s'.
  unfold run, save_config, try_except, try_except_on, bind, open_for_write,
    json_dump, ret.
  destruct (writable (fs s)) eqn:Hw; cbn.
  - destruct (room (fs s)) eqn:Hr; cbn.
    + split; [done|]. split; intros; discriminate.
    + split; [done|]. split; [intros; discriminate|]. intros _ _.
      split; [done|]. by apply load_config_garbled.
  - split; [done|]. split; [done|]. intros; discriminate.
Qed.

Lemma save_config_failure_witness :
  let s := set_fs (mkDisk (Some (Document default_config)) true true false
                     0%nat) boot in
  content (fs (run (save_config (config s)) s)) = Some Garbled /\
  load_config (fs (run (save_config (config s)) s)) = default_config.
Proof.
  exact (proj2 (proj2 (save_config_failure default_config
                         (set_fs (mkDisk (Some (Document default_config))
                                    true true false 0%nat) boot)))
           eq_refl eq_refl).
Defined.

(** ** Accepted settings *)

Lemma get_vendor_id_value (s : state) (m : gmap string pyval) (t : string)
  (v : Z) :
  config s = PyDict m -> m !! "vendor_id" = Some (PyStr t) ->
  py_int 16 t = Some v -> fst (_get_vendor_id s) = Ok (PyInt v).
Proof.
  intros Hc Hm Hv.
  unfold _get_vendor_id, try_except, try_except_on, bind, get, lift, int16.
  rewrite Hc. cbn. rewrite Hm. cbn. by rewrite Hv.
Qed.

Lemma get_product_id_value (s : state) (m : gmap string pyval) (t : string)
  (v : Z) :
  config s = PyDict m -> m !! "product_id" = Some (PyStr t) ->
  py_int 16 t = Some v -> fst (_get_product_id s) = Ok (PyInt v).
Proof.
  intros Hc Hm Hv.
  unfold _get_product_id, try_except, try_except_on, bind, get, lift, int16.
  rewrite Hc. cbn. rewrite Hm. cbn. by rewrite Hv.
Qed.

(** X10. Settings that pass the three checks are committed in memory whatever
    happens to the file: the prefixed identifiers and the interface are
    stored under their keys, a held printer handle is dropped, and from
    then on the accessors return the numbers that were typed, not a
    default.  When the file can be written it then holds the
    configuration and the popup says "Success"; when it cannot be opened
    it is as before, the popup says "Error", and the new values stay in
    force until the application is closed. *)
Theorem save_settings_commits (vid_entry pid_entry iface_entry : string)
  (s : state) (m : gmap string pyval) :
  config s = PyDict m ->
  hex_ok vid_entry = true -> hex_ok pid_entry = true ->
  int_ok iface_entry = true ->
  let s' := run (save_settings vid_entry pid_entry iface_entry) s in
  let vid := with_prefix (strip vid_entry) in
  let pid := with_prefix (strip pid_entry) in
  exists v p n,
    py_int 16 vid = Some v /\ py_int 16 pid = Some p /\
    py_int 10 (strip iface_entry) = Some n /\
    fst (save_settings vid_entry pid_entry iface_entry s) = Ok tt /\
    config s' =
      PyDict (<["interface" := PyInt n]>
                (<["product_id" := PyStr pid]>
                   (<["vendor_id" := PyStr vid]> m))) /\
    printer s' = None /\
    fst (_get_vendor_id s') = Ok (PyInt v) /\
    fst (_get_product_id s') = Ok (PyInt p) /\
    fst (_get_interface s') = Ok (PyInt n) /\
    (writable (fs s) = true -> room (fs s) = true ->
     content (fs s') = Some (Document (config s')) /\
     popups s' =
       (popups s ++ [mkPopup "Success" "Konfigurasi berhasil disimpan."
                       "success"])%list) /\
    (writable (fs s) = false ->
     fs s' = fs s /\
     popups s' =
       (popups s ++ [mkPopup "Error" "Gagal menyimpan konfigurasi."
                       "error"])%list).
Proof.
  intros Hc Hv Hp Hi s' vid pid. subst s' vid pid.
  unfold hex_ok, int_ok in *.
  destruct (py_int 16 (with_prefix (strip vid_entry))) as [v|] eqn:Ev;
    [|discriminate].
  destruct (py_int 16 (with_prefix (strip pid_entry))) as [p|] eqn:Ep;
    [|discriminate].
  destruct (py_int 10 (strip iface_entry)) as [n|] eqn:En; [|discriminate].
  exists v, p, n.
  split; [done|]. split; [done|]. split; [done|].
  set (m' := <["interface" := PyInt n]>
               (<["product_id" := PyStr (with_prefix (strip pid_entry))]>
                  (<["vendor_id" := PyStr (with_prefix (strip vid_entry))]>
                     m))).
  assert (fst (save_settings vid_entry pid_entry iface_entry s) = Ok tt /\
          config (run (save_settings vid_entry pid_entry iface_entry) s) =
            PyDict m' /\
          printer (run (save_settings vid_entry pid_entry iface_entry) s) =
            None /\
          (writable (fs s) = true -> room (fs s) = true ->
           content (fs (run (save_settings vid_entry pid_entry iface_entry)
                          s)) = Some (Document (PyDict m')) /\
           popups (run (save_settings vid_entry pid_entry iface_entry) s) =
             (popups s ++ [mkPopup "Success" "Konfigurasi berhasil disimpan."
                             "success"])%list) /\
          (writable (fs s) = false ->
           fs (run (save_settings vid_entry pid_entry iface_entry) s) = fs s /\
           popups (run (save_settings vid_entry pid_entry iface_entry) s) =
             (popups s ++ [mkPopup "Error" "Gagal menyimpan konfigurasi."
                             "error"])%list))
    as (H1 & H2 & H3 & H4 & H5).
  { unfold run, save_settings, check_hex, check_int, config_set, save_config,
      try_except, try_except_on, bind, int16, int10, ret, raise, _make_popup,
      modify, get, lift, call, open_for_write, json_dump.
    rewrite Ev, Ep, En. cbn. rewrite Hc. cbn.
    destruct (printer s) as [h|] eqn:Hpr; cbn;
      [destruct (next_outcome (usb s)) as [[|] rest]; cbn|];
      (destruct (writable (fs s)); cbn; [destruct (room (fs s)); cbn|]);
      repeat (first [split | intros ?]);
      first [done | discriminate | exact Hpr]. }
  split; [exact H1|]. split; [exact H2|]. split; [exact H3|].
  split; [|split; [|split; [|split]]].
  - apply (get_vendor_id_value _ m' (with_prefix (strip vid_entry)));
      [exact H2 | | exact Ev].
    subst m'. do 2 (rewrite lookup_insert_ne by done).
    by rewrite lookup_insert_eq.
  - apply (get_product_id_value _ m' (with_prefix (strip pid_entry)));
      [exact H2 | | exact Ep].
    subst m'. rewrite lookup_insert_ne by done.
    by rewrite lookup_insert_eq.
  - unfold _get_interface, bind, get, lift. rewrite H2. cbn.
    subst m'. by rewrite lookup_insert_eq.
  - rewrite H2. exact H4.
  - exact H5.
Qed.

Lemma save_settings_commits_witness :
  fst (_get_vendor_id saved) = Ok (PyInt 0x0fe6) /\
  fst (_get_product_id saved) = Ok (PyInt 0x811e) /\
  fst (_get_interface saved) = Ok (PyInt 1) /\
  content (fs saved) = Some (Document (config saved)).
Proof.
  destruct (save_settings_commits "0FE6" "811E" "1" boot
              (list_to_map DEFAULT_CONFIG) eq_refl eq_refl eq_refl eq_refl)
    as (v & p & n & Hv & Hp & Hn & _ & _ & _ & H1 & H2 & H3 & H4 & _).
  assert (v = 0x0fe6) as -> by (vm_compute in Hv; congruence).
  assert (p = 0x811e) as -> by (vm_compute in Hp; congruence).
  assert (n = 1) as -> by (vm_compute in Hn; congruence).
  split; [exact H1|]. split; [exact H2|]. split; [exact H3|].
  exact (proj1 (H4 eq_refl eq_refl)).
Defined.

(** *** Plain hexadecimal numerals *)

Lemma hex_digit_facts (c : ascii) :
  is_hex_digit c = true ->
  (code c <? 127) = true /\ Ascii.eqb c "_" = false /\
  Ascii.eqb c "+" = false /\ Ascii.eqb c "-" = false /\
  is_int_space c = false /\
  exists d, digit_val c = Some d /\ (d <? 16) = true.
Proof.
  destruct c as [[] [] [] [] [] [] [] []]; vm_compute; intros H;
    try discriminate H; repeat split; eauto.
Qed.

Lemma to_ascii_hex (d : string) :
  all_hex_digits d = true -> decimal_and_space_to_ascii d = Some d.
Proof.
  induction d as [|c r IH]; [done|]. cbn [all_hex_digits].
  intros [Hc Hr]%andb_true_iff.
  destruct (hex_digit_facts c Hc) as (H127 & _).
  cbn [decimal_and_space_to_ascii]. rewrite H127, (IH Hr). reflexivity.
Qed.

Lemma int_digits_hex (d : string) :
  all_hex_digits d = true ->
  forall prev acc, d <> "" \/ prev = true ->
    exists v, int_digits 16 prev acc d = Some v.
Proof.
  induction d as [|c r IH]; intros Hd prev acc Hne.
  - destruct Hne as [H | ->]; [done|]. cbn. eauto.
  - cbn [all_hex_digits] in Hd. apply andb_true_iff in Hd as [Hc Hr].
    destruct (hex_digit_facts c Hc) as (_ & Hu & _ & _ & _ & dv & Hdv & Hlt).
    cbn [int_digits]. rewrite Hu, Hdv, Hlt. apply IH; [exact Hr | by right].
Qed.

Lemma lstrip_keeps (sp : ascii -> bool) (s : string) :
  match s with String c _ => sp c = false | EmptyString => True end ->
  lstrip sp s = s.
Proof. destruct s as [|c r]; [done|]. cbn. by intros ->. Qed.

Lemma string_app_nil_r (s : string) : s ++ "" = s.
Proof.
  induction s as [|x s IH]; [done|].
  change (String x (s ++ "") = String x s). by rewrite IH.
Qed.

Lemma rev_app_rev_app (s a b : string) :
  String.rev_app (String.rev_app s a) b = String.rev_app a (s ++ b).
Proof.
  revert a b. induction s as [|x s IH]; intros a b; [done|].
  change (String.rev_app (String.rev_app s (String x a)) b =
          String.rev_app (String x a) (s ++ b)).
  rewrite IH. reflexivity.
Qed.

Lemma rev_rev (s : string) : String.rev (String.rev s) = s.
Proof.
  unfold String.rev. rewrite rev_app_rev_app. cbn. apply string_app_nil_r.
Qed.

Lemma rev_app_head (P : ascii -> Prop) (s : string) :
  forall acc,
    all_chars P s -> head_char P acc -> head_char P (String.rev_app s acc).
Proof.
  induction s as [|x s IH]; intros acc Hs Ha; [exact Ha|].
  destruct Hs as [Hx Hs]. cbn. by apply IH.
Qed.

Lemma all_hex_all (d : string) :
  all_hex_digits d = true ->
  all_chars (fun c => is_int_space c = false) d.
Proof.
  induction d as [|c r IH]; [done|]. cbn [all_hex_digits].
  intros [Hc Hr]%andb_true_iff. split; [|by apply IH].
  by destruct (hex_digit_facts c Hc) as (_ & _ & _ & _ & H & _).
Qed.

Lemma rstrip_keeps_hex (d : string) :
  all_hex_digits d = true -> rstrip is_int_space d = d.
Proof.
  intros Hd. unfold rstrip. rewrite lstrip_keeps; [apply rev_rev|].
  apply (rev_app_head (fun c => is_int_space c = false) d "");
    [by apply all_hex_all | exact I].
Qed.

(** Plain hexadecimal numerals always pass the check of the code. *)
Lemma hex_numerals_pass (text : string) :
  spec_hex_parseable text = true ->
  exists v, py_int 16 (with_prefix text) = Some v.
Proof.
  intros H.
  assert (exists d, with_prefix text = "0x" ++ d /\ d <> "" /\
                    all_hex_digits d = true) as (d & -> & Hne & Hd).
  { unfold spec_hex_parseable in H. unfold with_prefix, startswith.
    destruct text as [|c1 [|c2 r]].
    - discriminate.
    - cbn. exists (String c1 ""). split; [|split; [done|]].
      + destruct (Ascii.eqb_spec c1 "0") as [-> | ]; [reflexivity|].
        destruct c1 as [[] [] [] [] [] [] [] []]; try reflexivity; done.
      + destruct c1 as [[] [] [] [] [] [] [] []]; exact H.
    - destruct (Ascii.eqb_spec c1 "0") as [-> | N1];
        [destruct (Ascii.eqb_spec c2 "x") as [-> | N2]|].
      + exists r. cbn in H |- *. apply andb_true_iff in H as [Hn Hh].
        assert (String.prefix "" r = true) as -> by (by destruct r).
        split; [reflexivity|]. split; [|exact Hh].
        intros ->. discriminate.
      + exists (String "0" (String c2 r)).
        assert (String.prefix "0x" (String "0" (String c2 r)) = false) as ->.
        { cbn [String.prefix].
          destruct (Ascii.ascii_dec "0" "0") as [_ | ]; [|done].
          by destruct (Ascii.ascii_dec "x" c2) as [<- | ]. }
        cbn [negb]. split; [done|]. split; [done|].
        destruct c2 as [[] [] [] [] [] [] [] []]; try exact H; done.
      + exists (String c1 (String c2 r)).
        assert (String.prefix "0x" (String c1 (String c2 r)) = false) as ->.
        { cbn [String.prefix].
          by destruct (Ascii.ascii_dec "0" c1) as [<- | ]. }
        cbn [negb]. split; [done|]. split; [done|].
        destruct c1 as [[] [] [] [] [] [] [] []]; try exact H; done. }
  unfold py_int.
  assert (all_hex_digits ("0" ++ d) = true) as H0 by exact Hd.
  assert (decimal_and_space_to_ascii ("0x" ++ d) = Some ("0x" ++ d)) as ->.
  { change ("0x" ++ d) with (String "0" (String "x" d)).
    cbn [decimal_and_space_to_ascii].
    rewrite (to_ascii_hex d Hd). reflexivity. }
  cbn [Z.eqb andb].
  assert (rstrip is_int_space (lstrip is_int_space ("0x" ++ d)) = "0x" ++ d)
    as ->.
  { rewrite lstrip_keeps by reflexivity.
    unfold rstrip. rewrite lstrip_keeps; [apply rev_rev|].
    change ("0x" ++ d) with (String "0" (String "x" d)).
    apply (rev_app_head (fun c => is_int_space c = false) _ "");
      [|exact I].
    split; [reflexivity|]. split; [reflexivity|]. by apply all_hex_all. }
  destruct d as [|c r]; [done|].
  cbn [all_hex_digits] in Hd. pose proof Hd as Hd'.
  apply andb_true_iff in Hd' as [Hc _].
  destruct (hex_digit_facts c Hc) as (_ & Hu & _).
  change (exists v, int_body 16 (String "0" (String "x" (String c r)))
                    = Some v).
  assert (int_body 16 (String "0" (String "x" (String c r))) =
          int_digits 16 false 0 (String c r)) as ->.
  { destruct c as [[] [] [] [] [] [] [] []]; try reflexivity;
      discriminate Hu. }
  apply (int_digits_hex (String c r) Hd). by left.
Qed.

(** X17. A plain hexadecimal numeral, one or more hexadecimal digits with
    or without [0x] in front and with blanks around it, passes the check
    of the two identifier fields of the settings dialog. *)
Theorem hex_numerals_accepted (entry_text : string) :
  spec_hex_parseable (strip entry_text) = true -> hex_ok entry_text = true.
Proof.
  intros H. unfold hex_ok.
  by destruct (hex_numerals_pass (strip entry_text) H) as [v ->].
Qed.

Lemma hex_numerals_accepted_witness :
  spec_hex_parseable (strip " 0FE6 ") = true /\ hex_ok " 0FE6 " = true.
Proof.
  split; [reflexivity | apply (hex_numerals_accepted " 0FE6 "); reflexivity].
Defined.

(** ** The presence monitor *)




(** X12. Identifiers stored as numbers, which the accessors pass on to the
    connection as they are, are not found by the monitor: when the vendor
    or the product identifier of the configuration is not a string, the
    check returns [False] whatever [lsusb] prints, so every round of the
    monitor posts [_set_device_status(False)]. *)
Theorem check_usb_device_needs_text (py_float : string -> option float)
  (time_sleep : float -> option exn)
  (s : state) (m : gmap string pyval) (key : string) (v : pyval)
  (lsusb : res string) :
  config s = PyDict m ->
  key = "vendor_id" \/ key = "product_id" ->
  m !! key = Some v -> is_str v = false ->
  _check_usb_device lsusb s = (Ok false, s) /\
  run (check lsusb) s = step py_float time_sleep (LProbe false) s.
Proof.
  intros Hc Hk Hm Hv.
  assert (_check_usb_device lsusb s = (Ok false, s)) as H.
  { unfold _check_usb_device, try_except, try_except_on, bind, get, lift,
      ret, replace_lower.
    rewrite Hc. cbn [py_get]. destruct Hk as [-> | ->]; rewrite Hm.
    - by destruct v.
    - destruct (m !! "vendor_id") as [[]|]; cbn; try done;
        by destruct v. }
  split; [exact H|].
  unfold run, check, bind. by rewrite H.
Qed.

Lemma check_usb_device_needs_text_witness :
  fst (_get_vendor_id boot_numeric_ids) = Ok (PyInt 0x0fe6) /\
  _check_usb_device (Ok lsusb_line) boot_numeric_ids =
    (Ok false, boot_numeric_ids).
Proof.
  split; [vm_compute; reflexivity|].
  assert (exists m : gmap string pyval,
             config boot_numeric_ids = PyDict m /\
             m !! "vendor_id" = Some (PyInt 4070)) as (m & Hc & Hv).
  { eexists. split; vm_compute; reflexivity. }
  exact (proj1 (check_usb_device_needs_text float_of_text sleep_returns boot_numeric_ids m
                  "vendor_id" (PyInt 4070) (Ok lsusb_line) Hc
                  (or_introl eq_refl) Hv eq_refl)).
Defined.

(** Identifiers typed without their leading zero are accepted and
    connect, but the monitor looks for the text as typed: the printer
    0fe6:011e is not found under "11e". *)
Example monitor_misses_short_identifier :
  let s := run (save_settings "0fe6" "11e" "0") boot in
  fst (_get_product_id s) = Ok (PyInt 0x011e) /\
  fst (_check_usb_device
         (Ok ("Bus 001 Device 004: ID 0fe6:011e Printer" ++ nl)) s) =
    Ok false.
Proof. vm_compute. split; reflexivity. Qed.

(** ** The configuration of the running application *)

#[export] Instance keeps_complete_preorder : PreOrder keeps_complete.
Proof.
  split.
  - intros s H. exact H.
  - intros a b c Hab Hbc Ha. apply Hbc, Hab, Ha.
Qed.

Lemma complete_config_set (key : string) (v : pyval) :
  keeps keeps_complete (config_set key v).
Proof.
  intros s (m & Hc & Hk).
  unfold run, config_set, bind, get, lift, modify. rewrite Hc. cbn.
  exists (<[key := v]> m). split; [done|].
  intros k Hin. destruct (decide (key = k)) as [->|Hne].
  - rewrite lookup_insert_eq. eauto.
  - rewrite lookup_insert_ne by done. by apply Hk.
Qed.

Ltac complete_leaf :=
  let H := fresh in
  intros ? H;
  unfold run, after, modify, _make_popup, acquire_nonblocking, release, pcall,
    call, Usb, open_for_write, json_dump, entry_get, btn_auto_configure,
    progress_label_configure, configure_manual_label, configure_auto_label,
    progress_bar_set, true_div, configure_progress_label, new_thread, float_of, int16,
    int10, raise, ret, get, lift;
  cbn; repeat (case_match; cbn); exact H.

Ltac complete_pre :=
  idtac;
  match goal with
  | |- keeps _ (config_set _ _) => apply complete_config_set
  end.

Lemma complete_save_config (cfg : pyval) :
  keeps keeps_complete (save_config cfg).
Proof. unfold save_config. walk complete_leaf. Qed.

Lemma complete_run_callback (cb : callback) :
  keeps keeps_complete (run_callback cb).
Proof.
  destruct cb; cbn [run_callback];
    unfold _set_counter_from_thread, _print_and_reset, _safe_print_call,
      _auto_cleanup_ui, entries_configure, print_count, print_count_body, test_print, test_print_body,
      connect_printer, _set_device_status, _update_label, _get_vendor_id,
      _get_product_id, _get_interface;
    walk complete_leaf.
Qed.

Lemma complete_handle_action (py_float : string -> option float)
  (a : action) :
  keeps keeps_complete (handle_action py_float a).
Proof.
  destruct a; cbn [handle_action _safe_print_call _safe_test_print_call];
    unfold _manual_add, _reset_counter, _toggle_auto, entries_configure,
      save_settings, check_hex, check_int, save_config, print_count, print_count_body,
      test_print, test_print_body, connect_printer, _set_device_status, _update_label,
      _get_vendor_id, _get_product_id, _get_interface;
    walk_with complete_pre complete_leaf.
Qed.

Lemma complete_step (py_float : string -> option float)
  (time_sleep : float -> option exn) (l : label)
  (s : state) :
  complete (config s) -> complete (config (step py_float time_sleep l s)).
Proof.
  intros H. destruct l as [t| |a|c]; cbn [step].
  - destruct (threads s !! t) as [pc|]; [|exact H].
    destruct pc; cbn [worker_step];
      try match goal with
          | |- context [time_sleep ?iv] => destruct (time_sleep iv)
          | |- context [if ?c then _ else _] => destruct c
          end;
      exact H.
  - destruct (after_log s !! after_done s) as [[who cb]|]; [|exact H].
    by apply complete_run_callback.
  - by apply complete_handle_action.
  - exact H.
Qed.

(** X13. Once the application has started, its configuration is a dict that
    has every recognized key in every state it reaches, whatever the file
    held, the user saves and the threads do; so [_get_interface], the one
    accessor without a handler, never raises. *)
Theorem configuration_stays_complete (py_float : string -> option float)
  (time_sleep : float -> option exn)
  (d : disk) (cfg : pyval) (s0 : state) (sched : list label) :
  __init__ d = Ok cfg -> config s0 = cfg ->
  let s := exec py_float time_sleep sched s0 in
  complete (config s) /\ exists v, fst (_get_interface s) = Ok v.
Proof.
  intros Hi Hc s.
  assert (complete (config s0)) as H0.
  { pose proof (init_cases d) as H. rewrite Hi in H.
    by rewrite Hc. }
  assert (complete (config s)) as H.
  { subst s. clear Hi Hc. revert s0 H0.
    induction sched as [|l sched IH]; intros s0 H0; [exact H0|].
    rewrite exec_cons. apply IH. by apply complete_step. }
  split; [exact H|]. destruct H as (m & Hm & _).
  unfold _get_interface, bind, get, lift. rewrite Hm. cbn. eauto.
Qed.

Lemma configuration_stays_complete_witness :
  let s := exec float_of_text sleep_returns
             [LUser (ClickSave "1a86" "7584" "0"); LUser ClickPrint]
             boot_null_vendor in
  complete (config s) /\ exists v, fst (_get_interface s) = Ok v.
Proof.
  exact (configuration_stays_complete float_of_text sleep_returns null_vendor_file
           (config boot_null_vendor) boot_null_vendor
           [LUser (ClickSave "1a86" "7584" "0"); LUser ClickPrint]
           eq_refl eq_refl).
Defined.

(** ** Connecting *)

(** X14. [connect_printer] never raises and returns whether a handle is held
    afterwards.  With a handle held it does nothing.  Without one it makes
    one attempt to connect: on success the new handle is held, the device
    counts as connected and nothing is posted; on failure no handle is
    held and exactly one "Connection Error" popup is posted to the main
    loop. *)
Theorem connect_printer_result (s : state) :
  let s' := run connect_printer s in
  exists b,
    fst (connect_printer s) = Ok b /\
    (b = true <-> is_Some (printer s')) /\
    (is_Some (printer s) -> s' = s) /\
    (printer s = None -> b = true ->
     device_connected s' = true /\ after_log s' = after_log s /\
     printer s' = Some (next_handle (usb s))) /\
    (b = false ->
     exists msg,
       after_log s' =
         (after_log s ++
            [(Main, CbPopup (mkPopup "Connection Error" msg "error"))])%list).
Proof.
  intros s'. subst s'.
  unfold run, connect_printer, bind, get.
  destruct (printer s) as [h|] eqn:Hp; cbn.
  - exists true. rewrite Hp.
    repeat split; try done; eauto; intros; discriminate.
  - destruct (get_vendor_id_pure s) as (vid & Hv).
    destruct (get_product_id_pure s) as (pid & Hpid).
    unfold try_except, try_except_on, bind, _set_device_status, modify, ret,
      after, Usb, _get_interface, get, lift.
    rewrite Hv, Hpid. cbn.
    destruct (py_get (config s) "interface" (PyInt 0)) as [iface|e]; cbn.
    + destruct (next_outcome (usb s)) as [[|] rest]; cbn.
      * exists true. repeat split; try done; eauto;
          intros; by destruct H.
      * exists false. repeat split; try done; eauto;
          try (intros; by destruct H); intros [x Hx]; discriminate.
    + exists false. repeat split; try done; eauto;
        try (intros; by destruct H); intros [x Hx]; discriminate.
Qed.

Lemma connect_printer_result_witness :
  printer (run connect_printer boot) = Some 0%nat /\
  device_connected (run connect_printer boot) = true.
Proof.
  destruct (connect_printer_result boot) as (b & Hb & _ & _ & Hnew & _).
  assert (b = true) as -> by (vm_compute in Hb; congruence).
  destruct (Hnew eq_refl eq_refl) as (Hd & _ & Hp).
  split; [exact Hp | exact Hd].
Defined.

(** ** The notice of a print job *)

#[export] Instance same_notices_preorder : PreOrder same_notices.
Proof.
  split.
  - by intros s.
  - intros a b c [H1 H2] [H3 H4]. split; congruence.
Qed.

Ltac notices_leaf :=
  intros ?; split;
  unfold run, modify, acquire_nonblocking, release, pcall, call, Usb, int16,
    raise, ret, get;
  cbn; repeat (case_match; cbn); reflexivity.

Lemma ends_with_bind {A} (p : popup) (m : M A) (k : A -> M unit) :
  keeps same_notices m -> (forall a, ends_with p (k a)) ->
  ends_with p (bind m k).
Proof.
  intros Hm Hk s. unfold bind. specialize (Hm s). unfold run in Hm.
  destruct (m s) as [[a|e] s1]; cbn in Hm; [|exact Hm].
  specialize (Hk a s1). destruct Hm as [H1 H2].
  destruct (k a s1) as [[[]|e] s2].
  - destruct Hk as [H3 H4]. split; congruence.
  - destruct Hk as [H3 H4]. split; congruence.
Qed.

Lemma ends_with_popup (t msg ty : string) :
  ends_with (mkPopup t msg ty) (_make_popup t msg ty).
Proof. intros s. by cbn. Qed.

Lemma connect_printer_notice (s : state) :
  exists b s',
    connect_printer s = (Ok b, s') /\ popups s' = popups s /\
    print_lock s' = print_lock s /\
    (b = true -> after_log s' = after_log s) /\
    (b = false ->
     printer s' = None /\
     exists msg,
       after_log s' =
         (after_log s ++
            [(Main, CbPopup (mkPopup "Connection Error" msg "error"))])%list).
Proof.
  unfold connect_printer, bind, get.
  destruct (printer s) as [h|] eqn:Hp; cbn.
  - exists true, s. repeat split; try done; intros; discriminate.
  - destruct (get_vendor_id_pure s) as (vid & Hv).
    destruct (get_product_id_pure s) as (pid & Hpid).
    unfold try_except, try_except_on, bind, _set_device_status, modify, ret,
      after, Usb, _get_interface, get, lift.
    rewrite Hv, Hpid. cbn.
    destruct (py_get (config s) "interface" (PyInt 0)) as [iface|e]; cbn.
    + destruct (next_outcome (usb s)) as [[|] rest]; cbn.
      * eexists true, _. split; [reflexivity|]. cbn.
        repeat split; try done; intros; discriminate.
      * eexists false, _. split; [reflexivity|]. cbn.
        repeat split; try done; eauto; intros; discriminate.
    + eexists false, _. split; [reflexivity|]. cbn.
      repeat split; try done; eauto; intros; discriminate.
Qed.

Lemma one_notice_job (p : popup) (body : M unit) (hd_msg : exn -> string)
  (s : state) :
  ends_with p body -> print_lock s = false ->
  one_notice p s
    (run (got <- acquire_nonblocking ;;
          if negb got then _make_popup "Info" busy_text "info"
          else
            try_finally
              (try_except
                 (connected <- connect_printer ;;
                  if negb connected then ret tt else body)
                 (fun e => _make_popup "Print Error" (hd_msg e) "error"))
              (try_except release (fun _ => ret tt))) s).
Proof.
  intros Hb Hl. unfold run at 1, bind at 1, acquire_nonblocking.
  rewrite Hl. cbn [negb].
  change (one_notice p s
            (run (try_finally
                    (try_except
                       (connected <- connect_printer ;;
                        if negb connected then ret tt else body)
                       (fun e => _make_popup "Print Error" (hd_msg e)
                                   "error"))
                    (try_except release (fun _ => ret tt)))
               (set_print_lock true s))).
  rewrite run_try_finally.
  set (s1 := set_print_lock true s).
  destruct (connect_printer_notice s1) as (b & s2 & Hcp & Hpop & Hlk & Ht & Hf).
  assert (forall x, popups (run (try_except release (fun _ => ret tt)) x)
                    = popups x /\
                    after_log (run (try_except release (fun _ => ret tt)) x)
                    = after_log x /\
                    printer (run (try_except release (fun _ => ret tt)) x)
                    = printer x) as Hrel.
  { intros x. unfold run, try_except, try_except_on, release, ret.
    destruct (print_lock x); cbn; done. }
  remember (run (try_except release (fun _ => ret tt))) as rel eqn:Erel.
  clear Erel.
  unfold run, try_except, try_except_on, bind. rewrite Hcp.
  destruct b; cbn [negb].
  - specialize (Hb s2). specialize (Ht eq_refl).
    destruct (body s2) as [[[]|e] s3]; cbn.
    + destruct Hb as [H1 H2]. destruct (Hrel s3) as (R1 & R2 & _).
      left. exists p. rewrite R1, R2, H1, H2, Hpop, Ht. cbn.
      split; [done|]. split; [done|]. by left.
    + destruct Hb as [H1 H2].
      destruct (Hrel (set_popups
                        (popups s3 ++ [mkPopup "Print Error" (hd_msg e)
                                         "error"]) s3)) as (R1 & R2 & _).
      left. exists (mkPopup "Print Error" (hd_msg e) "error").
      unfold _make_popup, modify. cbn. rewrite R1, R2. cbn.
      rewrite H1, H2, Hpop, Ht. cbn.
      split; [done|]. split; [done|]. right. eauto.
  - destruct (Hf eq_refl) as (Hn & msg & Ha). cbn.
    destruct (Hrel s2) as (R1 & R2 & R3).
    right. rewrite R1, R2, R3, Hpop, Hn, Ha. cbn.
    split; [done|]. split; [done|]. eauto.
Qed.

(** X15. A print job that finds the lock free gives exactly one notice,
    whatever the transport does: the "Success" popup or a "Print Error"
    popup, shown at once with nothing posted, or, when the connection
    failed, a "Connection Error" popup posted to the main loop with
    nothing shown and no handle held. *)
Theorem print_job_one_notice (s : state) :
  print_lock s = false ->
  one_notice (mkPopup "Success" "Struk berhasil dicetak." "success") s
    (run print_count s) /\
  one_notice (mkPopup "Success" "Test print berhasil." "success") s
    (run test_print s).
Proof.
  intros Hl. split.
  - unfold print_count, print_count_body.
    apply (one_notice_job _ _
             (fun e => "Gagal mencetak:" ++ nl ++ py_str_exn e)); [|exact Hl].
    repeat (apply ends_with_bind; [walk notices_leaf | intros ?]).
    apply ends_with_popup.
  - unfold test_print, test_print_body.
    apply (one_notice_job _ _
             (fun e => "Gagal mencetak:" ++ nl ++ py_str_exn e)); [|exact Hl].
    repeat (apply ends_with_bind; [walk notices_leaf | intros ?]).
    apply ends_with_popup.
Qed.

Lemma print_job_one_notice_witness :
  one_notice (mkPopup "Success" "Struk berhasil dicetak." "success")
    (boot_with_script [false]) (run print_count (boot_with_script [false])) /\
  one_notice (mkPopup "Success" "Test print berhasil." "success")
    (boot_with_script [false]) (run test_print (boot_with_script [false])).
Proof. exact (print_job_one_notice (boot_with_script [false]) eq_refl). Defined.
